(** * IoT Data Generator: a shallow embedding of [iot_data_generator.py]

    The development has two parts.  Part I embeds the program: the Python
    runtime pieces it relies on (exceptions, binary64 arithmetic,
    [datetime], the [random] module), then [IoTDataGenerator],
    [StatisticsDialog.generate_statistics], the handlers of [PlotFrame]
    and those of [MainWindow].  Part II states and proves the properties
    of the specification, then further properties of the generator, of
    the generation thread, of the preview, of the Statistics menu and of
    the plot window.

    Conventions.
    - A Python [int] is a [Z].
    - A Python [float] is represented by the exact rational value of the
      IEEE-754 binary64 number; every arithmetic operation computes the
      exact result and rounds it to nearest-even with [Float64.RN].  Only
      finite values occur in this program (all magnitudes stay below 2^7),
      so infinities and NaN are not represented.
    - A Python [str] is a [string] holding the bytes of its UTF-8
      encoding (a text with a lone surrogate is not represented); [len],
      slices and the digits of [strptime] go by characters, not by bytes
      (module [Unicode]).  A [list] is a [list]; the dictionaries with a
      fixed key set are records.
    - A call that may raise returns a [result]; code that also reads the
      global random generators runs in the state-and-exception monad [M]. *)

From Stdlib Require Import ZArith QArith Qround Qpower Qabs Qreduction.
From Stdlib Require Import Lia Lqa List Bool String Ascii DecimalString.
From Stdlib Require Import Sorted RelationClasses.
From Stdlib Require OrdersEx.
Import ListNotations.

(* ================================================================== *)
(** * Part I: the embedding *)
(* ================================================================== *)

(** ** Exceptions and results *)

Inductive exn : Type :=
| ValueError
| OverflowError
| IndexError.

Inductive result (A : Type) : Type :=
| Ok (a : A)
| Raise (e : exn).

Arguments Ok {A} a.
Arguments Raise {A} e.

Definition result_bind {A B : Type} (r : result A) (k : A -> result B) : result B :=
  match r with
  | Ok a => k a
  | Raise e => Raise e
  end.

(** ** Binary64 arithmetic *)

Module Float64.

Local Open Scope Q_scope.

(** Round half to even, to an integer. *)
Definition rne (x : Q) : Z :=
  let f := Qfloor x in
  match Qcompare (x - inject_Z f) (1 # 2) with
  | Lt => f
  | Gt => (f + 1)%Z
  | Eq => if Z.even f then f else (f + 1)%Z
  end.

(** Magnitude of a non-zero rational: the [e] with [2^(e-1) <= |x| < 2^e]. *)
Definition mag (x : Q) : Z :=
  let l := (Z.log2 (Z.abs (Qnum x)) - Z.log2 (Zpos (Qden x)))%Z in
  if Qle_bool (2 ^ l) (Qabs x) then (l + 1)%Z else l.

(** Exponent of the unit in the last place: 53 bits of precision, and the
    fixed exponent [-1074] in the subnormal range. *)
Definition cexp (x : Q) : Z := Z.max (mag x - 53) (-1074).

(** Rounding to the nearest binary64 number, ties to even. *)
Definition RN (x : Q) : Q :=
  if Qeq_bool x 0 then 0
  else Qred (inject_Z (rne (x / 2 ^ cexp x)) * 2 ^ cexp x).

Definition fadd (x y : Q) : Q := RN (x + y).
Definition fsub (x y : Q) : Q := RN (x - y).
Definition fmul (x y : Q) : Q := RN (x * y).

(** [float(n)] for an [int] n. *)
Definition float_of_int (n : Z) : Q := RN (inject_Z n).

(** [round(x, ndigits)] on a float: the decimal expansion of the exact
    value, correctly rounded (half to even) to [ndigits] places, converted
    back to the nearest binary64 number. *)
Definition round (x : Q) (ndigits : Z) : Q :=
  RN (inject_Z (rne (x * 10 ^ ndigits)) / 10 ^ ndigits).

End Float64.

(** ** Text *)

(** Characters of a [str], read from the bytes of its UTF-8 encoding. *)
Module Unicode.

Local Open Scope Z_scope.

Definition byte (c : ascii) : Z := Z.of_nat (nat_of_ascii c).

(** A byte that continues a character: [10xxxxxx]. *)
Definition is_continuation (c : ascii) : bool :=
  (128 <=? byte c) && (byte c <? 192).

(** [len(s)]: the number of characters. *)
Fixpoint len (s : string) : nat :=
  match s with
  | EmptyString => O
  | String c rest => if is_continuation c then len rest else S (len rest)
  end.

(** [s[:n]]: the first [n] characters, each with all its bytes. *)
Fixpoint take (n : nat) (s : string) : string :=
  match s with
  | EmptyString => EmptyString
  | String c rest =>
      if is_continuation c then String c (take n rest)
      else
        match n with
        | O => EmptyString
        | S n' => String c (take n' rest)
        end
  end.

(** The first character of [s], as its code point, and the rest of [s]. *)
Definition next_char (s : string) : option (Z * string) :=
  match s with
  | EmptyString => None
  | String a rest =>
      let n := byte a in
      if n <? 128 then Some (n, rest)
      else if n <? 192 then None
      else if n <? 224 then
        match rest with
        | String b rest =>
            if is_continuation b then Some ((n - 192) * 64 + (byte b - 128), rest)
            else None
        | _ => None
        end
      else if n <? 240 then
        match rest with
        | String b (String c rest) =>
            if is_continuation b && is_continuation c then
              Some (((n - 224) * 64 + (byte b - 128)) * 64 + (byte c - 128), rest)
            else None
        | _ => None
        end
      else if n <? 248 then
        match rest with
        | String b (String c (String d rest)) =>
            if is_continuation b && is_continuation c && is_continuation d then
              Some ((((n - 240) * 64 + (byte b - 128)) * 64 + (byte c - 128)) * 64
                    + (byte d - 128), rest)
            else None
        | _ => None
        end
      else None
  end.

(** The decimal digits (category Nd) come in runs of ten, from the digit
    0 to the digit 9 of a script.  These are the code points of the 66
    digits 0 of Unicode 14.0, the version of CPython 3.11: the ASCII
    digit first, then those of the other scripts, the fullwidth digit at
    65296 and the five mathematical ones from 120782 among them. *)
Definition decimal_zeros : list Z :=
  [48; 1632; 1776; 1984; 2406; 2534; 2662; 2790; 2918; 3046; 3174; 3302; 3430;
   3558; 3664; 3792; 3872; 4160; 4240; 6112; 6160; 6470; 6608; 6784; 6800; 6992;
   7088; 7232; 7248; 42528; 43216; 43264; 43472; 43504; 43600; 44016; 65296;
   66720; 68912; 69734; 69872; 69942; 70096; 70384; 70736; 70864; 71248; 71360;
   71472; 71904; 72016; 72784; 73040; 73120; 92768; 92864; 93008; 120782; 120792;
   120802; 120812; 120822; 123200; 123632; 125264; 130032].

(** The value of a decimal digit: what [\d] accepts and [int] converts. *)
Definition decimal (code : Z) : option Z :=
  match find (fun zero => (zero <=? code) && (code <? zero + 10)) decimal_zeros with
  | Some zero => Some (code - zero)
  | None => None
  end.

End Unicode.

(** ** The [datetime] module *)

Module Datetime.

Local Open Scope Z_scope.

Definition MINYEAR : Z := 1.
Definition MAXYEAR : Z := 9999.
Definition _MAXORDINAL : Z := 3652059.

Definition _DAYS_IN_MONTH : list Z :=
  [-1; 31; 28; 31; 30; 31; 30; 31; 31; 30; 31; 30; 31].

Definition _DAYS_BEFORE_MONTH : list Z :=
  [-1; 0; 31; 59; 90; 120; 151; 181; 212; 243; 273; 304; 334].

(** [l[i]] for the two tables above, which are only indexed in range. *)
Definition index (l : list Z) (i : Z) : Z := nth (Z.to_nat i) l (-1).

Definition b2z (b : bool) : Z := if b then 1 else 0.

Definition _is_leap (year : Z) : bool :=
  (year mod 4 =? 0) && (negb (year mod 100 =? 0) || (year mod 400 =? 0)).

Definition _days_before_year (year : Z) : Z :=
  let y := year - 1 in y * 365 + y / 4 - y / 100 + y / 400.

Definition _days_in_month (year month : Z) : Z :=
  if (month =? 2) && _is_leap year then 29 else index _DAYS_IN_MONTH month.

Definition _days_before_month (year month : Z) : Z :=
  index _DAYS_BEFORE_MONTH month + b2z ((2 <? month) && _is_leap year).

Definition _ymd2ord (year month day : Z) : Z :=
  _days_before_year year + _days_before_month year month + day.

Definition _DI400Y : Z := Eval cbv in _days_before_year 401.
Definition _DI100Y : Z := Eval cbv in _days_before_year 101.
Definition _DI4Y : Z := Eval cbv in _days_before_year 5.

Definition _ord2ymd (n : Z) : Z * Z * Z :=
  let n := n - 1 in
  let n400 := n / _DI400Y in let n := n mod _DI400Y in
  let year := n400 * 400 + 1 in
  let n100 := n / _DI100Y in let n := n mod _DI100Y in
  let n4 := n / _DI4Y in let n := n mod _DI4Y in
  let n1 := n / 365 in let n := n mod 365 in
  let year := year + (n100 * 100 + n4 * 4 + n1) in
  if (n1 =? 4) || (n100 =? 4) then (year - 1, 12, 31)
  else
    let leapyear := (n1 =? 3) && (negb (n4 =? 24) || (n100 =? 3)) in
    let month := Z.shiftr (n + 50) 5 in
    let preceding := index _DAYS_BEFORE_MONTH month + b2z ((2 <? month) && leapyear) in
    let '(month, preceding) :=
      if n <? preceding then
        (month - 1,
         preceding - (index _DAYS_IN_MONTH (month - 1) + b2z ((month - 1 =? 2) && leapyear)))
      else (month, preceding) in
    (year, month, n - preceding + 1).

(** A [datetime] without time zone; the microsecond field is 0 in this
    program and is left out. *)
Record datetime : Type := mk_datetime {
  year : Z; month : Z; day : Z;
  hour : Z; minute : Z; second : Z
}.

(** A normalised [timedelta] (microseconds are 0 throughout). *)
Record timedelta : Type := mk_timedelta {
  days : Z;
  seconds : Z
}.

(** [timedelta(days, seconds=, minutes=, hours=)] on integers. *)
Definition new_timedelta (days seconds minutes hours : Z) : result timedelta :=
  let seconds := seconds + (minutes * 60 + hours * 3600) in
  let d := days + seconds / (24 * 3600) in
  let s := seconds mod (24 * 3600) in
  if 999999999 <? Z.abs d then Raise OverflowError
  else Ok {| days := d; seconds := s |}.

(** [timedelta.__add__] *)
Definition timedelta_add (a b : timedelta) : result timedelta :=
  new_timedelta (days a + days b) (seconds a + seconds b) 0 0.

Definition toordinal (dt : datetime) : Z := _ymd2ord (year dt) (month dt) (day dt).

(** [_check_date_fields] *)
Definition date_fields_ok (y m d : Z) : bool :=
  (MINYEAR <=? y) && (y <=? MAXYEAR) && (1 <=? m) && (m <=? 12)
  && (1 <=? d) && (d <=? _days_in_month y m).

(** [datetime.__add__] *)
Definition datetime_add (self : datetime) (other : timedelta) : result datetime :=
  result_bind (new_timedelta (toordinal self) (second self) (minute self) (hour self))
    (fun delta =>
  result_bind (timedelta_add delta other)
    (fun delta =>
  let hour := seconds delta / 3600 in
  let rem := seconds delta mod 3600 in
  let minute := rem / 60 in
  let second := rem mod 60 in
  if (0 <? days delta) && (days delta <=? _MAXORDINAL) then
    let '(y, m, d) := _ord2ymd (days delta) in
    Ok (mk_datetime y m d hour minute second)
  else Raise OverflowError)).

(** *** Text of dates *)

(** A digit of the classes [[0-9]], [[1-9]], ... of a regular expression:
    an ASCII digit. *)
Definition digit_of (c : ascii) : option Z :=
  let n := Z.of_nat (nat_of_ascii c) in
  if (48 <=? n) && (n <=? 57) then Some (n - 48) else None.

(** [\d]: one decimal digit of any script, with its value. *)
Definition match_digit (s : string) : option (Z * string) :=
  match Unicode.next_char s with
  | Some (code, rest) =>
      match Unicode.decimal code with
      | Some d => Some (d, rest)
      | None => None
      end
  | None => None
  end.

(** The alternatives of a group are tried in order. *)
Definition or_else {A : Type} (first : option A) (second : option A) : option A :=
  match first with
  | Some a => Some a
  | None => second
  end.

(** [str(n)] for an [int]. *)
Definition str_int (n : Z) : string := NilZero.string_of_int (Z.to_int n).

Fixpoint repeat_char (c : ascii) (n : nat) : string :=
  match n with
  | O => EmptyString
  | S n' => String c (repeat_char c n')
  end.

(** ["%0<width>d" % n] for a non-negative [n]. *)
Definition zero_padded (width : nat) (n : Z) : string :=
  let s := str_int n in
  (repeat_char "0" (width - String.length s) ++ s)%string.

(** The directive [%m] of [strptime]: [1[0-2]|0[1-9]|[1-9]], tried in this
    order; the result is the value and the rest of the text. *)
Definition match_month (s : string) : option (Z * string) :=
  let two :=
    match s with
    | String a (String b rest) =>
        match digit_of a, digit_of b with
        | Some 1, Some d => if d <=? 2 then Some (10 + d, rest) else None
        | Some 0, Some d => if 1 <=? d then Some (d, rest) else None
        | _, _ => None
        end
    | _ => None
    end in
  match two with
  | Some r => Some r
  | None =>
      match s with
      | String a rest =>
          match digit_of a with
          | Some d => if 1 <=? d then Some (d, rest) else None
          | None => None
          end
      | EmptyString => None
      end
  end.

(** The directive [%d]: [3[0-1]|[1-2]\d|0[1-9]|[1-9]| [1-9]]; only the
    second alternative has a [\d]. *)
Definition match_day (s : string) : option (Z * string) :=
  match s with
  | EmptyString => None
  | String a rest =>
      let ascii_pair (ok : Z -> Z -> bool) :=
        match digit_of a, rest with
        | Some x, String b rest' =>
            match digit_of b with
            | Some y => if ok x y then Some (10 * x + y, rest') else None
            | None => None
            end
        | _, _ => None
        end in
      or_else (ascii_pair (fun x y => (x =? 3) && (y <=? 1)))
     (or_else (match digit_of a with
               | Some x =>
                   if (x =? 1) || (x =? 2) then
                     match match_digit rest with
                     | Some (y, rest') => Some (10 * x + y, rest')
                     | None => None
                     end
                   else None
               | None => None
               end)
     (or_else (ascii_pair (fun x y => (x =? 0) && (1 <=? y)))
     (or_else (match digit_of a with
               | Some x => if 1 <=? x then Some (x, rest) else None
               | None => None
               end)
              (if Ascii.eqb a " " then
                 match rest with
                 | String b rest' =>
                     match digit_of b with
                     | Some y => if 1 <=? y then Some (y, rest') else None
                     | None => None
                     end
                 | EmptyString => None
                 end
               else None))))
  end.

(** The directive [%Y]: [\d\d\d\d]. *)
Definition match_year (s : string) : option (Z * string) :=
  match match_digit s with
  | Some (a, s) =>
  match match_digit s with
  | Some (b, s) =>
  match match_digit s with
  | Some (c, s) =>
  match match_digit s with
  | Some (d, s) => Some (1000 * a + 100 * b + 10 * c + d, s)
  | None => None
  end
  | None => None
  end
  | None => None
  end
  | None => None
  end.

Definition match_dash (s : string) : option string :=
  match s with
  | String c rest => if Ascii.eqb c "-" then Some rest else None
  | EmptyString => None
  end.

(** [datetime.strptime(data_string, '%Y-%m-%d')]: the text must match the
    format with nothing left over, and the fields must form a date. *)
Definition strptime (data_string : string) : result datetime :=
  match match_year data_string with
  | None => Raise ValueError
  | Some (y, s) =>
  match match_dash s with
  | None => Raise ValueError
  | Some s =>
  match match_month s with
  | None => Raise ValueError
  | Some (m, s) =>
  match match_dash s with
  | None => Raise ValueError
  | Some s =>
  match match_day s with
  | None => Raise ValueError
  | Some (d, EmptyString) =>
      if date_fields_ok y m d then Ok (mk_datetime y m d 0 0 0)
      else Raise ValueError
  | Some (_, String _ _) => Raise ValueError
  end end end end end.

(** [dt.strftime('%Y-%m-%d')] and [dt.strftime('%H:%M:%S')], as the C
    library of Linux writes them: [%Y] is the year without padding (999,
    not 0999), the other fields have two digits. *)
Definition strftime_date (dt : datetime) : string :=
  (str_int (year dt) ++ "-" ++ zero_padded 2 (month dt) ++ "-"
   ++ zero_padded 2 (day dt))%string.

Definition strftime_time (dt : datetime) : string :=
  (zero_padded 2 (hour dt) ++ ":" ++ zero_padded 2 (minute dt) ++ ":"
   ++ zero_padded 2 (second dt))%string.

End Datetime.

(** ** Global generators: the [random] module and the [Faker] instance *)

(** The two generators are sources of values the program does not control.
    Each is a tape of raw draws with a cursor; every library call reads one
    cell and moves the cursor. *)
Record World : Type := mk_World {
  entropy : nat -> Z;        (* raw draws of the [random] module *)
  cursor : nat;
  fake_text : nat -> string; (* successive texts produced by [fake] *)
  fake_cursor : nat
}.

(** State-and-exception monad over the generators. *)
Definition M (A : Type) : Type := World -> result (A * World).

Definition ret {A : Type} (a : A) : M A := fun w => Ok (a, w).

Definition raise {A : Type} (e : exn) : M A := fun _ => Raise e.

Definition bind {A B : Type} (c : M A) (k : A -> M B) : M B :=
  fun w =>
    match c w with
    | Ok (a, w') => k a w'
    | Raise e => Raise e
    end.

Definition lift {A : Type} (r : result A) : M A :=
  fun w =>
    match r with
    | Ok a => Ok (a, w)
    | Raise e => Raise e
    end.

Notation "x <- c ;; k" := (bind c (fun x => k))
  (at level 61, c at next level, right associativity).

Module Random.

Local Open Scope Z_scope.

Definition next_draw : M Z :=
  fun w => Ok (entropy w (cursor w),
               mk_World (entropy w) (S (cursor w)) (fake_text w) (fake_cursor w)).

(** [random.random()]: a multiple of [2^-53] in [[0, 1)]. *)
Definition random : M Q :=
  k <- next_draw ;;
  ret (Qmake (k mod 2 ^ 53) (Z.to_pos (2 ^ 53))).

(** [random.uniform(a, b)] on two [int]s: [a + (b - a) * self.random()]. *)
Definition uniform (a b : Z) : M Q :=
  u <- random ;;
  ret (Float64.fadd (Float64.float_of_int a)
         (Float64.fmul (Float64.float_of_int (b - a)) u)).

(** [random.randint(a, b)]: an integer [N] with [a <= N <= b]. *)
Definition randint (a b : Z) : M Z :=
  if b <? a then raise ValueError
  else k <- next_draw ;; ret (a + k mod (b - a + 1)).

(** [random.choice(seq)] *)
Definition choice {A : Type} (seq : list A) : M A :=
  match seq with
  | [] => raise IndexError
  | x :: _ =>
      k <- next_draw ;;
      ret (nth (Z.to_nat (k mod Z.of_nat (List.length seq))) seq x)
  end.

End Random.

Module Faker.

(** [fake.first_name()], [fake.last_name()], ... : the next text. *)
Definition next_text : M string :=
  fun w => Ok (fake_text w (fake_cursor w),
               mk_World (entropy w) (cursor w) (fake_text w) (S (fake_cursor w))).

Definition first_name : M string := next_text.
Definition last_name : M string := next_text.
Definition user_name : M string := next_text.
Definition address : M string := next_text.
Definition email : M string := next_text.

End Faker.

(** [s.replace('\n', ', ')] *)
Fixpoint replace_newline (s : string) : string :=
  match s with
  | EmptyString => EmptyString
  | String c rest =>
      if Ascii.eqb c "010" then String "," (String " " (replace_newline rest))
      else String c (replace_newline rest)
  end.

(** ** Data model *)

(** One element of [sensor_data]. *)
Record SensorRecord : Type := mk_SensorRecord {
  date : string;
  time : string;
  outside_temperature : Q;
  outside_humidity : Q;
  room_temperature : Q;
  room_humidity : Q
}.

(** One element of [users]. *)
Record User : Type := mk_User {
  firstname : string;
  lastname : string;
  age : Z;
  gender : string;
  username : string;
  address : string;
  email : string;
  sensor_data : list SensorRecord
}.

(** [user['sensor_data'] = readings] *)
Definition set_sensor_data (user : User) (readings : list SensorRecord) : User :=
  mk_User (firstname user) (lastname user) (age user) (gender user)
          (username user) (address user) (email user) readings.

(** ** [class IoTDataGenerator] *)

Module IoTDataGenerator.

Local Open Scope Z_scope.

(** One pass of the loop of [generate_user_data]. *)
Definition new_user : M User :=
  firstname <- Faker.first_name ;;
  lastname <- Faker.last_name ;;
  age <- Random.randint 18 80 ;;
  gender <- Random.choice ["Male"; "Female"]%string ;;
  username <- Faker.user_name ;;
  address <- Faker.address ;;
  email <- Faker.email ;;
  ret (mk_User firstname lastname age gender username
               (replace_newline address) email []).

(** [for _ in range(n)] with the list built so far. *)
Fixpoint users_loop (n : nat) (users : list User) : M (list User) :=
  match n with
  | O => ret users
  | S n' =>
      user <- new_user ;;
      users_loop n' (users ++ [user])
  end.

Definition generate_user_data (num_users : Z) : M (list User) :=
  users_loop (Z.to_nat num_users) [].

(** The readings of one pass of the loop of
    [generate_sensor_data_for_user], before the clock is advanced. *)
Definition new_reading (current_date : Datetime.datetime) : M SensorRecord :=
  let date_str := Datetime.strftime_date current_date in
  let time_str := Datetime.strftime_time current_date in
  outside_temp <- Random.uniform 70 95 ;;
  temp_diff <- Random.uniform 0 10 ;;
  let room_temp := Float64.fsub outside_temp temp_diff in
  outside_humidity <- Random.uniform 50 95 ;;
  humidity_diff <- Random.uniform 0 10 ;;
  let room_humidity := Float64.fsub outside_humidity humidity_diff in
  ret (mk_SensorRecord date_str time_str
         (Float64.round outside_temp 2)
         (Float64.round outside_humidity 2)
         (Float64.round room_temp 2)
         (Float64.round room_humidity 2)).

(** [for _ in range(n)]: append a reading, then
    [current_date += timedelta(hours=6)]. *)
Fixpoint sensor_loop (n : nat) (current_date : Datetime.datetime)
    (sensor_data : list SensorRecord) : M (list SensorRecord) :=
  match n with
  | O => ret sensor_data
  | S n' =>
      reading <- new_reading current_date ;;
      step <- lift (Datetime.new_timedelta 0 0 0 6) ;;
      next_date <- lift (Datetime.datetime_add current_date step) ;;
      sensor_loop n' next_date (sensor_data ++ [reading])
  end.

Definition generate_sensor_data_for_user (start_date : string) (num_records : Z)
    : M (list SensorRecord) :=
  current_date <- lift (Datetime.strptime start_date) ;;
  sensor_loop (Z.to_nat num_records) current_date [].

(** The default arguments. *)
Definition default_start_date : string := "2015-01-01".
Definition default_num_records : Z := 1000.
Definition default_num_users : Z := 1000.

End IoTDataGenerator.

(** ** Sequences and text *)

Definition nl : string := String "010" EmptyString.

(** [lst[i]], with Python's negative indices. *)
Definition getitem {A : Type} (lst : list A) (i : Z) : result A :=
  let n := Z.of_nat (List.length lst) in
  let j := if (i <? 0)%Z then (i + n)%Z else i in
  if ((j <? 0) || (n <=? j))%Z then Raise IndexError
  else
    match nth_error lst (Z.to_nat j) with
    | Some x => Ok x
    | None => Raise IndexError
    end.

(** [c * n] for a one-character string. *)
Definition str_times (c : ascii) (n : nat) : string := Datetime.repeat_char c n.

Definition upper_char (c : ascii) : ascii :=
  let n := nat_of_ascii c in
  if (97 <=? n)%nat && (n <=? 122)%nat then ascii_of_nat (n - 32) else c.

(** [s.upper()] on the names of the columns, which are ASCII text. *)
Fixpoint upper (s : string) : string :=
  match s with
  | EmptyString => EmptyString
  | String c rest => String (upper_char c) (upper rest)
  end.

(** [s.replace('_', ' ')] *)
Fixpoint replace_underscore (s : string) : string :=
  match s with
  | EmptyString => EmptyString
  | String c rest =>
      String (if Ascii.eqb c "_" then " "%char else c) (replace_underscore rest)
  end.

Fixpoint insert_commas (s : string) : string :=
  match s with
  | EmptyString => EmptyString
  | String c rest =>
      let k := String.length rest in
      String c (if (0 <? k)%nat && (k mod 3 =? 0)%nat
                then String "," (insert_commas rest)
                else insert_commas rest)
  end.

(** [f"{n:,}"] for a non-negative [int]. *)
Definition format_thousands (n : Z) : string :=
  insert_commas (Datetime.str_int n).

(** ** [class StatisticsDialog] *)

Module StatisticsDialog.

(** The summaries pandas computes on a column. *)
Inductive summary : Type :=
| Mean | Std | Min | Quantile25 | Median | Quantile75 | Max.

(** A piece of the report: literal text, or the text of
    [f"{df[col].summary():.2f}"], which pandas and the float formatter
    produce from the column. *)
Inductive piece : Type :=
| Text (s : string)
| Fixed2 (f : summary) (column : list Q).

(** [columns], each with the reading field it names. *)
Definition columns : list (string * (SensorRecord -> Q)) :=
  [("outside_temperature"%string, outside_temperature);
   ("outside_humidity"%string, outside_humidity);
   ("room_temperature"%string, room_temperature);
   ("room_humidity"%string, room_humidity)].

(** The body of [for col in columns], on [df = pd.DataFrame(all_sensor_data)]. *)
Definition column_section (all_sensor_data : list SensorRecord)
    (col : string * (SensorRecord -> Q)) : list piece :=
  let series := map (snd col) all_sensor_data in
  [Text (nl ++ replace_underscore (upper (fst col)) ++ ":" ++ nl);
   Text (str_times "-" 30 ++ nl);
   Text ("Count: " ++ format_thousands (Z.of_nat (List.length series)) ++ nl);
   Text "Mean: "; Fixed2 Mean series; Text nl;
   Text "Std Dev: "; Fixed2 Std series; Text nl;
   Text "Min: "; Fixed2 Min series; Text nl;
   Text "25%: "; Fixed2 Quantile25 series; Text nl;
   Text "50% (Median): "; Fixed2 Median series; Text nl;
   Text "75%: "; Fixed2 Quantile75 series; Text nl;
   Text "Max: "; Fixed2 Max series; Text nl]%string.

Definition title : list piece :=
  [Text ("DESCRIPTIVE STATISTICS" ++ nl);
   Text (str_times "=" 50 ++ nl ++ nl)]%string.

(** [generate_statistics(data)]: the value given to [text_ctrl.SetValue]. *)
Definition generate_statistics (data : list User) : result (list piece) :=
  let stats_text := title in
  match data with
  | [] =>
      Ok (stats_text ++ [Text "No data available. Please generate IoT data first."])
  | _ :: _ =>
      let all_sensor_data :=
        fold_left (fun acc user => acc ++ sensor_data user) data [] in
      match all_sensor_data with
      | [] => Ok (stats_text ++ [Text "No sensor data available."])
      | _ :: _ =>
          let stats_text :=
            fold_left (fun acc col => acc ++ column_section all_sensor_data col)
                      columns stats_text in
          let stats_text :=
            stats_text ++ [Text (nl ++ nl ++ "ADDITIONAL STATISTICS" ++ nl)%string] in
          let stats_text := stats_text ++ [Text (str_times "-" 50 ++ nl)%string] in
          let stats_text :=
            stats_text ++
            [Text ("Total Users: "
                   ++ format_thousands (Z.of_nat (List.length data)) ++ nl)%string] in
          let stats_text :=
            stats_text ++
            [Text ("Total Sensor Records: "
                   ++ format_thousands (Z.of_nat (List.length all_sensor_data))
                   ++ nl)%string] in
          result_bind (getitem all_sensor_data 0) (fun first =>
          result_bind (getitem all_sensor_data (-1)) (fun last =>
          Ok (stats_text ++
              [Text ("Date Range: " ++ date first ++ " to " ++ date last ++ nl)%string])))
      end
  end.

End StatisticsDialog.

(** ** [class PlotFrame] *)

Module PlotFrame.

Import Float64.
Local Open Scope Q_scope.
Local Open Scope string_scope.

(** The one exception the code of the frame raises by itself. *)
Inductive outcome (A : Type) : Type :=
| Done (a : A)
| ZeroDivisionError.

Arguments Done {A} a.
Arguments ZeroDivisionError {A}.

(** [x / y], on two [float]s and on two [int]s alike: the quotient,
    correctly rounded. *)
Definition truediv (x y : Q) : outcome Q :=
  if Qeq_bool y 0 then ZeroDivisionError else Done (RN (x / y)).

(** [int(x)] on a [float]: the fraction is dropped. *)
Definition int (x : Q) : Z := Z.quot (Qnum x) (Zpos (Qden x)).

(** [x > y] *)
Definition gt (x y : Q) : bool := negb (Qle_bool x y).

(** *** What a figure shows *)

(** A piece of a text box: literal text, or the text of
    [f"{series.summary():.<digits>f}"]. *)
Inductive piece : Type :=
| Text (s : string)
| Fixed (digits : nat) (f : StatisticsDialog.summary) (series : list Q).

(** [ax.hist(values, bins=bins, density=True, color=color)] on axes with
    their labels, title and text box. *)
Record Histogram : Type := mk_Histogram {
  values : list Q;
  bins : Z;
  color : string;
  xlabel : string;
  ylabel : string;
  axes_title : string;
  text_box : list piece
}.

(** [ax.plot(x, ys, label=label, color=color)] *)
Record Line : Type := mk_Line {
  xs : list Z;
  ys : list Q;
  label : string;
  line_color : string
}.

Inductive plot : Type :=
| Histograms (axes : list Histogram) (suptitle : option string)
| Lines (lines : list Line) (xlabel ylabel axes_title : string)
        (text_box : list piece).

(** *** The frame *)

(** The fields of the frame and of its widgets that the handlers read
    and write.  The two sizes are in inches; [scrolling] is the state set
    by [EnableScrolling], on when the window is created. *)
Record Frame : Type := mk_Frame {
  title : string;
  data : list User;
  plot_type : string;
  plot_ready : bool;
  zoom_level : Q;
  original_figsize : Q * Q;
  figure_size : Q * Q;
  drawing : option plot;
  zoom_label : string;
  status_text : string;
  scrolling : bool
}.

(** [PlotFrame.__init__] *)
Definition init (title : string) (data : list User) (plot_type : string) : Frame :=
  mk_Frame title data plot_type false 1 (12, 9) (12, 9) None "100%" "Preparing plot..."
           true.

Definition set_zoom_level (z : Q) (f : Frame) : Frame :=
  mk_Frame (title f) (data f) (plot_type f) (plot_ready f) z (original_figsize f)
           (figure_size f) (drawing f) (zoom_label f) (status_text f) (scrolling f).

Definition set_status_text (s : string) (f : Frame) : Frame :=
  mk_Frame (title f) (data f) (plot_type f) (plot_ready f) (zoom_level f)
           (original_figsize f) (figure_size f) (drawing f) (zoom_label f) s
           (scrolling f).

(** [update_zoom]; [canvas_size] is the size of the canvas once the figure
    is redrawn, [client_size] that of the scrolled window. *)
Definition update_zoom (canvas_size client_size : Z * Z) (f : Frame) : Frame :=
  if plot_ready f then
    let zoom_percent := int (fmul (zoom_level f) (float_of_int 100)) in
    let new_width := fmul (fst (original_figsize f)) (zoom_level f) in
    let new_height := fmul (snd (original_figsize f)) (zoom_level f) in
    let '(scroll_width, scroll_height) := client_size in
    if ((scroll_width <? fst canvas_size) || (scroll_height <? snd canvas_size))%Z then
      mk_Frame (title f) (data f) (plot_type f) (plot_ready f) (zoom_level f)
               (original_figsize f) (new_width, new_height) (drawing f)
               (Datetime.str_int zoom_percent ++ "%")
               ("Zoom: " ++ Datetime.str_int zoom_percent
                ++ "% (Use scrollbars to navigate)")
               true
    else
      mk_Frame (title f) (data f) (plot_type f) (plot_ready f) (zoom_level f)
               (original_figsize f) (new_width, new_height) (drawing f)
               (Datetime.str_int zoom_percent ++ "%")
               ("Zoom: " ++ Datetime.str_int zoom_percent ++ "%")
               false
  else f.

(** [on_zoom_in]: [0.25] and [5.0] are the binary64 numbers [1/4] and [5]. *)
Definition on_zoom_in (canvas_size client_size : Z * Z) (f : Frame) : Frame :=
  let zoom_level := fadd (zoom_level f) (1 # 4) in
  let zoom_level := if gt zoom_level 5 then 5 else zoom_level in
  update_zoom canvas_size client_size (set_zoom_level zoom_level f).

(** [on_zoom_out] *)
Definition on_zoom_out (canvas_size client_size : Z * Z) (f : Frame) : Frame :=
  let zoom_level := fsub (zoom_level f) (1 # 4) in
  let zoom_level := if gt (1 # 4) zoom_level then 1 # 4 else zoom_level in
  update_zoom canvas_size client_size (set_zoom_level zoom_level f).

(** [on_reset_zoom] *)
Definition on_reset_zoom (canvas_size client_size : Z * Z) (f : Frame) : Frame :=
  update_zoom canvas_size client_size (set_zoom_level 1 f).

(** [on_autofit]; [0.95] and [0.9] are the binary64 numbers nearest to
    these decimals.  Nothing is assigned before the last division. *)
Definition on_autofit (client_size : Z * Z) (f : Frame) : outcome Frame :=
  if plot_ready f then
    let '(width, height) := client_size in
    let dpi := 100%Z in
    match truediv (inject_Z width) (inject_Z dpi) with
    | ZeroDivisionError => ZeroDivisionError
    | Done w =>
    let fig_width := fmul w (RN (95 # 100)) in
    match truediv (inject_Z height) (inject_Z dpi) with
    | ZeroDivisionError => ZeroDivisionError
    | Done h =>
    let fig_height := fmul h (RN (9 # 10)) in
    match truediv (fst (original_figsize f)) (snd (original_figsize f)) with
    | ZeroDivisionError => ZeroDivisionError
    | Done orig_ratio =>
    match truediv fig_width fig_height with
    | ZeroDivisionError => ZeroDivisionError
    | Done new_ratio =>
        let fitted :=
          if gt new_ratio orig_ratio then Done (fmul fig_height orig_ratio, fig_height)
          else
            match truediv fig_width orig_ratio with
            | ZeroDivisionError => ZeroDivisionError
            | Done fig_height => Done (fig_width, fig_height)
            end in
        match fitted with
        | ZeroDivisionError => ZeroDivisionError
        | Done size =>
            Done (mk_Frame (title f) (data f) (plot_type f) (plot_ready f) 1
                           size size (drawing f) "100%"
                           "Plot auto-fitted to window" false)
        end
    end end end end
  else Done f.

(** *** Keyboard *)

(** The key codes of wxPython the handler compares with. *)
Record KeyCodes : Type := mk_KeyCodes {
  WXK_ADD : Z; WXK_NUMPAD_ADD : Z;
  WXK_SUBTRACT : Z; WXK_NUMPAD_SUBTRACT : Z;
  WXK_HOME : Z; WXK_F11 : Z; WXK_ESCAPE : Z;
  WXK_PAGEUP : Z; WXK_PAGEDOWN : Z;
  WXK_UP : Z; WXK_DOWN : Z; WXK_LEFT : Z; WXK_RIGHT : Z
}.

(** What a key does besides changing the frame. *)
Inductive key_effect : Type :=
| Handled                                       (* a zoom handler was run *)
| Close                                         (* [self.Close()] *)
| ScrollLines (lines : Z) (horizontal : bool)   (* [scrolled_window.ScrollLines] *)
| Skip.                                         (* [event.Skip()] *)

(** [ord(c)] *)
Definition ord (c : ascii) : Z := Z.of_nat (nat_of_ascii c).

(** [on_key_down] *)
Definition on_key_down (wx : KeyCodes) (keycode : Z) (canvas_size client_size : Z * Z)
    (f : Frame) : outcome (Frame * key_effect) :=
  if ((keycode =? WXK_ADD wx) || (keycode =? WXK_NUMPAD_ADD wx)
      || (keycode =? ord "+"))%Z then
    Done (on_zoom_in canvas_size client_size f, Handled)
  else if ((keycode =? WXK_SUBTRACT wx) || (keycode =? WXK_NUMPAD_SUBTRACT wx)
           || (keycode =? ord "-"))%Z then
    Done (on_zoom_out canvas_size client_size f, Handled)
  else if ((keycode =? WXK_HOME wx) || (keycode =? ord "0"))%Z then
    Done (on_reset_zoom canvas_size client_size f, Handled)
  else if ((keycode =? ord "F") || (keycode =? WXK_F11 wx))%Z then
    match on_autofit client_size f with
    | Done f' => Done (f', Handled)
    | ZeroDivisionError => ZeroDivisionError
    end
  else if (keycode =? WXK_ESCAPE wx)%Z then Done (f, Close)
  else if (keycode =? WXK_PAGEUP wx)%Z then Done (f, ScrollLines (-10) false)
  else if (keycode =? WXK_PAGEDOWN wx)%Z then Done (f, ScrollLines 10 false)
  else if (keycode =? WXK_UP wx)%Z then Done (f, ScrollLines (-3) false)
  else if (keycode =? WXK_DOWN wx)%Z then Done (f, ScrollLines 3 false)
  else if (keycode =? WXK_LEFT wx)%Z then Done (f, ScrollLines (-3) true)
  else if (keycode =? WXK_RIGHT wx)%Z then Done (f, ScrollLines 3 true)
  else Done (f, Skip).

(** *** Saving *)

(** [s.split('.')] *)
Fixpoint split_dot (s : string) : list string :=
  match s with
  | EmptyString => [EmptyString]
  | String c rest =>
      if Ascii.eqb c "." then EmptyString :: split_dot rest
      else
        match split_dot rest with
        | [] => [String c EmptyString]
        | first :: others => String c first :: others
        end
  end.

(** ['.' in s] *)
Fixpoint has_dot (s : string) : bool :=
  match s with
  | EmptyString => false
  | String c rest => Ascii.eqb c "." || has_dot rest
  end.

Section Saving.

(** [s.lower()], the lower-casing of Unicode text. *)
Variable lower : string -> string.

(** [pathname.split('.')[-1].lower() if '.' in pathname else 'png'] *)
Definition file_format (pathname : string) : string :=
  if has_dot pathname then lower (last (split_dot pathname) EmptyString)
  else "png".

(** What [on_save_plot] does besides changing the frame. *)
Inductive plot_save : Type :=
| NoPlotToSave                                  (* warning box *)
| PlotSaveCancelled                             (* the file dialog was cancelled *)
| PlotSaved (pathname format : string)          (* [savefig], success box *)
| PlotSaveError (error : string).               (* [savefig] raised, error box *)

(** [on_save_plot]: [dialog] is the path chosen in the file dialog, if
    any, and [save_error] the text of the exception [savefig] raises for
    this path and format, if any. *)
Definition on_save_plot (dialog : option string)
    (save_error : string -> string -> option string) (f : Frame)
    : Frame * plot_save :=
  if negb (plot_ready f) then (f, NoPlotToSave)
  else
    match dialog with
    | None => (f, PlotSaveCancelled)
    | Some pathname =>
        let file_format := file_format pathname in
        match save_error pathname file_format with
        | Some e => (f, PlotSaveError e)
        | None =>
            (set_status_text ("Plot saved to " ++ pathname) f,
             PlotSaved pathname file_format)
        end
    end.

End Saving.

(** *** Drawing *)

(** [start_plot_generation] *)
Definition start_plot_generation (f : Frame) : Frame :=
  set_status_text "Extracting data... Please wait." f.

(** The loop that fills [all_sensor_data], from position [i]: the readings
    and the labels shown on the way, oldest first. *)
Fixpoint extract (total_users : Z) (i : Z) (users : list User)
    (all_sensor_data : list SensorRecord) (shown : list string)
    : outcome (list SensorRecord * list string) :=
  match users with
  | [] => Done (all_sensor_data, shown)
  | user :: rest =>
      let all_sensor_data := (all_sensor_data ++ sensor_data user)%list in
      if (i mod 100 =? 0)%Z then
        match truediv (inject_Z i) (inject_Z total_users) with
        | ZeroDivisionError => ZeroDivisionError
        | Done ratio =>
            let percent := int (fmul ratio (float_of_int 100)) in
            extract total_users (i + 1) rest all_sensor_data
                    (shown ++ [("Extracting data (" ++ Datetime.str_int percent
                                ++ "%)...")%string])%list
        end
      else extract total_users (i + 1) rest all_sensor_data shown
  end.

(** [series.iloc[:n]] *)
Definition iloc {A : Type} (n : nat) (series : list A) : list A := firstn n series.

(** [a - b] on two series with the same index. *)
Fixpoint series_sub (a b : list Q) : list Q :=
  match a, b with
  | x :: a', y :: b' => fsub x y :: series_sub a' b'
  | _, _ => []
  end.

(** The branch [plot_type == 'A'] *)
Definition plot_a (df : list SensorRecord) : plot :=
  let column := map outside_temperature df in
  Histograms
    [mk_Histogram column 150 "blue" "Outside Temperature (°F)" "Density"
       ("Density Plot of Outside Temperature" ++ nl ++ "("
        ++ format_thousands (Z.of_nat (List.length df)) ++ " data points)")
       [Text "Mean: "; Fixed 2 StatisticsDialog.Mean column; Text ("°F" ++ nl);
        Text "Std Dev: "; Fixed 2 StatisticsDialog.Std column; Text ("°F" ++ nl);
        Text "Range: "; Fixed 2 StatisticsDialog.Min column; Text " - ";
        Fixed 2 StatisticsDialog.Max column; Text "°F"]]
    None.

(** The branch [plot_type == 'B'] *)
Definition plot_b (df : list SensorRecord) : plot :=
  let sample_size := Nat.min 500 (List.length df) in
  let x := map Z.of_nat (seq 0 sample_size) in
  let outside := iloc sample_size (map outside_temperature df) in
  let room := iloc sample_size (map room_temperature df) in
  let diff := series_sub outside room in
  Lines
    [mk_Line x outside "Outside Temperature" "red";
     mk_Line x room "Room Temperature" "blue"]
    "Sample Index" "Temperature (°F)"
    ("Outside vs Room Temperature" ++ nl ++ "(First "
     ++ format_thousands (Z.of_nat sample_size) ++ " of "
     ++ format_thousands (Z.of_nat (List.length df)) ++ " samples)")
    [Text "Average difference: "; Fixed 2 StatisticsDialog.Mean diff; Text ("°F" ++ nl);
     Text "Max difference: "; Fixed 2 StatisticsDialog.Max diff; Text "°F"].

(** The body of the loop of the branch [plot_type == 'C'] *)
Definition panel (df : list SensorRecord)
    (spec : (SensorRecord -> Q) * string * string * string) : Histogram :=
  let '(field, title, color, unit) := spec in
  let data := map field df in
  mk_Histogram data 200 color (title ++ " (" ++ unit ++ ")") "Density"
    (title ++ nl ++ "n=" ++ format_thousands (Z.of_nat (List.length data)))
    [Text "μ="; Fixed 2 StatisticsDialog.Mean data; Text (unit ++ nl);
     Text "σ="; Fixed 2 StatisticsDialog.Std data; Text (unit ++ nl);
     Text "Range: "; Fixed 1 StatisticsDialog.Min data; Text "-";
     Fixed 1 StatisticsDialog.Max data; Text unit].

(** The branch [plot_type == 'C'] *)
Definition plot_c (df : list SensorRecord) : plot :=
  Histograms
    (map (panel df)
       [(outside_temperature, "Outside Temperature", "blue", "°F");
        (room_temperature, "Room Temperature", "green", "°F");
        (outside_humidity, "Outside Humidity", "red", "%");
        (room_humidity, "Room Humidity", "orange", "%")])
    (Some ("Density Distributions of All Measurements" ++ nl ++ "Total: "
           ++ format_thousands (Z.of_nat (List.length df)) ++ " data points")).

(** [str(e)[:100]]: the first hundred characters. *)
Definition truncated (error : string) : string := Unicode.take 100 error.

(** [generate_plot_direct]: [library_error] is the text of the exception
    pandas or matplotlib raises on the way, if any.  The result is the
    frame, the labels the status line went through before its last one,
    and the text given to the status bar of the main window, if any. *)
Definition generate_plot_direct (library_error : option string) (f : Frame)
    : Frame * list string * option string :=
  let shown := ["Extracting sensor data (0%)..."] in
  let total_users := Z.of_nat (List.length (data f)) in
  match extract total_users 0 (data f) [] shown with
  | ZeroDivisionError =>
      (set_status_text ("Error: " ++ truncated "division by zero") f, shown,
       Some ("Plot error: " ++ truncated "division by zero"))
  | Done ([], shown) => (set_status_text "No data available" f, shown, None)
  | Done (reading :: readings, shown) =>
      let df := reading :: readings in
      let shown := (shown ++ ["Creating DataFrame..."; "Generating plot..."])%list in
      match library_error with
      | Some e =>
          (set_status_text ("Error: " ++ truncated e) f, shown,
           Some ("Plot error: " ++ truncated e))
      | None =>
          let '(drawn, size) :=
            if String.eqb (plot_type f) "A" then (plot_a df, figure_size f)
            else if String.eqb (plot_type f) "B" then (plot_b df, figure_size f)
            else if String.eqb (plot_type f) "C" then (plot_c df, (12, 10))
            else (Histograms [] None, figure_size f) in
          (mk_Frame (title f) (data f) (plot_type f) true (zoom_level f)
                    (original_figsize f) size (Some drawn) (zoom_label f)
                    "Plot complete! Use +/- to zoom (25% steps), scrollbars to navigate."
                    (scrolling f),
           shown, None)
      end
  end.

End PlotFrame.

(** ** JSON documents *)

Set Warnings "-register-all".

(** The value tree [json.dump] writes and [json.load] reads back.  A
    number written with a fraction is read back as a [float], one without
    as an [int]. *)
Inductive json : Type :=
| JNull
| JBool (b : bool)
| JInt (n : Z)
| JFloat (x : Q)
| JString (s : string)
| JArray (items : list json)
| JObject (members : list (string * json)).

(** [d[key]] on a loaded object. *)
Fixpoint lookup (key : string) (members : list (string * json)) : option json :=
  match members with
  | [] => None
  | (k, v) :: rest => if String.eqb k key then Some v else lookup key rest
  end.

(** ** [class MainWindow] *)

Module MainWindow.

Local Open Scope Z_scope.

(** *** Export *)

(** The dictionary of a reading, as [json.dump] encodes it. *)
Definition reading_to_json (sensor : SensorRecord) : json :=
  JObject [("date"%string, JString (date sensor));
           ("time"%string, JString (time sensor));
           ("outside_temperature"%string, JFloat (outside_temperature sensor));
           ("outside_humidity"%string, JFloat (outside_humidity sensor));
           ("room_temperature"%string, JFloat (room_temperature sensor));
           ("room_humidity"%string, JFloat (room_humidity sensor))].

(** The dictionary of a user, as [json.dump] encodes it. *)
Definition user_to_json (user : User) : json :=
  JObject [("firstname"%string, JString (firstname user));
           ("lastname"%string, JString (lastname user));
           ("age"%string, JInt (age user));
           ("gender"%string, JString (gender user));
           ("username"%string, JString (username user));
           ("address"%string, JString (address user));
           ("email"%string, JString (email user));
           ("sensor_data"%string, JArray (map reading_to_json (sensor_data user)))].

(** [user.copy()]: a new dictionary with the same keys and values. *)
Definition dict_copy (user : User) : User :=
  mk_User (firstname user) (lastname user) (age user) (gender user)
          (username user) (address user) (email user) (sensor_data user).

(** The [try] block of [on_save_json]: [json_data], then the document
    written by [json.dump(json_data, f, indent=2)]. *)
Definition json_data (data : list User) : list User :=
  fold_left (fun acc user => acc ++ [dict_copy user]) data [].

Definition json_document (data : list User) : json :=
  JArray (map user_to_json (json_data data)).

(** Reading the document back with [json.load] and taking the fields of
    each dictionary by key. *)
Definition get_string (key : string) (o : list (string * json)) : option string :=
  match lookup key o with Some (JString s) => Some s | _ => None end.

Definition get_int (key : string) (o : list (string * json)) : option Z :=
  match lookup key o with Some (JInt n) => Some n | _ => None end.

Definition get_float (key : string) (o : list (string * json)) : option Q :=
  match lookup key o with Some (JFloat x) => Some x | _ => None end.

Definition option_bind {A B : Type} (o : option A) (k : A -> option B) : option B :=
  match o with Some a => k a | None => None end.

Fixpoint option_map_all {A B : Type} (f : A -> option B) (l : list A) : option (list B) :=
  match l with
  | [] => Some []
  | a :: rest =>
      option_bind (f a) (fun b =>
      option_bind (option_map_all f rest) (fun bs => Some (b :: bs)))
  end.

Definition json_to_reading (j : json) : option SensorRecord :=
  match j with
  | JObject o =>
      option_bind (get_string "date" o) (fun d =>
      option_bind (get_string "time" o) (fun t =>
      option_bind (get_float "outside_temperature" o) (fun ot =>
      option_bind (get_float "outside_humidity" o) (fun oh =>
      option_bind (get_float "room_temperature" o) (fun rt =>
      option_bind (get_float "room_humidity" o) (fun rh =>
      Some (mk_SensorRecord d t ot oh rt rh)))))))
  | _ => None
  end.

Definition json_to_user (j : json) : option User :=
  match j with
  | JObject o =>
      option_bind (get_string "firstname" o) (fun fn =>
      option_bind (get_string "lastname" o) (fun ln =>
      option_bind (get_int "age" o) (fun a =>
      option_bind (get_string "gender" o) (fun g =>
      option_bind (get_string "username" o) (fun un =>
      option_bind (get_string "address" o) (fun ad =>
      option_bind (get_string "email" o) (fun em =>
      match lookup "sensor_data" o with
      | Some (JArray items) =>
          option_bind (option_map_all json_to_reading items) (fun sd =>
          Some (mk_User fn ln a g un ad em sd))
      | _ => None
      end)))))))
  | _ => None
  end.

Definition json_to_data (j : json) : option (list User) :=
  match j with
  | JArray items => option_map_all json_to_user items
  | _ => None
  end.

(** Number of reading objects in an exported document. *)
Definition json_reading_count (j : json) : nat :=
  match j with
  | JArray users =>
      fold_right
        (fun u n =>
           match u with
           | JObject o =>
               match lookup "sensor_data" o with
               | Some (JArray items) => (List.length items + n)%nat
               | _ => n
               end
           | _ => n
           end) 0%nat users
  | _ => 0%nat
  end.

Section CSV.

(** [str(x)] for a float is the work of the float formatter; the export
    only passes its result on. *)
Variable float_str : Q -> string.

Definition headers : list string :=
  ["firstname"; "lastname"; "age"; "gender"; "username"; "address"; "email";
   "date"; "time"; "outside_temperature"; "outside_humidity";
   "room_temperature"; "room_humidity"]%string.

Definition csv_row (user : User) (sensor : SensorRecord) : list string :=
  [firstname user; lastname user; Datetime.str_int (age user); gender user;
   username user; address user; email user;
   date sensor; time sensor;
   float_str (outside_temperature sensor);
   float_str (outside_humidity sensor);
   float_str (room_temperature sensor);
   float_str (room_humidity sensor)].

(** [for sensor in user['sensor_data']], leaving at [break]. *)
Fixpoint sensor_rows (max_records : Z) (user : User) (sensors : list SensorRecord)
    (csv_data : list (list string)) (record_count : Z) : list (list string) * Z :=
  match sensors with
  | [] => (csv_data, record_count)
  | sensor :: rest =>
      let csv_data := csv_data ++ [csv_row user sensor] in
      let record_count := record_count + 1 in
      if max_records <=? record_count then (csv_data, record_count)
      else sensor_rows max_records user rest csv_data record_count
  end.

(** [for user in self.data], leaving at [break]. *)
Fixpoint user_rows (max_records : Z) (users : list User)
    (csv_data : list (list string)) (record_count : Z) : list (list string) * Z :=
  match users with
  | [] => (csv_data, record_count)
  | user :: rest =>
      let '(csv_data, record_count) :=
        sensor_rows max_records user (sensor_data user) csv_data record_count in
      if max_records <=? record_count then (csv_data, record_count)
      else user_rows max_records rest csv_data record_count
  end.

(** The [try] block of [on_save_csv] up to [writer.writerows(csv_data)]:
    the rows written and the final [record_count]. *)
Definition csv_export (data : list User) : list (list string) * Z :=
  let csv_data := [] ++ [headers] in
  let record_count := 0 in
  let max_records := 10000 in
  user_rows max_records data csv_data record_count.

Definition csv_data (data : list User) : list (list string) := fst (csv_export data).

End CSV.

(** What an export handler did. *)
Inductive save_result (Content : Type) : Type :=
| NoDataToSave                                   (* error box, nothing written *)
| SaveCancelled                                  (* the file dialog was cancelled *)
| Saved (pathname : string) (content : Content)  (* file written, success box *)
| SaveError (error : string).                    (* the write raised, error box *)

Arguments NoDataToSave {Content}.
Arguments SaveCancelled {Content}.
Arguments Saved {Content} pathname content.
Arguments SaveError {Content} error.

(** [if not self.data] *)
Definition no_data (data : option (list User)) : bool :=
  match data with
  | None | Some [] => true
  | Some (_ :: _) => false
  end.

(** [on_save_json]: [dialog] is the path chosen in the file dialog, if
    any, and [io_error] the exception raised while writing, if any. *)
Definition on_save_json (data : option (list User)) (dialog : option string)
    (io_error : option string) : save_result json :=
  match data with
  | None | Some [] => NoDataToSave
  | Some (u :: us) =>
      match dialog with
      | None => SaveCancelled
      | Some pathname =>
          match io_error with
          | Some e => SaveError e
          | None => Saved pathname (json_document (u :: us))
          end
      end
  end.

(** [on_save_csv], likewise. *)
Definition on_save_csv (float_str : Q -> string) (data : option (list User))
    (dialog : option string) (io_error : option string)
    : save_result (list (list string)) :=
  match data with
  | None | Some [] => NoDataToSave
  | Some (u :: us) =>
      match dialog with
      | None => SaveCancelled
      | Some pathname =>
          match io_error with
          | Some e => SaveError e
          | None => Saved pathname (csv_data float_str (u :: us))
          end
      end
  end.

(** *** Generation *)

(** The fields of the window the generation handlers read and write.
    [message_boxes] records the boxes shown, newest first, each with its
    message and its caption. *)
Record Window : Type := mk_Window {
  data : option (list User);
  generation_in_progress : bool;
  current_plot_frame : bool;       (* is a plot window open *)
  status_text : string;
  progress_label : string;
  data_info : string;
  statistics_menu_enabled : bool;
  message_boxes : list (string * string)
}.

(** A call handed to [wx.CallAfter], to be run by the main loop. *)
Inductive callback : Type :=
| SetProgressLabel (message : string)   (* [self.progress_label.SetLabel] *)
| UpdateProgress (message : string)     (* [self.update_progress] *)
| DataGenerationComplete                (* [self.data_generation_complete] *)
| DataGenerationError (error_msg : string).

(** The application: the window, the number of [generate_data_thread]
    threads that were started and have not returned, and the queue of
    calls posted with [wx.CallAfter], oldest first. *)
Record App : Type := mk_App {
  window : Window;
  workers : nat;
  pending : list callback
}.

(** [MainWindow.__init__] *)
Definition init : App :=
  mk_App (mk_Window None false false "Ready" "" "No data generated yet." true []) 0 [].

Definition show_box (w : Window) (message caption : string) : Window :=
  mk_Window (data w) (generation_in_progress w) (current_plot_frame w)
            (status_text w) (progress_label w) (data_info w)
            (statistics_menu_enabled w) ((message, caption) :: message_boxes w).

(** [on_generate]; [answer] tells whether the confirmation dialog, when
    it is shown, is answered with Yes. *)
Definition on_generate (answer : bool) (a : App) : App :=
  let w := window a in
  if generation_in_progress w then
    mk_App (show_box w "Data generation is already in progress!" "Warning")
           (workers a) (pending a)
  else
    (* close any open plot window *)
    let plot := false in
    if answer then
      mk_App (mk_Window (data w) true plot
                        "Generating data... Please wait."
                        "Starting data generation..."
                        "Data generation in progress..."
                        false (message_boxes w))
             (S (workers a)) (pending a)
    else
      mk_App (mk_Window (data w) false plot (status_text w) (progress_label w)
                        (data_info w) (statistics_menu_enabled w) (message_boxes w))
             (workers a) (pending a).

(** [sum(len(user['sensor_data']) for user in self.data)] *)
Definition total_sensors (users : list User) : Z :=
  fold_left (fun acc user => acc + Z.of_nat (List.length (sensor_data user))) users 0.

(** [data_generation_complete] (the preview grid is not represented).
    While [self.data] is [None] the sum raises [TypeError] once the guard,
    the two labels and the menu are set: the main loop reports it and
    goes on, and the lines after the sum are not run. *)
Definition data_generation_complete (w : Window) : Window :=
  match data w with
  | None =>
      mk_Window None false (current_plot_frame w)
                "Data generation complete"
                "Data generation complete!"
                (data_info w)
                true
                (message_boxes w)
  | Some users =>
      let counts :=
        (format_thousands (Z.of_nat (List.length users)) ++ " user records with "
         ++ format_thousands (total_sensors users))%string in
      mk_Window (Some users) false (current_plot_frame w)
                "Data generation complete"
                "Data generation complete!"
                ("Generated " ++ counts ++ " total sensor records")%string
                true
                (("Successfully generated " ++ counts ++ " sensor records!",
                  "Success")%string
                 :: message_boxes w)
  end.

(** [data_generation_error] *)
Definition data_generation_error (error_msg : string) (w : Window) : Window :=
  mk_Window (data w) false (current_plot_frame w)
            "Data generation failed"
            "Data generation failed!"
            (data_info w)
            true
            (("Error generating data: " ++ error_msg, "Error")%string :: message_boxes w).

Definition set_progress (message : string) (w : Window) : Window :=
  mk_Window (data w) (generation_in_progress w) (current_plot_frame w)
            (status_text w) message (data_info w)
            (statistics_menu_enabled w) (message_boxes w).

Definition set_data (users : list User) (w : Window) : Window :=
  mk_Window (Some users) (generation_in_progress w) (current_plot_frame w)
            (status_text w) (progress_label w) (data_info w)
            (statistics_menu_enabled w) (message_boxes w).

Definition run_callback (c : callback) (w : Window) : Window :=
  match c with
  | SetProgressLabel message => set_progress message w
  | UpdateProgress message => set_progress message w
  | DataGenerationComplete => data_generation_complete w
  | DataGenerationError error_msg => data_generation_error error_msg w
  end.

(** What can happen to the application.  The first two are run by the
    main loop; the others are steps of a [generate_data_thread] thread. *)
Inductive event : Type :=
| MenuGenerate (answer : bool)            (* the menu item is chosen *)
| Dispatch                                (* the oldest posted call is run *)
| ThreadStore (users : list User)         (* the thread writes [self.data] or a user in it *)
| ThreadPost (c : callback)               (* a progress call is posted *)
| ThreadReturn (error : option string).   (* the thread posts its last call and returns *)

Definition is_progress (c : callback) : bool :=
  match c with
  | SetProgressLabel _ | UpdateProgress _ => true
  | DataGenerationComplete | DataGenerationError _ => false
  end.

(** One step; [None] when the event cannot happen in this state. *)
Definition step (a : App) (e : event) : option App :=
  match e with
  | MenuGenerate answer => Some (on_generate answer a)
  | Dispatch =>
      match pending a with
      | [] => None
      | c :: rest => Some (mk_App (run_callback c (window a)) (workers a) rest)
      end
  | ThreadStore users =>
      match workers a with
      | O => None
      | S _ => Some (mk_App (set_data users (window a)) (workers a) (pending a))
      end
  | ThreadPost c =>
      match workers a with
      | O => None
      | S _ =>
          if is_progress c then Some (mk_App (window a) (workers a) (pending a ++ [c]))
          else None
      end
  | ThreadReturn error =>
      match workers a with
      | O => None
      | S n =>
          let last :=
            match error with
            | None => DataGenerationComplete
            | Some msg => DataGenerationError msg
            end in
          Some (mk_App (window a) n (pending a ++ [last]))
      end
  end.

(** The states the application can be in. *)
Inductive reachable : App -> Prop :=
| reachable_init : reachable init
| reachable_step a e a' : reachable a -> step a e = Some a' -> reachable a'.

(** Running a list of events from a state. *)
Fixpoint run (a : App) (events : list event) : option App :=
  match events with
  | [] => Some a
  | e :: rest =>
      match step a e with
      | Some a' => run a' rest
      | None => None
      end
  end.

(** The body of [generate_data_thread] between its first and last posted
    calls: the users, then the readings of each user in turn. *)
Fixpoint fill_users (users : list User) : M (list User) :=
  match users with
  | [] => ret []
  | user :: rest =>
      readings <- IoTDataGenerator.generate_sensor_data_for_user
                    IoTDataGenerator.default_start_date
                    IoTDataGenerator.default_num_records ;;
      rest' <- fill_users rest ;;
      ret (set_sensor_data user readings :: rest')
  end.

Definition generate_data : M (list User) :=
  users <- IoTDataGenerator.generate_user_data 1000 ;;
  fill_users users.

(** *** The generation thread *)

Section Thread.

(** [str(e)] *)
Variable str_exn : exn -> string.

(** [f"Generated sensor data for {i}/{total_users} users..."] *)
Definition progress (i total_users : nat) : string :=
  ("Generated sensor data for " ++ Datetime.str_int (Z.of_nat i) ++ "/"
   ++ Datetime.str_int (Z.of_nat total_users) ++ " users...")%string.

(** The loop [for i, user in enumerate(self.data)] of
    [generate_data_thread], from position [i], and the end of the thread:
    [filled] are the users that have their readings, [users] those still
    to come.  The result is what the thread does, in order. *)
Fixpoint sensor_passes (total_users i : nat) (filled users : list User) (w : World)
    : list event :=
  match users with
  | [] => [ThreadReturn None]
  | user :: rest =>
      match IoTDataGenerator.generate_sensor_data_for_user
              IoTDataGenerator.default_start_date
              IoTDataGenerator.default_num_records w with
      | Raise e => [ThreadReturn (Some (str_exn e))]
      | Ok (readings, w') =>
          let filled := filled ++ [set_sensor_data user readings] in
          ThreadStore (filled ++ rest)
          :: (if (i mod 10 =? 0)%nat
              then [ThreadPost (UpdateProgress (progress i total_users))]
              else [])
          ++ sensor_passes total_users (S i) filled rest w'
      end
  end.

(** [generate_data_thread]: what the thread does, in order. *)
Definition generate_data_thread (w : World) : list event :=
  ThreadPost (SetProgressLabel "Generating 1000 user records...")
  :: match IoTDataGenerator.generate_user_data 1000 w with
     | Raise e => [ThreadReturn (Some (str_exn e))]
     | Ok (users, w') =>
         ThreadStore users
         :: ThreadPost (SetProgressLabel
                          "1000 user records created. Generating sensor data...")
         :: sensor_passes (List.length users) 0 [] users w'
     end.

End Thread.

(** *** Preview *)

(** The preview grid: its rows, of thirteen cells each, and whether it is
    shown. *)
Record Grid : Type := mk_Grid {
  rows : list (list string);
  shown : bool
}.

(** [grid.CreateGrid(0, 13)] and [grid.Hide()] *)
Definition empty_grid : Grid := mk_Grid [] false.

Fixpoint set_nth {A : Type} (n : nat) (x : A) (l : list A) : list A :=
  match l, n with
  | [], _ => []
  | _ :: rest, O => x :: rest
  | y :: rest, S n' => y :: set_nth n' x rest
  end.

(** [grid.AppendRows(1)] *)
Definition AppendRows (g : Grid) : Grid :=
  mk_Grid (rows g ++ [repeat EmptyString 13]) (shown g).

(** [grid.DeleteRows(pos, n)] *)
Definition DeleteRows (pos n : nat) (g : Grid) : Grid :=
  mk_Grid (firstn pos (rows g) ++ skipn (pos + n) (rows g)) (shown g).

(** [grid.SetCellValue(row, col, value)] *)
Definition SetCellValue (row col : nat) (value : string) (g : Grid) : Grid :=
  match nth_error (rows g) row with
  | Some cells => mk_Grid (set_nth row (set_nth col value cells) (rows g)) (shown g)
  | None => g
  end.

(** [address[:50] + "..." if len(address) > 50 else address] *)
Definition address_cell (address : string) : string :=
  if (50 <? Unicode.len address)%nat then (Unicode.take 50 address ++ "...")%string
  else address.

Section Preview.

(** [str(x)] on a [float]. *)
Variable float_str : Q -> string.

(** The body of the loop of [show_data_preview] for one user, with the
    grid and the counter [row]. *)
Definition preview_pass (user : User) (state : Grid * nat) : Grid * nat :=
  let '(g, row) := state in
  match sensor_data user with
  | [] => (g, row)
  | sensor :: _ =>
      let g := AppendRows g in
      let g := SetCellValue row 0 (firstname user) g in
      let g := SetCellValue row 1 (lastname user) g in
      let g := SetCellValue row 2 (Datetime.str_int (age user)) g in
      let g := SetCellValue row 3 (gender user) g in
      let g := SetCellValue row 4 (username user) g in
      let g := SetCellValue row 5 (address_cell (address user)) g in
      let g := SetCellValue row 6 (email user) g in
      let g := SetCellValue row 7 (date sensor) g in
      let g := SetCellValue row 8 (time sensor) g in
      let g := SetCellValue row 9 (float_str (outside_temperature sensor)) g in
      let g := SetCellValue row 10 (float_str (outside_humidity sensor)) g in
      let g := SetCellValue row 11 (float_str (room_temperature sensor)) g in
      let g := SetCellValue row 12 (float_str (room_humidity sensor)) g in
      (g, S row)
  end.

(** [show_data_preview]; the users [self.data[i]] for [i] in
    [range(preview_count)] are the first [preview_count] users. *)
Definition show_data_preview (data : option (list User)) (g : Grid) : Grid :=
  match data with
  | None | Some [] => g
  | Some (u :: us) =>
      let users := u :: us in
      let g :=
        if (0 <? List.length (rows g))%nat then DeleteRows 0 (List.length (rows g)) g
        else g in
      let preview_count := Nat.min 10 (List.length users) in
      let '(g, _) :=
        fold_left (fun state user => preview_pass user state)
                  (firstn preview_count users) (g, 0%nat) in
      mk_Grid (rows g) true
  end.

End Preview.

(** *** The Statistics menu *)

Definition set_plot_frame (open : bool) (w : Window) : Window :=
  mk_Window (data w) (generation_in_progress w) open
            (status_text w) (progress_label w) (data_info w)
            (statistics_menu_enabled w) (message_boxes w).

(** [on_descriptive]: the window, and the text of the dialog when one is
    shown. *)
Definition on_descriptive (w : Window)
    : Window * option (result (list StatisticsDialog.piece)) :=
  match data w with
  | None | Some [] =>
      (show_box w "No data available. Please generate data first." "Error", None)
  | Some (u :: us) => (w, Some (StatisticsDialog.generate_statistics (u :: us)))
  end.

(** [on_plot_a]: the window, and the plot frame when one is created; a
    plot frame that was open is closed. *)
Definition on_plot_a (w : Window) : Window * option PlotFrame.Frame :=
  match data w with
  | None | Some [] =>
      (show_box w "No data available. Please generate data first." "Error", None)
  | Some (u :: us) =>
      (set_plot_frame true w,
       Some (PlotFrame.init "Plot A - Outside Temperature Density" (u :: us) "A"))
  end.

(** [on_plot_b] *)
Definition on_plot_b (w : Window) : Window * option PlotFrame.Frame :=
  match data w with
  | None | Some [] =>
      (show_box w "No data available. Please generate data first." "Error", None)
  | Some (u :: us) =>
      (set_plot_frame true w,
       Some (PlotFrame.init "Plot B - Temperature Comparison" (u :: us) "B"))
  end.

(** [on_plot_c] *)
Definition on_plot_c (w : Window) : Window * option PlotFrame.Frame :=
  match data w with
  | None | Some [] =>
      (show_box w "No data available. Please generate data first." "Error", None)
  | Some (u :: us) =>
      (set_plot_frame true w,
       Some (PlotFrame.init "Plot C - All Measurements Density" (u :: us) "C"))
  end.

(** What can happen to the application, the Statistics menu included.  An
    item of that menu can be chosen only while the menu is enabled; a plot
    frame that is open can be closed from its own window. *)
Inductive menu_event : Type :=
| Generation (e : event)
| MenuDescriptive
| MenuPlotA
| MenuPlotB
| MenuPlotC
| PlotClosed.

Definition with_window (a : App) (w : Window) : App :=
  mk_App w (workers a) (pending a).

Definition menu_step (a : App) (e : menu_event) : option App :=
  match e with
  | Generation e => step a e
  | MenuDescriptive =>
      if statistics_menu_enabled (window a)
      then Some (with_window a (fst (on_descriptive (window a))))
      else None
  | MenuPlotA =>
      if statistics_menu_enabled (window a)
      then Some (with_window a (fst (on_plot_a (window a))))
      else None
  | MenuPlotB =>
      if statistics_menu_enabled (window a)
      then Some (with_window a (fst (on_plot_b (window a))))
      else None
  | MenuPlotC =>
      if statistics_menu_enabled (window a)
      then Some (with_window a (fst (on_plot_c (window a))))
      else None
  | PlotClosed =>
      if current_plot_frame (window a)
      then Some (with_window a (set_plot_frame false (window a)))
      else None
  end.

Inductive menu_reachable : App -> Prop :=
| menu_reachable_init : menu_reachable init
| menu_reachable_step a e a' :
    menu_reachable a -> menu_step a e = Some a' -> menu_reachable a'.

End MainWindow.

(* ================================================================== *)
(** * Part II: properties *)
(* ================================================================== *)

(** ** Rounding to binary64 *)

Module Float64Facts.

Import Float64.
Local Open Scope Q_scope.

Lemma p2_pos e : 0 < 2 ^ e.
Proof. apply Qpower_0_lt. reflexivity. Qed.

Lemma p2_add a b : 2 ^ (a + b) == 2 ^ a * 2 ^ b.
Proof. apply Qpower_plus. discriminate. Qed.

Lemma p2_le a b : (a <= b)%Z -> 2 ^ a <= 2 ^ b.
Proof. intros H. apply Qpower_le_compat_l; [exact H | discriminate]. Qed.

Lemma p2_lt a b : (a < b)%Z -> 2 ^ a < 2 ^ b.
Proof. intros H. apply Qpower_lt_compat_l; [exact H | reflexivity]. Qed.

Lemma p2_lt_inv a b : 2 ^ a < 2 ^ b -> (a < b)%Z.
Proof. intros H. apply (Qpower_lt_compat_l_inv 2); [exact H | reflexivity]. Qed.

Lemma p2_Z n : (0 <= n)%Z -> inject_Z (2 ^ n) == 2 ^ n.
Proof. intros H. now rewrite Zpower_Qpower. Qed.

Lemma p2_succ a : 2 ^ (a + 1) == 2 * 2 ^ a.
Proof. rewrite p2_add. change (2 ^ 1) with 2. ring. Qed.

Lemma Qfloor_bounds x : inject_Z (Qfloor x) <= x < inject_Z (Qfloor x) + 1.
Proof.
  split; [apply Qfloor_le|].
  pose proof (Qlt_floor x) as H. rewrite inject_Z_plus in H. exact H.
Qed.

Lemma inject_Z_succ_le a b : (a < b)%Z -> inject_Z a + 1 <= inject_Z b.
Proof.
  intros H. change 1 with (inject_Z 1). rewrite <- inject_Z_plus.
  rewrite <- Zle_Qle. lia.
Qed.

Lemma rne_cases x :
  let f := Qfloor x in
  (rne x = f /\ x - inject_Z f <= 1 # 2 /\ (x - inject_Z f == 1 # 2 -> Z.even f = true)) \/
  (rne x = (f + 1)%Z /\ 1 # 2 <= x - inject_Z f /\ (x - inject_Z f == 1 # 2 -> Z.even f = false)).
Proof.
  intros f. unfold rne. fold f.
  destruct (Qcompare_spec (x - inject_Z f) (1 # 2)) as [E | L | G].
  - destruct (Z.even f) eqn:Ev; [left | right]; (split; [reflexivity|]); (split; [lra | reflexivity]).
  - left. split; [reflexivity|]. split; [lra|]. intros E. lra.
  - right. split; [reflexivity|]. split; [lra|]. intros E. lra.
Qed.

Lemma rne_le x y : x <= y -> (rne x <= rne y)%Z.
Proof.
  intros Hxy.
  pose proof (Qfloor_resp_le _ _ Hxy) as Hf.
  pose proof (Qfloor_bounds x) as Bx. pose proof (Qfloor_bounds y) as By.
  destruct (rne_cases x) as [(Rx & Lx & Ex) | (Rx & Lx & Ex)];
  destruct (rne_cases y) as [(Ry & Ly & Ey) | (Ry & Ly & Ey)];
  rewrite Rx, Ry; try lia.
  destruct (Z.eq_dec (Qfloor x) (Qfloor y)) as [E | N].
  - exfalso. rewrite E in *.
    assert (Hx : x - inject_Z (Qfloor y) == 1 # 2) by lra.
    assert (Hy : y - inject_Z (Qfloor y) == 1 # 2) by lra.
    specialize (Ex Hx). specialize (Ey Hy). congruence.
  - lia.
Qed.

Lemma rne_compat x y : x == y -> rne x = rne y.
Proof.
  intros E. apply Z.le_antisymm; apply rne_le; lra.
Qed.

#[global] Instance rne_proper : Proper (Qeq ==> eq) rne.
Proof. intros x y E. now apply rne_compat. Qed.

Lemma rne_Z z : rne (inject_Z z) = z.
Proof.
  unfold rne. rewrite Qfloor_Z.
  destruct (Qcompare_spec (inject_Z z - inject_Z z) (1 # 2)) as [E | L | G]; try lra.
  reflexivity.
Qed.

Lemma rne_spec x : inject_Z (rne x) - (1 # 2) <= x <= inject_Z (rne x) + (1 # 2).
Proof.
  pose proof (Qfloor_bounds x) as B.
  destruct (rne_cases x) as [(R & L & _) | (R & L & _)]; rewrite R.
  - lra.
  - rewrite inject_Z_plus. change (inject_Z 1) with 1. lra.
Qed.

Lemma log2_bracket n : (0 < n)%Z ->
  2 ^ Z.log2 n <= inject_Z n < 2 ^ (Z.log2 n + 1).
Proof.
  intros H. pose proof (Z.log2_spec n H) as [L U].
  pose proof (Z.log2_nonneg n) as P.
  rewrite <- !p2_Z by lia. rewrite <- Zle_Qle, <- Zlt_Qlt.
  replace (Z.log2 n + 1)%Z with (Z.succ (Z.log2 n)) by lia. auto.
Qed.

Lemma mag_spec x : ~ x == 0 -> 2 ^ (mag x - 1) <= Qabs x < 2 ^ mag x.
Proof.
  intros Hx. destruct x as [n d]. unfold mag. cbn [Qnum Qden Qabs].
  assert (Hn : (0 < Z.abs n)%Z).
  { assert (n <> 0)%Z; [|lia]. intros ->. apply Hx. reflexivity. }
  set (a := Z.log2 (Z.abs n)). set (b := Z.log2 (Zpos d)).
  pose proof (log2_bracket (Z.abs n) Hn) as [La Ua]. fold a in La, Ua.
  pose proof (log2_bracket (Zpos d) eq_refl) as [Lb Ub]. fold b in Lb, Ub.
  assert (E : (Z.abs n # d) * inject_Z (Zpos d) == inject_Z (Z.abs n)).
  { rewrite Qmake_Qdiv. field. discriminate. }
  assert (Dpos : 0 < inject_Z (Zpos d)) by reflexivity.
  pose proof (p2_pos (a - b)) as Pl. pose proof (p2_pos b) as Pb.
  assert (Hup : (Z.abs n # d) < 2 ^ (a - b + 1)).
  { apply (Qmult_lt_r _ _ _ Dpos). rewrite E.
    eapply Qlt_le_trans; [exact Ua|].
    replace (a + 1)%Z with ((a - b + 1) + b)%Z by lia. rewrite p2_add.
    apply Qmult_le_l; [apply p2_pos | exact Lb]. }
  assert (Hlo : 2 ^ (a - b - 1) <= (Z.abs n # d)).
  { apply (Qmult_le_r _ _ _ Dpos). rewrite E.
    eapply Qle_trans; [|exact La].
    replace a with ((a - b - 1) + (b + 1))%Z at 2 by lia. rewrite p2_add.
    apply Qmult_le_l; [apply p2_pos | apply Qlt_le_weak; exact Ub]. }
  destruct (Qle_bool (2 ^ (a - b)) (Z.abs n # d)) eqn:T.
  - apply Qle_bool_iff in T. replace (a - b + 1 - 1)%Z with (a - b)%Z by lia. auto.
  - split; [exact Hlo|]. apply Qnot_le_lt. intros C. apply Qle_bool_iff in C. congruence.
Qed.

Lemma mag_unique x e : 2 ^ (e - 1) <= Qabs x < 2 ^ e -> mag x = e.
Proof.
  intros [L U].
  assert (Hx : ~ x == 0).
  { intros E. rewrite E in L. pose proof (p2_pos (e - 1)). change (Qabs 0) with 0 in L. lra. }
  destruct (mag_spec x Hx) as [L' U'].
  assert (e - 1 < mag x)%Z by (apply p2_lt_inv; lra).
  assert (mag x - 1 < e)%Z by (apply p2_lt_inv; lra).
  lia.
Qed.


Lemma mag_compat x y : ~ y == 0 -> x == y -> mag x = mag y.
Proof. intros NZ E. apply mag_unique. rewrite E. apply mag_spec. exact NZ. Qed.

Lemma mag_le x y : 0 < x -> x <= y -> (mag x <= mag y)%Z.
Proof.
  intros Px Hxy.
  assert (Nx : ~ x == 0) by lra. assert (Ny : ~ y == 0) by lra.
  destruct (mag_spec x Nx) as [Lx _]. destruct (mag_spec y Ny) as [_ Uy].
  rewrite Qabs_pos in Lx, Uy by lra.
  assert (mag x - 1 < mag y)%Z by (apply p2_lt_inv; lra). lia.
Qed.

Lemma RN_zero x : x == 0 -> RN x == 0.
Proof.
  intros E. unfold RN. apply Qeq_bool_iff in E. rewrite E. reflexivity.
Qed.

Lemma RN_nonzero x : ~ x == 0 -> RN x == inject_Z (rne (x / 2 ^ cexp x)) * 2 ^ cexp x.
Proof.
  intros N. unfold RN. destruct (Qeq_bool x 0) eqn:E.
  - apply Qeq_bool_iff in E. contradiction.
  - apply Qred_correct.
Qed.

Lemma scaled_le x y c : x <= y -> x / 2 ^ c <= y / 2 ^ c.
Proof.
  intros H. pose proof (p2_pos c) as P.
  apply Qle_shift_div_l; [exact P|].
  assert (E : x / 2 ^ c * 2 ^ c == x) by (field; lra). rewrite E. exact H.
Qed.

Lemma rne_nonneg x : 0 <= x -> (0 <= rne x)%Z.
Proof. intros H. rewrite <- (rne_Z 0). apply rne_le. exact H. Qed.

Lemma RN_nonneg x : 0 <= x -> 0 <= RN x.
Proof.
  intros H. destruct (Qeq_dec x 0) as [Z | N].
  - rewrite (RN_zero x Z). lra.
  - rewrite (RN_nonzero x N). apply Qmult_le_0_compat.
    + change 0 with (inject_Z 0). rewrite <- Zle_Qle. apply rne_nonneg.
      apply Qle_shift_div_l; [apply p2_pos | lra].
    + apply Qlt_le_weak, p2_pos.
Qed.

(** Upper bound of a rounded positive value by the top of its binade. *)
Lemma RN_upper x : 0 < x -> RN x <= 2 ^ (cexp x + 53).
Proof.
  intros P. assert (N : ~ x == 0) by lra. rewrite (RN_nonzero x N).
  destruct (mag_spec x N) as [_ U]. rewrite Qabs_pos in U by lra.
  set (c := cexp x).
  assert (Hc : (mag x <= c + 53)%Z) by (unfold c, cexp; lia).
  assert (B : x / 2 ^ c <= inject_Z (2 ^ 53)).
  { apply Qle_shift_div_r; [apply p2_pos|].
    rewrite p2_Z by lia. rewrite <- p2_add.
    apply Qlt_le_weak. eapply Qlt_le_trans; [exact U|]. apply p2_le. lia. }
  apply rne_le in B. rewrite rne_Z in B.
  rewrite Z.add_comm, p2_add. apply Qmult_le_compat_r; [|apply Qlt_le_weak, p2_pos].
  rewrite <- (p2_Z 53) by lia. rewrite <- Zle_Qle. exact B.
Qed.

(** Lower bound of a rounded normal value by the bottom of its binade. *)
Lemma RN_lower x : 0 < x -> (-1074 < cexp x)%Z -> 2 ^ (cexp x + 52) <= RN x.
Proof.
  intros P Hn. assert (N : ~ x == 0) by lra. rewrite (RN_nonzero x N).
  destruct (mag_spec x N) as [L _]. rewrite Qabs_pos in L by lra.
  set (c := cexp x) in *.
  assert (Hc : (mag x - 1 = c + 52)%Z) by (unfold c, cexp in *; lia).
  rewrite Hc in L.
  assert (B : inject_Z (2 ^ 52) <= x / 2 ^ c).
  { apply Qle_shift_div_l; [apply p2_pos|].
    rewrite p2_Z by lia. rewrite <- p2_add. rewrite Z.add_comm. exact L. }
  apply rne_le in B. rewrite rne_Z in B.
  rewrite Z.add_comm, p2_add. apply Qmult_le_compat_r; [|apply Qlt_le_weak, p2_pos].
  rewrite <- (p2_Z 52) by lia. rewrite <- Zle_Qle. exact B.
Qed.

Lemma cexp_le x y : 0 < x -> x <= y -> (cexp x <= cexp y)%Z.
Proof. intros P H. pose proof (mag_le x y P H). unfold cexp. lia. Qed.

Theorem RN_le x y : 0 <= x -> x <= y -> RN x <= RN y.
Proof.
  intros Px Hxy. destruct (Qeq_dec x 0) as [Z | N].
  - rewrite (RN_zero x Z). apply RN_nonneg. lra.
  - assert (Px' : 0 < x) by lra. assert (Py : 0 < y) by lra.
    pose proof (cexp_le x y Px' Hxy) as Hc.
    destruct (Z.eq_dec (cexp x) (cexp y)) as [E | D].
    + rewrite (RN_nonzero x), (RN_nonzero y) by lra. rewrite E.
      apply Qmult_le_compat_r; [|apply Qlt_le_weak, p2_pos].
      rewrite <- Zle_Qle. apply rne_le, scaled_le, Hxy.
    + eapply Qle_trans; [apply RN_upper; exact Px'|].
      eapply Qle_trans; [|apply RN_lower; [exact Py|]].
      * apply p2_le. lia.
      * unfold cexp in *. lia.
Qed.

Lemma RN_compat x y : x == y -> RN x == RN y.
Proof.
  intros E. destruct (Qeq_dec y 0) as [Z | N].
  - rewrite (RN_zero y Z). apply RN_zero. rewrite E. exact Z.
  - assert (N' : ~ x == 0) by (rewrite E; exact N).
    rewrite (RN_nonzero x N'), (RN_nonzero y N).
    unfold cexp. rewrite (mag_compat x y N E). rewrite E. reflexivity.
Qed.

#[global] Instance RN_proper : Proper (Qeq ==> Qeq) RN.
Proof. intros x y E. now apply RN_compat. Qed.

(** A value that is an integer multiple of a power of two no smaller than
    its own unit in the last place is representable. *)
Lemma RN_exact y k e : 0 < y -> y == inject_Z k * 2 ^ e -> (cexp y <= e)%Z -> RN y == y.
Proof.
  intros P E Hc. assert (N : ~ y == 0) by lra. rewrite (RN_nonzero y N).
  set (c := cexp y) in *.
  assert (F : y / 2 ^ c == inject_Z (k * 2 ^ (e - c))).
  { rewrite inject_Z_mult, p2_Z by lia. rewrite E.
    replace e with ((e - c) + c)%Z at 1 by lia. rewrite p2_add.
    pose proof (p2_pos c). field. lra. }
  rewrite F, rne_Z, <- F. pose proof (p2_pos c). field. lra.
Qed.

Theorem RN_idem x : 0 <= x -> RN (RN x) == RN x.
Proof.
  intros Px. destruct (Qeq_dec x 0) as [Z | N].
  - rewrite (RN_zero x Z). apply RN_zero. reflexivity.
  - assert (Px' : 0 < x) by lra.
    destruct (Qeq_dec (RN x) 0) as [Z' | N'].
    { rewrite Z'. apply RN_zero. reflexivity. }
    pose proof (RN_nonneg x Px) as Py.
    assert (Py' : 0 < RN x) by lra.
    pose proof (RN_upper x Px') as U.
    set (c := cexp x) in *.
    destruct (Qlt_le_dec (RN x) (2 ^ (c + 53))) as [Lt | Ge].
    + apply (RN_exact (RN x) (rne (x / 2 ^ c)) c Py').
      * apply RN_nonzero. exact N.
      * destruct (mag_spec (RN x) N') as [L _]. rewrite Qabs_pos in L by lra.
        assert (mag (RN x) - 1 < c + 53)%Z by (apply p2_lt_inv; lra).
        unfold cexp. unfold c, cexp in *. lia.
    + assert (E : RN x == 2 ^ (c + 53)) by lra.
      apply (RN_exact (RN x) (2 ^ 52) (c + 1) Py').
      * rewrite E, p2_Z, <- p2_add by lia. f_equiv. lia.
      * assert (M : mag (RN x) = (c + 54)%Z).
        { apply mag_unique. rewrite Qabs_pos by lra. rewrite E.
          replace (c + 54 - 1)%Z with (c + 53)%Z by lia.
          split; [lra | apply p2_lt; lia]. }
        unfold cexp. rewrite M. unfold c, cexp. lia.
Qed.

(** Integers below [2^53] are binary64 numbers. *)
Lemma RN_inject_Z n : (0 <= n < 2 ^ 53)%Z -> RN (inject_Z n) == inject_Z n.
Proof.
  intros Hn. destruct (Z.eq_dec n 0) as [-> | N].
  - apply RN_zero. reflexivity.
  - assert (P : 0 < inject_Z n) by (change 0 with (inject_Z 0); rewrite <- Zlt_Qlt; lia).
    apply (RN_exact (inject_Z n) n 0 P).
    + change (2 ^ 0) with 1. ring.
    + assert (Nz : ~ inject_Z n == 0) by lra.
      destruct (mag_spec (inject_Z n) Nz) as [L _]. rewrite Qabs_pos in L by lra.
      assert (U : inject_Z n < 2 ^ 53).
      { rewrite <- (p2_Z 53) by lia. rewrite <- Zlt_Qlt. lia. }
      assert (mag (inject_Z n) - 1 < 53)%Z by (apply p2_lt_inv; lra).
      unfold cexp. lia.
Qed.

Lemma float_of_int_exact n : (0 <= n < 2 ^ 53)%Z -> float_of_int n == inject_Z n.
Proof. apply RN_inject_Z. Qed.

(** Rounding keeps a value between two binary64 numbers. *)
Lemma RN_between l h x :
  0 <= l -> RN l == l -> RN h == h -> l <= x <= h -> l <= RN x <= h.
Proof.
  intros Pl El Eh [Hl Hh]. split.
  - rewrite <- El. apply RN_le; assumption.
  - rewrite <- Eh. apply RN_le; lra.
Qed.

Lemma RN_between_Z l h x :
  (0 <= l < 2 ^ 53)%Z -> (0 <= h < 2 ^ 53)%Z ->
  inject_Z l <= x <= inject_Z h -> inject_Z l <= RN x <= inject_Z h.
Proof.
  intros Hl Hh Hx. apply RN_between; try (apply RN_inject_Z; assumption); try assumption.
  change 0 with (inject_Z 0). rewrite <- Zle_Qle. lia.
Qed.

(** [round(x, 2)] *)
Lemma round2_unfold x : round x 2 = RN (inject_Z (rne (x * 100)) / 100).
Proof. reflexivity. Qed.

Lemma round2_le x y : 0 <= x -> x <= y -> round x 2 <= round y 2.
Proof.
  intros Px Hxy. rewrite !round2_unfold.
  assert (H : (rne (x * 100) <= rne (y * 100))%Z) by (apply rne_le; lra).
  assert (P : (0 <= rne (x * 100))%Z) by (apply rne_nonneg; lra).
  apply RN_le.
  - apply Qle_shift_div_l; [reflexivity|]. rewrite Qmult_0_l.
    change 0 with (inject_Z 0). rewrite <- Zle_Qle. exact P.
  - apply Qmult_le_compat_r; [|discriminate]. rewrite <- Zle_Qle. exact H.
Qed.

Lemma round2_inject_Z n : (0 <= n < 2 ^ 53)%Z -> round (inject_Z n) 2 == inject_Z n.
Proof.
  intros Hn. rewrite round2_unfold.
  assert (E : inject_Z n * 100 == inject_Z (n * 100)) by (rewrite inject_Z_mult; reflexivity).
  rewrite E, rne_Z, inject_Z_mult.
  assert (E' : inject_Z n * inject_Z 100 / 100 == inject_Z n) by (field).
  rewrite E'. apply RN_inject_Z. exact Hn.
Qed.

Lemma round2_between_Z l h x :
  (0 <= l < 2 ^ 53)%Z -> (0 <= h < 2 ^ 53)%Z ->
  inject_Z l <= x <= inject_Z h -> inject_Z l <= round x 2 <= inject_Z h.
Proof.
  intros Hl Hh [Lx Hx].
  assert (P : 0 <= inject_Z l) by (change 0 with (inject_Z 0); rewrite <- Zle_Qle; lia).
  split.
  - rewrite <- (round2_inject_Z l Hl). apply round2_le; assumption.
  - rewrite <- (round2_inject_Z h Hh). apply round2_le; lra.
Qed.

(** A difference of a binary64 number and a non-negative amount does not
    exceed it after rounding. *)
Lemma fsub_le x d : 0 <= d -> d <= x -> RN x == x -> fsub x d <= x.
Proof.
  intros Pd Hd Ex. unfold fsub. rewrite <- Ex at 2. apply RN_le; lra.
Qed.

End Float64Facts.

(** ** The proleptic Gregorian calendar of [datetime] *)

Module DatetimeFacts.

Import Datetime.
Local Open Scope Z_scope.

Ltac zdm := Z.div_mod_to_equations.

Ltac eval_closed f :=
  repeat match goal with
  | |- context [f ?a ?b] =>
      let v := eval vm_compute in (f a b) in progress change (f a b) with v
  | H : context [f ?a ?b] |- _ =>
      let v := eval vm_compute in (f a b) in progress change (f a b) with v in H
  end.

Lemma is_leap_spec y :
  _is_leap y = true <-> (y mod 4 = 0 /\ (y mod 100 <> 0 \/ y mod 400 = 0)).
Proof.
  unfold _is_leap.
  destruct (Z.eqb_spec (y mod 4) 0), (Z.eqb_spec (y mod 100) 0), (Z.eqb_spec (y mod 400) 0);
    cbn; intuition (try discriminate; try lia).
Qed.

(** The month search of [_ord2ymd], isolated: [n] is the offset from
    January 1 and [leapyear] tells whether the year is a leap year. *)
Definition month_split (leapyear : bool) (n : Z) : Z * Z :=
  let month := Z.shiftr (n + 50) 5 in
  let preceding := index _DAYS_BEFORE_MONTH month + b2z ((2 <? month) && leapyear) in
  let '(month, preceding) :=
    if n <? preceding then
      (month - 1,
       preceding - (index _DAYS_IN_MONTH (month - 1) + b2z ((month - 1 =? 2) && leapyear)))
    else (month, preceding) in
  (month, n - preceding + 1).

Lemma ord2ymd_unfold n :
  _ord2ymd n =
  let n0 := n - 1 in
  let r := n0 mod 146097 in
  let n100 := r / 36524 in let r2 := r mod 36524 in
  let n4 := r2 / 1461 in let r3 := r2 mod 1461 in
  let n1 := r3 / 365 in let r4 := r3 mod 365 in
  let Y := n0 / 146097 * 400 + 1 + (n100 * 100 + n4 * 4 + n1) in
  if (n1 =? 4) || (n100 =? 4) then (Y - 1, 12, 31)
  else let '(m, d) := month_split ((n1 =? 3) && (negb (n4 =? 24) || (n100 =? 3))) r4 in
       (Y, m, d).
Proof.
  unfold _ord2ymd, month_split, _DI400Y, _DI100Y, _DI4Y. cbv zeta.
  destruct (_ || _); [reflexivity|].
  destruct (_ <? _); reflexivity.
Qed.

Definition zrange (lo : Z) (k : nat) : list Z := map (fun i => lo + Z.of_nat i) (seq 0 k).

Lemma zrange_forall (P : Z -> bool) lo k :
  forallb P (zrange lo k) = true ->
  forall n, lo <= n < lo + Z.of_nat k -> P n = true.
Proof.
  intros H n Hn. rewrite forallb_forall in H. apply H.
  unfold zrange. apply in_map_iff. exists (Z.to_nat (n - lo)). split; [lia|].
  apply in_seq. lia.
Qed.

Definition dim_of (leap : bool) (m : Z) : Z :=
  if (m =? 2) && leap then 29 else index _DAYS_IN_MONTH m.
Definition dbm_of (leap : bool) (m : Z) : Z :=
  index _DAYS_BEFORE_MONTH m + b2z ((2 <? m) && leap).

Lemma month_split_ok leap n :
  0 <= n < 365 + b2z leap ->
  let '(m, d) := month_split leap n in
  1 <= m <= 12 /\ 1 <= d <= dim_of leap m /\ dbm_of leap m + d = n + 1.
Proof.
  intros Hn.
  set (chk := fun leap n => let '(m, d) := month_split leap n in
    (1 <=? m) && (m <=? 12) && (1 <=? d) && (d <=? dim_of leap m)
    && (dbm_of leap m + d =? n + 1)).
  assert (C : chk leap n = true).
  { destruct leap.
    - apply (zrange_forall (chk true) 0 366); [vm_compute; reflexivity | cbn in *; lia].
    - apply (zrange_forall (chk false) 0 365); [vm_compute; reflexivity | cbn in *; lia]. }
  unfold chk in C. destruct (month_split leap n) as [m d].
  rewrite !andb_true_iff in C. destruct C as ((((A & B) & D) & E) & F).
  lia.
Qed.

Lemma month_split_inv leap m d :
  1 <= m <= 12 -> 1 <= d <= dim_of leap m ->
  dbm_of leap m + d - 1 < 365 ->
  month_split leap (dbm_of leap m + d - 1) = (m, d).
Proof.
  intros Hm Hd Ho.
  set (chk := fun leap m d =>
    negb ((d <=? dim_of leap m) && (dbm_of leap m + d - 1 <? 365)) ||
    (let '(m', d') := month_split leap (dbm_of leap m + d - 1) in (m' =? m) && (d' =? d))).
  assert (C : chk leap m d = true).
  { assert (Hd' : 1 <= d < 1 + Z.of_nat 31).
    { split; [lia|]. destruct Hd as [_ Hd]. revert Hd.
      assert (In m (zrange 1 12)).
      { unfold zrange. apply in_map_iff. exists (Z.to_nat (m - 1)). split; [lia|]. apply in_seq. lia. }
      cbn in H. cbn [andb]. destruct leap; intuition (subst; eval_closed dim_of; lia). }
    revert d Hd' Hd Ho. revert m Hm.
    assert (A : forall m, 1 <= m < 1 + Z.of_nat 12 ->
                (fun m => forallb (chk leap m) (zrange 1 31)) m = true).
    { apply zrange_forall. destruct leap; vm_compute; reflexivity. }
    intros m Hm d Hd _ _. specialize (A m ltac:(lia)). cbv beta in A.
    apply (zrange_forall _ _ _ A). exact Hd. }
  unfold chk in C.
  replace (d <=? dim_of leap m) with true in C by (symmetry; apply Z.leb_le; lia).
  replace (dbm_of leap m + d - 1 <? 365) with true in C by (symmetry; apply Z.ltb_lt; lia).
  cbn in C. destruct (month_split leap _) as [m' d'].
  apply andb_true_iff in C. destruct C as [A B].
  apply Z.eqb_eq in A, B. congruence.
Qed.

Lemma dec31_only leap m d :
  1 <= m <= 12 -> 1 <= d <= dim_of leap m ->
  365 <= dbm_of leap m + d - 1 -> leap = true /\ m = 12 /\ d = 31.
Proof.
  intros Hm Hd Ho.
  assert (In m (zrange 1 12)).
  { unfold zrange. apply in_map_iff. exists (Z.to_nat (m - 1)). split; [lia|]. apply in_seq. lia. }
  cbn in H.
  destruct leap; intuition (subst; eval_closed dim_of; eval_closed dbm_of; first [lia | reflexivity]).
Qed.

Lemma year_split n0 :
  let r := n0 mod 146097 in
  let n100 := r / 36524 in let r2 := r mod 36524 in
  let n4 := r2 / 1461 in let r3 := r2 mod 1461 in
  let n1 := r3 / 365 in let r4 := r3 mod 365 in
  let Y := n0 / 146097 * 400 + 1 + (n100 * 100 + n4 * 4 + n1) in
  (n1 = 4 \/ n100 = 4 ->
     _is_leap (Y - 1) = true /\ _days_before_year (Y - 1) + 365 = n0) /\
  (n1 <> 4 -> n100 <> 4 ->
     _days_before_year Y + r4 = n0 /\
     (_is_leap Y = true <-> (n1 = 3 /\ (n4 <> 24 \/ n100 = 3)))) /\
  (0 <= n0 < 3652059 -> 1 <= Y - 1 /\ Y <= 9999 \/ (n1 <> 4 /\ n100 <> 4 /\ 1 <= Y <= 9999)).
Proof.
  intros r n100 r2 n4 r3 n1 r4 Y.
  split; [|split].
  - intros H. rewrite is_leap_spec. unfold _days_before_year.
    subst Y n1 r4 r3 n4 r2 n100 r. zdm. lia.
  - intros H1 H2. rewrite is_leap_spec. unfold _days_before_year.
    subst Y n1 r4 r3 n4 r2 n100 r. zdm. lia.
  - intros H. subst Y n1 r4 r3 n4 r2 n100 r. zdm. lia.
Qed.

Lemma divmod_eq a b q r : 0 <= r < b -> a = b * q + r -> a / b = q /\ a mod b = r.
Proof.
  intros Hr E. split.
  - symmetry. apply (Z.div_unique a b q r); [left; exact Hr | exact E].
  - symmetry. apply (Z.mod_unique a b q r); [left; exact Hr | exact E].
Qed.

(** Days before a year, by 400-, 100-, 4- and 1-year cycles. *)
Lemma days_before_year_cycles y :
  exists q400 q100 q4 q1,
    y - 1 = 400 * q400 + 100 * q100 + 4 * q4 + q1 /\
    0 <= q100 <= 3 /\ 0 <= q4 <= 24 /\ 0 <= q1 <= 3 /\
    _days_before_year y = 146097 * q400 + 36524 * q100 + 1461 * q4 + 365 * q1 /\
    (_is_leap y = true <-> q1 = 3 /\ (q4 <> 24 \/ q100 = 3)).
Proof.
  exists ((y - 1) / 400), ((y - 1) mod 400 / 100), ((y - 1) mod 400 mod 100 / 4),
         ((y - 1) mod 400 mod 100 mod 4).
  rewrite is_leap_spec. unfold _days_before_year.
  repeat split; try (zdm; lia).
Qed.

Lemma year_split_inv y o :
  0 <= o < 365 + b2z (_is_leap y) ->
  let n0 := _days_before_year y + o in
  let r := n0 mod 146097 in
  let n100 := r / 36524 in let r2 := r mod 36524 in
  let n4 := r2 / 1461 in let r3 := r2 mod 1461 in
  let n1 := r3 / 365 in let r4 := r3 mod 365 in
  let Y := n0 / 146097 * 400 + 1 + (n100 * 100 + n4 * 4 + n1) in
  (o = 365 -> (n1 = 4 \/ n100 = 4) /\ Y - 1 = y) /\
  (o < 365 -> n1 <> 4 /\ n100 <> 4 /\ Y = y /\ r4 = o).
Proof.
  intros Ho.
  destruct (days_before_year_cycles y) as (q400 & q100 & q4 & q1 & Ey & B100 & B4 & B1 & Ed & L).
  assert (Lo : o = 365 -> q1 = 3 /\ (q4 <> 24 \/ q100 = 3)).
  { intros E. apply L. destruct (_is_leap y); [reflexivity | cbn in Ho; lia]. }
  assert (B : 0 <= o <= 365) by (destruct (_is_leap y); cbn in Ho; lia).
  clear Ho L. rewrite Ed. clear Ed. cbv zeta.
  set (R := 36524 * q100 + 1461 * q4 + 365 * q1 + o).
  destruct (divmod_eq (146097 * q400 + 36524 * q100 + 1461 * q4 + 365 * q1 + o)
              146097 q400 R) as [D1 M1]; [unfold R; lia | unfold R; lia |].
  rewrite D1, M1. clear D1 M1.
  destruct (Z.eq_dec R 146096) as [Top | NTop].
  - (* last day of a 400-year cycle *)
    assert (o = 365 /\ q100 = 3 /\ q4 = 24 /\ q1 = 3) as (-> & -> & -> & ->) by (unfold R in Top; lia).
    rewrite Top. split; [intros _ | lia].
    change (146096 / 36524) with 4. change (146096 mod 36524) with 0.
    change (0 mod 1461) with 0. change (0 / 1461) with 0. change (0 / 365) with 0.
    split; [right; reflexivity | lia].
  - set (R2 := 1461 * q4 + 365 * q1 + o).
    destruct (divmod_eq R 36524 q100 R2) as [D2 M2]; [unfold R, R2 in *; lia | unfold R, R2; lia |].
    rewrite D2, M2. clear D2 M2.
    set (R3 := 365 * q1 + o).
    destruct (divmod_eq R2 1461 q4 R3) as [D3 M3]; [unfold R, R2, R3 in *; lia | unfold R2, R3; lia |].
    rewrite D3, M3. clear D3 M3.
    destruct (Z.eq_dec o 365) as [E | NE].
    + destruct (Lo E) as [-> _]. subst o.
      destruct (divmod_eq R3 365 4 0) as [D4 M4]; [lia | unfold R3; lia |].
      rewrite D4. split; [intros _; split; [left; reflexivity | lia] | lia].
    + destruct (divmod_eq R3 365 q1 o) as [D4 M4]; [lia | unfold R3; lia |].
      rewrite D4, M4. split; [lia | intros _; repeat split; lia].
Qed.

Theorem ymd2ord_ord2ymd n :
  let '(y, m, d) := _ord2ymd n in
  1 <= m <= 12 /\ 1 <= d <= _days_in_month y m /\ _ymd2ord y m d = n /\
  (1 <= n <= _MAXORDINAL -> MINYEAR <= y <= MAXYEAR).
Proof.
  rewrite ord2ymd_unfold. cbv zeta.
  pose proof (year_split (n - 1)) as S. cbv zeta in S.
  set (r := (n - 1) mod 146097) in *.
  set (n100 := r / 36524) in *. set (r2 := r mod 36524) in *.
  set (n4 := r2 / 1461) in *. set (r3 := r2 mod 1461) in *.
  set (n1 := r3 / 365) in *. set (r4 := r3 mod 365) in *.
  set (Y := (n - 1) / 146097 * 400 + 1 + (n100 * 100 + n4 * 4 + n1)) in *.
  destruct S as (S1 & S2 & S3).
  unfold _MAXORDINAL, MINYEAR, MAXYEAR.
  destruct ((n1 =? 4) || (n100 =? 4)) eqn:C.
  - assert (H : n1 = 4 \/ n100 = 4).
    { apply orb_true_iff in C. destruct C as [C | C]; apply Z.eqb_eq in C; auto. }
    destruct (S1 H) as [L E].
    unfold _ymd2ord.
    change (_days_in_month (Y - 1) 12) with (dim_of (_is_leap (Y - 1)) 12).
    change (_days_before_month (Y - 1) 12) with (dbm_of (_is_leap (Y - 1)) 12).
    rewrite L. eval_closed dim_of. eval_closed dbm_of.
    repeat split; try lia.
  - apply orb_false_iff in C. destruct C as [C1 C2].
    apply Z.eqb_neq in C1, C2.
    destruct (S2 C1 C2) as [E L].
    set (leap := (n1 =? 3) && (negb (n4 =? 24) || (n100 =? 3))).
    assert (EL : _is_leap Y = leap).
    { apply eq_true_iff_eq. rewrite L. unfold leap.
      rewrite andb_true_iff, orb_true_iff, negb_true_iff, Z.eqb_neq, !Z.eqb_eq. reflexivity. }
    assert (R : 0 <= r4 < 365 + b2z leap).
    { split; [subst r4; zdm; lia|]. destruct leap; cbn; subst r4; zdm; lia. }
    pose proof (month_split_ok leap r4 R) as M.
    destruct (month_split leap r4) as [m d].
    destruct M as (M1 & M2 & M3).
    unfold _ymd2ord, _days_in_month, _days_before_month. rewrite EL.
    fold (dim_of leap m). fold (dbm_of leap m).
    repeat split; try lia.
Qed.

Theorem ord2ymd_ymd2ord y m d :
  1 <= m <= 12 -> 1 <= d <= _days_in_month y m ->
  _ord2ymd (_ymd2ord y m d) = (y, m, d).
Proof.
  intros Hm Hd. rewrite ord2ymd_unfold. cbv zeta.
  unfold _ymd2ord, _days_in_month, _days_before_month in *.
  fold (dim_of (_is_leap y) m) in Hd. fold (dbm_of (_is_leap y) m).
  remember (_is_leap y) as leap eqn:Hleap.
  set (o := dbm_of leap m + d - 1).
  replace (_days_before_year y + dbm_of leap m + d - 1) with (_days_before_year y + o) by (unfold o; lia).
  assert (Ho : 0 <= o < 365 + b2z leap).
  { unfold o. destruct (Z_lt_le_dec (dbm_of leap m + d - 1) 365) as [Lt | Ge].
    - split; [|destruct leap; cbn; lia].
      assert (0 <= dbm_of leap m); [|lia].
      assert (In m (zrange 1 12)).
      { unfold zrange. apply in_map_iff. exists (Z.to_nat (m - 1)). split; [lia|]. apply in_seq. lia. }
      cbn in H. destruct leap; intuition (subst; eval_closed dbm_of; lia).
    - destruct (dec31_only leap m d Hm Hd Ge) as (-> & -> & ->).
      eval_closed dbm_of. change (b2z true) with 1. lia. }
  rewrite Hleap in Ho.
  pose proof (year_split_inv y o Ho) as S. cbv zeta in S. rewrite <- Hleap in Ho.
  pose proof (year_split (_days_before_year y + o)) as T. cbv zeta in T.
  set (r := (_days_before_year y + o) mod 146097) in *.
  set (n100 := r / 36524) in *. set (r2 := r mod 36524) in *.
  set (n4 := r2 / 1461) in *. set (r3 := r2 mod 1461) in *.
  set (n1 := r3 / 365) in *. set (r4 := r3 mod 365) in *.
  set (Y := (_days_before_year y + o) / 146097 * 400 + 1 + (n100 * 100 + n4 * 4 + n1)) in *.
  destruct S as [S1 S2]. destruct T as (_ & T & _).
  destruct (Z_lt_le_dec o 365) as [Lt | Ge].
  - destruct (S2 Lt) as (A & B & C & D).
    destruct (T A B) as [_ L].
    apply Z.eqb_neq in A, B. rewrite A, B. cbn [orb].
    assert (EL : (n1 =? 3) && (negb (n4 =? 24) || (n100 =? 3)) = leap).
    { symmetry. apply eq_true_iff_eq. rewrite Hleap, <- C, L.
      rewrite andb_true_iff, orb_true_iff, negb_true_iff, Z.eqb_neq, !Z.eqb_eq. reflexivity. }
    rewrite EL, D. unfold o. rewrite month_split_inv by (fold o; lia).
    fold o. rewrite C. reflexivity.
  - assert (E : o = 365) by (clear Hleap; destruct leap; cbn in Ho; lia).
    destruct (S1 E) as [A B].
    destruct (dec31_only leap m d Hm Hd ltac:(fold o; lia)) as (_ & -> & ->).
    replace ((n1 =? 4) || (n100 =? 4)) with true.
    + rewrite B. reflexivity.
    + symmetry. apply orb_true_iff. destruct A as [A | A]; [left | right]; apply Z.eqb_eq; exact A.
Qed.

End DatetimeFacts.

(** ** Dates as counts of seconds *)

Module TimestampFacts.

Import Datetime DatetimeFacts.
Local Open Scope Z_scope.

(** A well-formed naive [datetime]. *)
Definition valid (dt : datetime) : Prop :=
  date_fields_ok (year dt) (month dt) (day dt) = true /\
  0 <= hour dt < 24 /\ 0 <= minute dt < 60 /\ 0 <= second dt < 60.

(** Seconds from midnight before day 1 (ordinal 0). *)
Definition timestamp (dt : datetime) : Z :=
  toordinal dt * 86400 + hour dt * 3600 + minute dt * 60 + second dt.

(** The [datetime] at a count of seconds, when it exists. *)
Definition of_timestamp (t : Z) : result datetime :=
  let d := t / 86400 in
  let s := t mod 86400 in
  if (0 <? d) && (d <=? _MAXORDINAL) then
    let '(y, m, dd) := _ord2ymd d in
    Ok (mk_datetime y m dd (s / 3600) (s mod 3600 / 60) (s mod 3600 mod 60))
  else Raise OverflowError.

Lemma date_fields_ok_spec y m d :
  date_fields_ok y m d = true <->
  (1 <= y <= 9999 /\ 1 <= m <= 12 /\ 1 <= d <= _days_in_month y m).
Proof.
  unfold date_fields_ok, MINYEAR, MAXYEAR.
  rewrite !andb_true_iff, !Z.leb_le. tauto.
Qed.

Lemma days_before_year_range y :
  1 <= y <= 9999 ->
  0 <= _days_before_year y <= 3651694 /\
  (y <= 9998 -> _days_before_year y <= 3651329).
Proof.
  intros Hy.
  destruct (days_before_year_cycles y) as (q400 & q100 & q4 & q1 & Ey & B100 & B4 & B1 & Ed & _).
  rewrite Ed. lia.
Qed.

Lemma day_of_year_range leap m d :
  1 <= m <= 12 -> 1 <= d <= dim_of leap m ->
  1 <= dbm_of leap m + d <= 365 + b2z leap.
Proof.
  intros Hm Hd.
  assert (In m (zrange 1 12)).
  { unfold zrange. apply in_map_iff. exists (Z.to_nat (m - 1)). split; [lia|]. apply in_seq. lia. }
  cbn in H.
  destruct leap; intuition (subst; eval_closed dim_of; eval_closed dbm_of;
                            change (b2z true) with 1; change (b2z false) with 0; lia).
Qed.

Lemma toordinal_range y m d :
  date_fields_ok y m d = true -> 1 <= _ymd2ord y m d <= _MAXORDINAL.
Proof.
  rewrite date_fields_ok_spec. intros (Hy & Hm & Hd).
  destruct (days_before_year_range y Hy) as [B B'].
  pose proof (day_of_year_range (_is_leap y) m d Hm Hd) as R.
  unfold _ymd2ord, _MAXORDINAL.
  change (_days_before_month y m) with (dbm_of (_is_leap y) m).
  destruct (Z.eq_dec y 9999) as [-> | N].
  - change (_is_leap 9999) with false in R. change (_is_leap 9999) with false.
    change (b2z false) with 0 in R. change (_days_before_year 9999) with 3651694. lia.
  - specialize (B' ltac:(lia)). destruct (_is_leap y); cbn [b2z] in R; lia.
Qed.

Lemma of_timestamp_ok t dt :
  of_timestamp t = Ok dt -> valid dt /\ timestamp dt = t.
Proof.
  unfold of_timestamp. cbv zeta.
  destruct ((0 <? t / 86400) && (t / 86400 <=? _MAXORDINAL)) eqn:R; [|discriminate].
  apply andb_true_iff in R. destruct R as [R1 R2].
  apply Z.ltb_lt in R1. apply Z.leb_le in R2.
  pose proof (ymd2ord_ord2ymd (t / 86400)) as H.
  destruct (_ord2ymd (t / 86400)) as [[y m] d].
  destruct H as (Hm & Hd & E & Hy). specialize (Hy ltac:(lia)).
  intros [= <-]. unfold valid, timestamp, toordinal. cbn [year month day hour minute second].
  rewrite E. split; [split|].
  - apply date_fields_ok_spec. unfold MINYEAR, MAXYEAR in Hy. lia.
  - zdm. lia.
  - zdm. lia.
Qed.

Lemma of_timestamp_timestamp dt : valid dt -> of_timestamp (timestamp dt) = Ok dt.
Proof.
  intros (Hd & Hh & Hm & Hs).
  pose proof (toordinal_range _ _ _ Hd) as R.
  apply date_fields_ok_spec in Hd. destruct Hd as (Hy & Hmo & Hda).
  unfold of_timestamp, timestamp, toordinal in *. cbv zeta.
  set (o := _ymd2ord (year dt) (month dt) (day dt)) in *.
  set (s := hour dt * 3600 + minute dt * 60 + second dt).
  replace (o * 86400 + hour dt * 3600 + minute dt * 60 + second dt) with (86400 * o + s) by (unfold s; lia).
  destruct (divmod_eq (86400 * o + s) 86400 o s) as [D M]; [unfold s; lia | reflexivity |].
  rewrite D, M.
  replace ((0 <? o) && (o <=? _MAXORDINAL)) with true
    by (symmetry; apply andb_true_iff; split; [apply Z.ltb_lt | apply Z.leb_le]; lia).
  unfold o. rewrite ord2ymd_ymd2ord by assumption.
  destruct (divmod_eq s 3600 (hour dt) (minute dt * 60 + second dt)) as [D1 M1];
    [lia | unfold s; lia |].
  rewrite D1, M1.
  destruct (divmod_eq (minute dt * 60 + second dt) 60 (minute dt) (second dt)) as [D2 M2];
    [lia | lia |].
  rewrite D2, M2. destruct dt; reflexivity.
Qed.

(** [datetime.__add__] is addition on counts of seconds. *)
Lemma datetime_add_spec dt td :
  valid dt ->
  datetime_add dt td = of_timestamp (timestamp dt + days td * 86400 + seconds td).
Proof.
  intros (Hd & Hh & Hm & Hs).
  pose proof (toordinal_range _ _ _ Hd) as R.
  unfold datetime_add, timedelta_add, new_timedelta, of_timestamp, timestamp, toordinal in *.
  cbv zeta. change (24 * 3600) with 86400.
  set (o := _ymd2ord (year dt) (month dt) (day dt)) in *.
  set (s := second dt + (minute dt * 60 + hour dt * 3600)).
  assert (Bs : 0 <= s < 86400) by (unfold s; lia).
  destruct (divmod_eq s 86400 0 s) as [D M]; [lia | lia |].
  rewrite D, M. replace (o + 0) with o by lia.
  replace (999999999 <? Z.abs o) with false
    by (symmetry; apply Z.ltb_ge; unfold _MAXORDINAL in R; lia).
  cbn [result_bind days seconds].
  replace (s + seconds td + (0 * 60 + 0 * 3600)) with (s + seconds td) by lia.
  replace (o * 86400 + hour dt * 3600 + minute dt * 60 + second dt + days td * 86400 + seconds td)
    with (86400 * (o + days td) + (s + seconds td)) by (unfold s; lia).
  set (d2 := o + days td + (s + seconds td) / 86400).
  set (s2 := (s + seconds td) mod 86400).
  destruct (divmod_eq (86400 * (o + days td) + (s + seconds td)) 86400 d2 s2) as [D2 M2].
  { unfold s2. zdm. lia. }
  { unfold d2, s2. zdm. lia. }
  rewrite D2, M2.
  destruct (Z.ltb_spec 999999999 (Z.abs d2)) as [Big | Small]; cbn [result_bind days seconds].
  - replace ((0 <? d2) && (d2 <=? _MAXORDINAL)) with false; [reflexivity|].
    symmetry. apply andb_false_iff. unfold _MAXORDINAL.
    destruct (Z.ltb_spec 0 d2); [right; apply Z.leb_gt; lia | left; reflexivity].
  - reflexivity.
Qed.

Lemma datetime_add_ok dt td dt' :
  valid dt -> datetime_add dt td = Ok dt' ->
  valid dt' /\ timestamp dt' = timestamp dt + days td * 86400 + seconds td.
Proof.
  intros V E. rewrite datetime_add_spec in E by exact V. apply of_timestamp_ok. exact E.
Qed.

(** [timedelta(hours=h)] *)
Lemma new_timedelta_hours h td :
  new_timedelta 0 0 0 h = Ok td -> days td * 86400 + seconds td = h * 3600.
Proof.
  unfold new_timedelta. cbv zeta. change (24 * 3600) with 86400.
  destruct (_ <? _); [discriminate|]. intros [= <-]. cbn [days seconds]. zdm. lia.
Qed.

Lemma new_timedelta_hours_ok h :
  Z.abs h <= 1000000000 -> exists td, new_timedelta 0 0 0 h = Ok td.
Proof.
  intros Hh. unfold new_timedelta. cbv zeta. change (24 * 3600) with 86400.
  destruct (Z.ltb_spec 999999999 (Z.abs (0 + (0 + (0 * 60 + h * 3600)) / 86400))) as [B | S].
  - exfalso. revert B. zdm. lia.
  - eexists. reflexivity.
Qed.

(** [strptime] yields midnight of a valid date. *)
Lemma strptime_valid s dt :
  strptime s = Ok dt -> valid dt /\ hour dt = 0 /\ minute dt = 0 /\ second dt = 0.
Proof.
  unfold strptime.
  destruct (match_year s) as [[y s1]|]; [|discriminate].
  destruct (match_dash s1) as [s2|]; [|discriminate].
  destruct (match_month s2) as [[m s3]|]; [|discriminate].
  destruct (match_dash s3) as [s4|]; [|discriminate].
  destruct (match_day s4) as [[d [|c s5]]|]; try discriminate.
  destruct (date_fields_ok y m d) eqn:F; [|discriminate].
  intros [= <-]. unfold valid. cbn. repeat split; try assumption; lia.
Qed.

End TimestampFacts.

(** ** The monad and the generators *)

Lemma bind_ok {A B : Type} (c : M A) (k : A -> M B) w b w' :
  bind c k w = Ok (b, w') ->
  exists a w1, c w = Ok (a, w1) /\ k a w1 = Ok (b, w').
Proof.
  unfold bind. destruct (c w) as [[a w1] | e]; [|discriminate].
  intros H. exists a, w1. split; [reflexivity | exact H].
Qed.

Lemma ret_ok {A : Type} (a : A) w b w' : ret a w = Ok (b, w') -> b = a /\ w' = w.
Proof. unfold ret. intros [= <- <-]. split; reflexivity. Qed.

Lemma lift_ok {A : Type} (r : result A) w a w' :
  lift r w = Ok (a, w') -> r = Ok a /\ w' = w.
Proof. unfold lift. destruct r; [|discriminate]. intros [= <- <-]. split; reflexivity. Qed.

(** Splits a successful run of a sequence of binds into its steps. *)
Ltac inv_bind H :=
  repeat match type of H with
  | bind _ _ _ = Ok _ =>
      let a := fresh "a" in let w := fresh "w" in let H1 := fresh "Hrun" in
      apply bind_ok in H; destruct H as (a & w & H1 & H)
  end.

Module RandomFacts.

Import Float64 Float64Facts Random.
Local Open Scope Q_scope.

Lemma random_spec w :
  exists u w', random w = Ok (u, w') /\ 0 <= u < 1.
Proof.
  unfold random, bind, next_draw, ret.
  eexists. eexists. split; [reflexivity|].
  pose proof (Z.mod_pos_bound (entropy w (cursor w)) (2 ^ 53) eq_refl) as [L U].
  unfold Qle, Qlt. cbn [Qnum Qden].
  rewrite Z2Pos.id by reflexivity. lia.
Qed.

(** [random.uniform(a, b)] for integer bounds stays within them and is a
    binary64 number. *)
Lemma uniform_spec a b w :
  (0 <= a <= b)%Z -> (b < 2 ^ 53)%Z ->
  exists x w', uniform a b w = Ok (x, w') /\
               inject_Z a <= x <= inject_Z b /\ RN x == x.
Proof.
  intros Hab Hb. unfold uniform, bind.
  destruct (random_spec w) as (u & w' & E & Hu). rewrite E. unfold ret.
  eexists. eexists. split; [reflexivity|].
  assert (Ea : float_of_int a == inject_Z a) by (apply float_of_int_exact; lia).
  assert (Ed : float_of_int (b - a) == inject_Z (b - a)) by (apply float_of_int_exact; lia).
  assert (Pa : 0 <= inject_Z a) by (change 0 with (inject_Z 0); rewrite <- Zle_Qle; lia).
  assert (Pd : 0 <= inject_Z (b - a)) by (change 0 with (inject_Z 0); rewrite <- Zle_Qle; lia).
  assert (Hm : inject_Z 0 <= fmul (float_of_int (b - a)) u <= inject_Z (b - a)).
  { unfold fmul. apply RN_between_Z; [lia | lia |]. rewrite Ed.
    change (inject_Z 0) with 0. split.
    - apply Qmult_le_0_compat; lra.
    - rewrite <- (Qmult_1_r (inject_Z (b - a))) at 2.
      rewrite !(Qmult_comm (inject_Z (b - a))).
      apply Qmult_le_compat_r; lra. }
  change (inject_Z 0) with 0 in Hm.
  assert (Es : inject_Z (b - a) == inject_Z b - inject_Z a).
  { unfold Zminus. rewrite inject_Z_plus, inject_Z_opp. ring. }
  split.
  - unfold fadd. apply RN_between_Z; [lia | lia |]. rewrite Ea. lra.
  - unfold fadd. apply RN_idem. rewrite Ea. lra.
Qed.

End RandomFacts.

(** ** The generator *)

Module GeneratorFacts.

Import Float64 Float64Facts Datetime TimestampFacts Random RandomFacts IoTDataGenerator.

(** What every reading built by [new_reading] satisfies. *)
Definition reading_ok (r : SensorRecord) : Prop :=
  (70 <= outside_temperature r <= 95 /\ 50 <= outside_humidity r <= 95 /\
   60 <= room_temperature r <= 95 /\ 40 <= room_humidity r <= 95 /\
   room_temperature r <= outside_temperature r /\
   room_humidity r <= outside_humidity r)%Q.

(** How the stored values come from the draws: the two outside values
    [out_t] and [out_h], the two offsets [diff_t] and [diff_h], the
    differences, and the rounding of all four to two places. *)
Definition built_from (out_t diff_t out_h diff_h : Q) (r : SensorRecord) : Prop :=
  (0 <= diff_t <= 10 /\ 0 <= diff_h <= 10 /\
   fsub out_t diff_t <= out_t /\ fsub out_h diff_h <= out_h)%Q /\
  outside_temperature r = round out_t 2 /\
  outside_humidity r = round out_h 2 /\
  room_temperature r = round (fsub out_t diff_t) 2 /\
  room_humidity r = round (fsub out_h diff_h) 2.

Definition reading_built (r : SensorRecord) : Prop :=
  reading_ok r /\ exists ot td oh hd, built_from ot td oh hd r.

(** A room value: an outside value in [[lo, hi]] minus an offset in [[0, 10]]. *)
Lemma room_value lo hi x d :
  (10 <= lo <= hi)%Z -> (hi < 2 ^ 53)%Z ->
  (inject_Z lo <= x <= inject_Z hi)%Q -> (RN x == x)%Q ->
  (0 <= d <= 10)%Q ->
  (inject_Z (lo - 10) <= round (fsub x d) 2 <= inject_Z hi /\
   round (fsub x d) 2 <= round x 2)%Q.
Proof.
  intros Hlo Hhi Hx Ex Hd.
  assert (El : (inject_Z (lo - 10) == inject_Z lo - 10)%Q).
  { unfold Zminus. rewrite inject_Z_plus, inject_Z_opp. reflexivity. }
  assert (Pl : (0 <= inject_Z (lo - 10))%Q).
  { change 0%Q with (inject_Z 0). rewrite <- Zle_Qle. lia. }
  assert (B : (inject_Z (lo - 10) <= fsub x d <= inject_Z hi)%Q).
  { unfold fsub. apply RN_between_Z; [lia | lia | lra]. }
  split.
  - apply round2_between_Z; [lia | lia | exact B].
  - apply round2_le; [lra|]. apply fsub_le; [lra | lra | exact Ex].
Qed.

Lemma new_reading_spec cur w :
  exists r w', new_reading cur w = Ok (r, w') /\
    date r = strftime_date cur /\ time r = strftime_time cur /\ reading_built r.
Proof.
  unfold new_reading. cbv zeta. unfold bind at 1.
  destruct (uniform_spec 70 95 w) as (ot & w1 & E1 & B1 & R1); [lia | lia |].
  rewrite E1. unfold bind at 1.
  destruct (uniform_spec 0 10 w1) as (td & w2 & E2 & B2 & _); [lia | lia |].
  rewrite E2. unfold bind at 1.
  destruct (uniform_spec 50 95 w2) as (oh & w3 & E3 & B3 & R3); [lia | lia |].
  rewrite E3. unfold bind at 1.
  destruct (uniform_spec 0 10 w3) as (hd & w4 & E4 & B4 & _); [lia | lia |].
  rewrite E4. unfold ret.
  eexists. eexists. split; [reflexivity|]. cbn [date time]. split; [reflexivity|].
  split; [reflexivity|]. unfold reading_built, reading_ok, built_from.
  cbn [outside_temperature outside_humidity room_temperature room_humidity].
  destruct (room_value 70 95 ot td) as [T1 T2]; [lia | lia | exact B1 | exact R1 | exact B2 |].
  destruct (room_value 50 95 oh hd) as [H1 H2]; [lia | lia | exact B3 | exact R3 | exact B4 |].
  pose proof (round2_between_Z 70 95 ot ltac:(lia) ltac:(lia) B1) as O1.
  pose proof (round2_between_Z 50 95 oh ltac:(lia) ltac:(lia) B3) as O2.
  change (inject_Z (70 - 10)) with 60%Q in T1. change (inject_Z (50 - 10)) with 40%Q in H1.
  change (inject_Z 70) with 70%Q in *. change (inject_Z 95) with 95%Q in *.
  change (inject_Z 50) with 50%Q in *. change (inject_Z 0) with 0%Q in *.
  change (inject_Z 10) with 10%Q in *.
  split; [repeat split; tauto|].
  exists ot, td, oh, hd.
  split; [|repeat split; reflexivity].
  split; [exact B2|]. split; [exact B4|].
  split; apply fsub_le; solve [lra | assumption].
Qed.

(** Six hours, as the loop adds them. *)
Lemma six_hours : new_timedelta 0 0 0 6 = Ok (mk_timedelta 0 21600).
Proof. reflexivity. Qed.

Local Open Scope Z_scope.

(** The first count of seconds no [datetime] reaches. *)
Definition end_of_time : Z := (_MAXORDINAL + 1) * 86400.

Lemma of_timestamp_in_range t :
  86400 <= t < end_of_time -> exists dt, of_timestamp t = Ok dt.
Proof.
  intros Ht. unfold of_timestamp. cbv zeta.
  replace ((0 <? t / 86400) && (t / 86400 <=? _MAXORDINAL)) with true.
  - destruct (_ord2ymd (t / 86400)) as [[y m] d]. eexists. reflexivity.
  - symmetry. apply andb_true_iff. unfold end_of_time, _MAXORDINAL in *.
    split; [apply Z.ltb_lt | apply Z.leb_le]; DatetimeFacts.zdm; lia.
Qed.

Lemma of_timestamp_out_of_range t :
  end_of_time <= t -> of_timestamp t = Raise OverflowError.
Proof.
  intros Ht. unfold of_timestamp. cbv zeta.
  replace ((0 <? t / 86400) && (t / 86400 <=? _MAXORDINAL)) with false; [reflexivity|].
  symmetry. apply andb_false_iff. right. apply Z.leb_gt.
  unfold end_of_time, _MAXORDINAL in *. DatetimeFacts.zdm. lia.
Qed.

Lemma timestamp_valid_pos dt : valid dt -> 86400 <= timestamp dt.
Proof.
  intros (Hd & Hh & Hm & Hs). pose proof (toordinal_range _ _ _ Hd).
  unfold timestamp, toordinal. lia.
Qed.

(** The loop of [generate_sensor_data_for_user]: what it returns when it
    returns. *)
Lemma sensor_loop_spec n : forall cur acc w l w',
  valid cur ->
  sensor_loop n cur acc w = Ok (l, w') ->
  exists l',
    l = acc ++ l' /\ List.length l' = n /\ Forall reading_built l' /\
    forall i r, nth_error l' i = Some r ->
      exists dt, of_timestamp (timestamp cur + 21600 * Z.of_nat i) = Ok dt /\
                 date r = strftime_date dt /\ time r = strftime_time dt.
Proof.
  induction n as [|n IH]; intros cur acc w l w' V H.
  - cbn in H. apply ret_ok in H. destruct H as [-> _].
    exists []. rewrite app_nil_r. repeat split; [constructor|].
    intros [|i] r E; discriminate E.
  - cbn [sensor_loop] in H. inv_bind H.
    destruct (new_reading_spec cur w) as (r0 & wr & E0 & Dr & Tr & Okr).
    rewrite E0 in Hrun. injection Hrun as <- <-.
    apply lift_ok in Hrun0. destruct Hrun0 as [Es ->].
    rewrite six_hours in Es. injection Es as <-.
    apply lift_ok in Hrun1. destruct Hrun1 as [En ->].
    destruct (datetime_add_ok cur _ _ V En) as [Vn Tn]. cbn [days seconds] in Tn.
    destruct (IH _ _ _ _ _ Vn H) as (l'' & -> & Len & Fa & Nth).
    exists (r0 :: l''). rewrite <- app_assoc. cbn [app List.length].
    repeat split; [congruence | constructor; assumption |].
    intros [|i] r E; cbn [nth_error] in E.
    + injection E as <-. exists cur. replace (timestamp cur + 21600 * Z.of_nat 0) with (timestamp cur) by lia.
      split; [apply of_timestamp_timestamp; exact V | split; assumption].
    + destruct (Nth i r E) as (dt & Et & Ed & Etm). exists dt.
      split; [|split; assumption]. rewrite <- Et. f_equal. lia.
Qed.

(** The loop returns as long as the clock stays in range, the step after
    the last reading included. *)
Lemma sensor_loop_returns n : forall cur acc w,
  valid cur ->
  timestamp cur + 21600 * Z.of_nat n < end_of_time ->
  exists l w', sensor_loop n cur acc w = Ok (l, w').
Proof.
  induction n as [|n IH]; intros cur acc w V R.
  - eexists. eexists. reflexivity.
  - cbn [sensor_loop]. unfold bind at 1.
    destruct (new_reading_spec cur w) as (r0 & wr & E0 & _). rewrite E0.
    unfold bind at 1. rewrite six_hours. cbn [lift]. unfold bind at 1.
    pose proof (timestamp_valid_pos cur V) as P.
    destruct (of_timestamp_in_range (timestamp cur + 21600)) as [next En]; [lia|].
    assert (Ea : datetime_add cur (mk_timedelta 0 21600) = Ok next).
    { rewrite datetime_add_spec by exact V. cbn [days seconds].
      rewrite <- En. f_equal. lia. }
    rewrite Ea. cbn [lift].
    destruct (datetime_add_ok cur _ _ V Ea) as [Vn Tn]. cbn [days seconds] in Tn.
    apply IH; [exact Vn | lia].
Qed.

(** Past the range, with at least one reading asked for, the addition
    raises. *)
Lemma sensor_loop_overflows n : forall cur acc w,
  valid cur -> (0 < n)%nat ->
  end_of_time <= timestamp cur + 21600 * Z.of_nat n ->
  sensor_loop n cur acc w = Raise OverflowError.
Proof.
  induction n as [|n IH]; intros cur acc w V Hn R; [lia|].
  cbn [sensor_loop]. unfold bind at 1.
  destruct (new_reading_spec cur w) as (r0 & wr & E0 & _). rewrite E0.
  unfold bind at 1. rewrite six_hours. cbn [lift]. unfold bind at 1.
  destruct (Z_lt_le_dec (timestamp cur + 21600) end_of_time) as [In | Out].
  - pose proof (timestamp_valid_pos cur V) as P.
    destruct (of_timestamp_in_range (timestamp cur + 21600)) as [next En]; [lia|].
    assert (Ea : datetime_add cur (mk_timedelta 0 21600) = Ok next).
    { rewrite datetime_add_spec by exact V. cbn [days seconds].
      rewrite <- En. f_equal. lia. }
    rewrite Ea. cbn [lift].
    destruct (datetime_add_ok cur _ _ V Ea) as [Vn Tn]. cbn [days seconds] in Tn.
    apply IH; [exact Vn | lia | lia].
  - assert (Ea : datetime_add cur (mk_timedelta 0 21600) = Raise OverflowError).
    { rewrite datetime_add_spec by exact V. cbn [days seconds].
      apply of_timestamp_out_of_range. lia. }
    rewrite Ea. reflexivity.
Qed.

Lemma new_user_returns w : exists u w', new_user w = Ok (u, w').
Proof. eexists. eexists. reflexivity. Qed.

Lemma users_loop_spec n : forall users w,
  exists l w', users_loop n users w = Ok (users ++ l, w') /\ List.length l = n /\
               Forall (fun u => sensor_data u = []) l.
Proof.
  induction n as [|n IH]; intros users w.
  - exists [], w. rewrite app_nil_r. repeat split. constructor.
  - cbn [users_loop]. unfold bind at 1.
    destruct (new_user w) as [[u w1]|e] eqn:E; [|discriminate E].
    destruct (IH (users ++ [u]) w1) as (l & w' & El & Len & Fa).
    exists (u :: l), w'. rewrite El, <- app_assoc. cbn [app List.length].
    repeat split; [congruence|]. constructor; [|exact Fa].
    unfold new_user, bind, ret in E. cbn in E. injection E as <- _. reflexivity.
Qed.

End GeneratorFacts.

(* ================================================================== *)
(** * The properties of the specification *)
(* ================================================================== *)

(** A state of the two generators, for the examples below. *)
Definition sample_world : World :=
  mk_World
    (fun i => ((Z.of_nat i * 2654435761 + 88172645463325252) * 6364136223846793005)%Z) 0
    (fun i => if Nat.even i then "Ada"%string else "12 Mill Lane"%string) 0.

Section GeneratedReadings.

Import Float64 Datetime TimestampFacts IoTDataGenerator GeneratorFacts.

(** Every reading of a finished call was built by [new_reading]. *)
Lemma generated_readings_ok start_date num_records w readings w' :
  generate_sensor_data_for_user start_date num_records w = Ok (readings, w') ->
  Forall reading_built readings.
Proof.
  intros H. unfold generate_sensor_data_for_user in H. inv_bind H.
  apply lift_ok in Hrun. destruct Hrun as [Es ->].
  destruct (strptime_valid _ _ Es) as [V _].
  destruct (sensor_loop_spec _ _ _ _ _ _ V H) as (l' & -> & _ & Fa & _).
  exact Fa.
Qed.

(** C1: in every reading returned by [generate_sensor_data_for_user], for
    any start date and any number of records, the room temperature is at
    most the outside temperature and the room humidity is at most the
    outside humidity, the values being those stored, that is, after
    rounding to two decimal places.  Each room value is the rounding of an
    outside value minus an offset that is not negative, and the
    difference is at most the outside value before rounding too. *)
Theorem C1_room_at_most_outside start_date num_records w readings w' :
  generate_sensor_data_for_user start_date num_records w = Ok (readings, w') ->
  Forall (fun r =>
            (room_temperature r <= outside_temperature r /\
             room_humidity r <= outside_humidity r)%Q /\
            exists out_t diff_t out_h diff_h, built_from out_t diff_t out_h diff_h r)
         readings.
Proof.
  intros H. apply generated_readings_ok in H.
  eapply Forall_impl; [|exact H]. unfold reading_built, reading_ok.
  intros r [Hr Hb]. split; [tauto | exact Hb].
Qed.

(** C2: in every reading returned, the stored outside temperature lies in
    [[70, 95]] and the stored outside humidity in [[50, 95]]. *)
Theorem C2_outside_ranges start_date num_records w readings w' :
  generate_sensor_data_for_user start_date num_records w = Ok (readings, w') ->
  Forall (fun r => (70 <= outside_temperature r <= 95 /\
                    50 <= outside_humidity r <= 95)%Q) readings.
Proof.
  intros H. apply generated_readings_ok in H.
  eapply Forall_impl; [|exact H]. unfold reading_built, reading_ok. intros r Hr. tauto.
Qed.

(** C10: in every reading returned, the stored room temperature lies in
    [[60, 95]] and the stored room humidity in [[40, 95]]. *)
Theorem C10_room_ranges start_date num_records w readings w' :
  generate_sensor_data_for_user start_date num_records w = Ok (readings, w') ->
  Forall (fun r => (60 <= room_temperature r <= 95 /\
                    40 <= room_humidity r <= 95)%Q) readings.
Proof.
  intros H. apply generated_readings_ok in H.
  eapply Forall_impl; [|exact H]. unfold reading_built, reading_ok. intros r Hr. tauto.
Qed.

(** Three readings from the default start date. *)
Definition sample_run : result (list SensorRecord * World) :=
  generate_sensor_data_for_user "2015-01-01" 3 sample_world.

Definition sample_readings : list SensorRecord :=
  match sample_run with
  | Ok (readings, _) => readings
  | Raise _ => []
  end.

Definition sample_world_after : World :=
  match sample_run with
  | Ok (_, w') => w'
  | Raise _ => sample_world
  end.

(** Six readings from the last day of the year 999: the last two fall on
    the first day of the year 1000. *)
Definition old_run : result (list SensorRecord * World) :=
  generate_sensor_data_for_user "0999-12-31" 6 sample_world.

Definition old_readings : list SensorRecord :=
  match old_run with
  | Ok (readings, _) => readings
  | Raise _ => []
  end.

Definition old_world_after : World :=
  match old_run with
  | Ok (_, w') => w'
  | Raise _ => sample_world
  end.

Lemma sample_run_ok : sample_run = Ok (sample_readings, sample_world_after).
Proof. vm_compute. reflexivity. Qed.

Lemma sample_readings_length : List.length sample_readings = 3%nat.
Proof. vm_compute. reflexivity. Qed.

Lemma C1_witness :
  Forall (fun r =>
            (room_temperature r <= outside_temperature r /\
             room_humidity r <= outside_humidity r)%Q /\
            exists out_t diff_t out_h diff_h, built_from out_t diff_t out_h diff_h r)
         sample_readings.
Proof.
  apply (C1_room_at_most_outside "2015-01-01" 3 sample_world sample_readings
           sample_world_after).
  vm_compute. reflexivity.
Defined.

Lemma C2_witness :
  Forall (fun r => (70 <= outside_temperature r <= 95 /\
                    50 <= outside_humidity r <= 95)%Q) sample_readings.
Proof.
  apply (C2_outside_ranges "2015-01-01" 3 sample_world sample_readings
           sample_world_after).
  vm_compute. reflexivity.
Defined.

Lemma C10_witness :
  Forall (fun r => (60 <= room_temperature r <= 95 /\
                    40 <= room_humidity r <= 95)%Q) sample_readings.
Proof.
  apply (C10_room_ranges "2015-01-01" 3 sample_world sample_readings
           sample_world_after).
  vm_compute. reflexivity.
Defined.

End GeneratedReadings.

Section Timestamps.

Import Datetime TimestampFacts IoTDataGenerator GeneratorFacts.
Local Open Scope Z_scope.

(** The reading at position [i] is stamped with the start plus [i] steps
    of 21600 seconds. *)
Lemma generated_reading_stamp start_date num_records w readings w' i r :
  generate_sensor_data_for_user start_date num_records w = Ok (readings, w') ->
  nth_error readings i = Some r ->
  exists start dt,
    strptime start_date = Ok start /\ valid start /\
    of_timestamp (timestamp start + 21600 * Z.of_nat i) = Ok dt /\
    date r = strftime_date dt /\ time r = strftime_time dt.
Proof.
  intros H Hi. unfold generate_sensor_data_for_user in H. inv_bind H.
  apply lift_ok in Hrun. destruct Hrun as [Es ->].
  destruct (strptime_valid _ _ Es) as [V _].
  destruct (sensor_loop_spec _ _ _ _ _ _ V H) as (l' & -> & _ & _ & Nth).
  cbn [app] in Hi. destruct (Nth i r Hi) as (dt & Et & Ed & Etm).
  exists a, dt. split; [exact Es|]. split; [exact V|]. split; [exact Et|]. split; assumption.
Qed.

(** C3: the reading at position [i] (from 0) of a returned list carries
    the date and time of [start_date + timedelta(hours=6*i)]; its count of
    seconds is that of the start date plus [i] times six hours, so that
    successive readings are six hours apart, and the first reading is at
    the start date itself. *)
Theorem C3_six_hour_steps start_date num_records w readings w' i r :
  generate_sensor_data_for_user start_date num_records w = Ok (readings, w') ->
  nth_error readings i = Some r ->
  exists start step dt,
    strptime start_date = Ok start /\
    new_timedelta 0 0 0 (6 * Z.of_nat i) = Ok step /\
    datetime_add start step = Ok dt /\
    date r = strftime_date dt /\ time r = strftime_time dt /\
    timestamp dt = timestamp start + Z.of_nat i * (6 * 3600) /\
    (i = 0%nat -> dt = start).
Proof.
  intros H Hi.
  destruct (generated_reading_stamp _ _ _ _ _ _ _ H Hi) as (start & dt & Es & V & Et & Ed & Etm).
  destruct (of_timestamp_ok _ _ Et) as [Vdt Tdt].
  pose proof (timestamp_valid_pos start V) as P.
  assert (U : timestamp dt < end_of_time).
  { destruct Vdt as (Hd & Hh & Hm & Hs). pose proof (toordinal_range _ _ _ Hd).
    unfold timestamp, end_of_time, toordinal. lia. }
  destruct (new_timedelta_hours_ok (6 * Z.of_nat i)) as [step Estep].
  { unfold end_of_time, _MAXORDINAL in U. lia. }
  pose proof (new_timedelta_hours _ _ Estep) as Hstep.
  exists start, step, dt. repeat split; try assumption.
  - rewrite datetime_add_spec by exact V. rewrite <- Et. f_equal. lia.
  - lia.
  - intros ->. replace (timestamp start + 21600 * Z.of_nat 0) with (timestamp start) in Et by lia.
    rewrite (of_timestamp_timestamp start V) in Et. congruence.
Qed.

Lemma C3_witness :
  (exists start step dt,
     strptime "0999-12-31" = Ok start /\
     new_timedelta 0 0 0 (6 * Z.of_nat 5) = Ok step /\
     datetime_add start step = Ok dt /\
     date (nth 5 old_readings (mk_SensorRecord "" "" 0 0 0 0)) = strftime_date dt /\
     time (nth 5 old_readings (mk_SensorRecord "" "" 0 0 0 0)) = strftime_time dt /\
     timestamp dt = timestamp start + Z.of_nat 5 * (6 * 3600) /\
     (5%nat = 0%nat -> dt = start)) /\
  date (nth 0 old_readings (mk_SensorRecord "" "" 0 0 0 0)) = "999-12-31"%string /\
  date (nth 5 old_readings (mk_SensorRecord "" "" 0 0 0 0)) = "1000-01-01"%string /\
  time (nth 5 old_readings (mk_SensorRecord "" "" 0 0 0 0)) = "06:00:00"%string.
Proof.
  split.
  - apply (C3_six_hour_steps "0999-12-31" 6 sample_world old_readings
             old_world_after 5).
    + vm_compute. reflexivity.
    + vm_compute. reflexivity.
  - repeat split; vm_compute; reflexivity.
Defined.

End Timestamps.

Section Counts.

Import Datetime TimestampFacts IoTDataGenerator GeneratorFacts.
Local Open Scope Z_scope.

(** C7, as stated, fails: asking for four readings from the last day of
    year 9999 raises [OverflowError] when the clock is advanced past the
    fourth reading, although the count is positive. *)
Lemma C7_overflow_at_end_of_calendar :
  (0 <? 4) = true /\
  generate_sensor_data_for_user "9999-12-31" 4 sample_world = Raise OverflowError.
Proof. split; vm_compute; reflexivity. Qed.

(** C7, amended.  [generate_user_data] returns no user for a count that
    is zero or negative and exactly [num_users] users for a positive one.
    For a start date that [strptime] accepts,
    [generate_sensor_data_for_user] returns no reading for a count that is
    zero or negative; for a positive count it returns, without any error,
    exactly [num_records] readings provided the start date plus
    [num_records] times six hours is still a [datetime] (not after
    9999-12-31 23:59:59). *)
Theorem C7_counts num_users num_records start_date start w :
  strptime start_date = Ok start ->
  (num_users <= 0 -> generate_user_data num_users w = Ok ([], w)) /\
  (0 < num_users ->
     exists users w', generate_user_data num_users w = Ok (users, w') /\
                      Z.of_nat (List.length users) = num_users) /\
  (num_records <= 0 ->
     generate_sensor_data_for_user start_date num_records w = Ok ([], w)) /\
  (0 < num_records ->
     timestamp start + num_records * (6 * 3600) < end_of_time ->
     exists readings w',
       generate_sensor_data_for_user start_date num_records w = Ok (readings, w') /\
       Z.of_nat (List.length readings) = num_records).
Proof.
  intros Es. destruct (strptime_valid _ _ Es) as [V _].
  split; [|split; [|split]].
  - intros H. unfold generate_user_data.
    replace (Z.to_nat num_users) with 0%nat by lia. reflexivity.
  - intros H. unfold generate_user_data.
    destruct (users_loop_spec (Z.to_nat num_users) [] w) as (l & w' & E & Len & _).
    exists l, w'. split; [exact E | lia].
  - intros H. unfold generate_sensor_data_for_user, bind. rewrite Es. cbn [lift].
    replace (Z.to_nat num_records) with 0%nat by lia. reflexivity.
  - intros H R. unfold generate_sensor_data_for_user, bind. rewrite Es. cbn [lift].
    destruct (sensor_loop_returns (Z.to_nat num_records) start [] w V) as (l & w' & E); [lia|].
    exists l, w'. split; [exact E|].
    destruct (sensor_loop_spec _ _ _ _ _ _ V E) as (l' & -> & Len & _).
    cbn [app]. lia.
Qed.

Lemma C7_witness :
  (0 <= 0 -> generate_user_data 0 sample_world = Ok ([], sample_world)) /\
  (0 < 2 ->
     exists users w', generate_user_data 2 sample_world = Ok (users, w') /\
                      Z.of_nat (List.length users) = 2) /\
  (0 <= 0 ->
     generate_sensor_data_for_user "２０１５-01-01" 0 sample_world
     = Ok ([], sample_world)) /\
  (exists readings w',
     generate_sensor_data_for_user "２０１５-01-01" 3 sample_world = Ok (readings, w') /\
     Z.of_nat (List.length readings) = 3).
Proof.
  pose proof (C7_counts 0 0 "２０１５-01-01" (mk_datetime 2015 1 1 0 0 0) sample_world
                eq_refl) as (U0 & _ & S0 & _).
  pose proof (C7_counts 2 3 "２０１５-01-01" (mk_datetime 2015 1 1 0 0 0) sample_world
                eq_refl) as (_ & U2 & _ & S3).
  split; [exact U0|]. split; [exact U2|]. split; [exact S0|].
  apply S3; vm_compute; reflexivity.
Defined.

End Counts.

(** ** Export *)

Module ExportFacts.

Import MainWindow.
Local Open Scope Z_scope.

Section CSVRows.

Variable float_str : Q -> string.

(** All the rows of a dataset, one per user and reading, users first. *)
Definition all_rows (data : list User) : list (list string) :=
  flat_map (fun user => map (csv_row float_str user) (sensor_data user)) data.

Lemma sensor_rows_spec max_records user : forall sensors csv count,
  count < max_records ->
  let taken := firstn (Z.to_nat (max_records - count)) (map (csv_row float_str user) sensors) in
  sensor_rows float_str max_records user sensors csv count =
  (csv ++ taken, count + Z.of_nat (List.length taken)).
Proof.
  induction sensors as [|sensor rest IH]; intros csv count Hc; cbv zeta.
  - cbn [sensor_rows map]. rewrite firstn_nil, app_nil_r. cbn. f_equal. lia.
  - cbn [sensor_rows map].
    replace (Z.to_nat (max_records - count)) with (S (Z.to_nat (max_records - (count + 1)))) by lia.
    cbn [firstn List.length].
    destruct (Z.leb_spec max_records (count + 1)) as [Full | More].
    + replace (Z.to_nat (max_records - (count + 1))) with 0%nat by lia.
      cbn [firstn List.length]. f_equal.
    + rewrite (IH (csv ++ [csv_row float_str user sensor]) (count + 1) More).
      cbv zeta. rewrite <- app_assoc. cbn [app]. f_equal. lia.
Qed.

Lemma user_rows_spec max_records : forall users csv count,
  count < max_records ->
  let taken := firstn (Z.to_nat (max_records - count)) (all_rows users) in
  user_rows float_str max_records users csv count =
  (csv ++ taken, count + Z.of_nat (List.length taken)).
Proof.
  induction users as [|user rest IH]; intros csv count Hc; cbv zeta.
  - cbn [user_rows all_rows flat_map]. rewrite firstn_nil, app_nil_r. cbn. f_equal. lia.
  - cbn [user_rows all_rows flat_map]. fold (all_rows rest).
    rewrite (sensor_rows_spec max_records user (sensor_data user) csv count Hc). cbv zeta.
    set (rows := map (csv_row float_str user) (sensor_data user)).
    set (k := Z.to_nat (max_records - count)).
    rewrite firstn_app.
    pose proof (firstn_le_length k rows) as Lk.
    pose proof (length_firstn k rows) as Ek.
    destruct (Z.leb_spec max_records (count + Z.of_nat (List.length (firstn k rows)))) as [Full | More].
    + assert (k - List.length rows = 0)%nat as -> by lia.
      cbn [firstn]. rewrite app_nil_r. reflexivity.
    + assert (Hall : firstn k rows = rows).
      { apply firstn_all2. lia. }
      rewrite Hall in *.
      rewrite (IH (csv ++ rows) (count + Z.of_nat (List.length rows)) More). cbv zeta.
      replace (Z.to_nat (max_records - (count + Z.of_nat (List.length rows))))
        with (k - List.length rows)%nat by lia.
      rewrite <- app_assoc. f_equal. rewrite length_app. lia.
Qed.

Lemma all_rows_length data :
  List.length (all_rows data) = List.length (flat_map sensor_data data).
Proof.
  induction data as [|user rest IH]; [reflexivity|].
  cbn [all_rows flat_map]. fold (all_rows rest).
  rewrite !length_app, length_map, IH. reflexivity.
Qed.

Lemma all_rows_width data : Forall (fun row => List.length row = 13%nat) (all_rows data).
Proof.
  unfold all_rows. apply Forall_flat_map. apply Forall_forall. intros user _.
  apply Forall_map. apply Forall_forall. intros sensor _. reflexivity.
Qed.

End CSVRows.

Lemma Forall_firstn_all {A : Type} (P : A -> Prop) n (l : list A) :
  Forall P l -> Forall P (firstn n l).
Proof.
  intros H. revert n. induction H as [|x l Hx Hl IH]; intros [|n]; cbn [firstn];
    constructor; auto.
Qed.

(** [user.copy()] and the list of copies. *)
Lemma dict_copy_same user : dict_copy user = user.
Proof. destruct user. reflexivity. Qed.

Lemma json_data_same data : json_data data = data.
Proof.
  unfold json_data.
  assert (G : forall acc, fold_left (fun acc user => acc ++ [dict_copy user]) data acc = acc ++ data).
  { induction data as [|user rest IH]; intros acc; cbn [fold_left].
    - rewrite app_nil_r. reflexivity.
    - rewrite IH, dict_copy_same, <- app_assoc. reflexivity. }
  apply (G []).
Qed.

Lemma reading_round_trip sensor : json_to_reading (reading_to_json sensor) = Some sensor.
Proof. destruct sensor. reflexivity. Qed.

Lemma readings_round_trip readings :
  option_map_all json_to_reading (map reading_to_json readings) = Some readings.
Proof.
  induction readings as [|sensor rest IH]; [reflexivity|].
  cbn [map option_map_all]. rewrite reading_round_trip, IH. reflexivity.
Qed.

Lemma user_round_trip user : json_to_user (user_to_json user) = Some user.
Proof.
  destruct user as [fn ln a g un ad em sd].
  unfold user_to_json, json_to_user, get_string, get_int.
  cbn [firstname lastname age gender username address email sensor_data lookup
       String.eqb Ascii.eqb Bool.eqb option_bind].
  rewrite readings_round_trip. reflexivity.
Qed.

Lemma users_round_trip users :
  option_map_all json_to_user (map user_to_json users) = Some users.
Proof.
  induction users as [|user rest IH]; [reflexivity|].
  cbn [map option_map_all]. rewrite user_round_trip, IH. reflexivity.
Qed.

Lemma json_reading_count_spec users :
  json_reading_count (JArray (map user_to_json users)) =
  List.length (flat_map sensor_data users).
Proof.
  induction users as [|user rest IH]; [reflexivity|].
  cbn [json_reading_count map fold_right flat_map] in *.
  rewrite length_app, <- IH. destruct user. cbn. rewrite length_map. reflexivity.
Qed.

End ExportFacts.

Section ExportClaims.

Import MainWindow ExportFacts.

(** C5: for every dataset the CSV export block writes the header row, of
    13 named columns, followed by the first 10000 rows of the dataset (all
    of them when there are fewer), one row of 13 cells per user and
    reading, users in order and readings in order within a user; so the
    number of data rows is the smaller of the number of readings and
    10000, which is also the count the handler reports. *)
Theorem C5_csv_rows (float_str : Q -> string) (data : list User) :
  csv_data float_str data =
    headers :: firstn (Z.to_nat 10000) (all_rows float_str data) /\
  List.length headers = 13%nat /\
  Forall (fun row => List.length row = 13%nat) (csv_data float_str data) /\
  Z.of_nat (List.length (csv_data float_str data)) =
    (1 + Z.min (Z.of_nat (List.length (flat_map sensor_data data))) 10000)%Z /\
  snd (csv_export float_str data) =
    Z.min (Z.of_nat (List.length (flat_map sensor_data data))) 10000.
Proof.
  set (taken := firstn (Z.to_nat 10000) (all_rows float_str data)).
  assert (E : csv_export float_str data =
              ([headers] ++ taken, (0 + Z.of_nat (List.length taken))%Z)).
  { unfold csv_export. cbv zeta. cbn [app].
    rewrite (user_rows_spec float_str 10000 data [headers] 0 eq_refl). reflexivity. }
  assert (L : Z.of_nat (List.length taken) =
              Z.min (Z.of_nat (List.length (flat_map sensor_data data))) 10000).
  { unfold taken. rewrite length_firstn, all_rows_length. lia. }
  unfold csv_data. rewrite E. cbn [fst snd app List.length].
  split; [reflexivity|]. split; [reflexivity|]. split; [|split; lia].
  constructor; [reflexivity|]. apply Forall_firstn_all. apply all_rows_width.
Qed.

(** C6: reading back the document written by the JSON export block gives
    the users and readings of the dataset with every field unchanged, and
    the document holds one reading object per reading in memory, whatever
    their number. *)
Theorem C6_json_round_trip (data : list User) :
  json_to_data (json_document data) = Some data /\
  json_reading_count (json_document data) = List.length (flat_map sensor_data data).
Proof.
  unfold json_document. rewrite json_data_same. split.
  - apply users_round_trip.
  - apply json_reading_count_spec.
Qed.

End ExportClaims.

(** ** The statistics report *)

Module StatisticsFacts.

Import StatisticsDialog.

(** [all_sensor_data] after the loop that extends it. *)
Lemma extend_all data : forall acc,
  fold_left (fun acc user => acc ++ sensor_data user) data acc =
  acc ++ flat_map sensor_data data.
Proof.
  induction data as [|user rest IH]; intros acc; cbn [fold_left flat_map].
  - rewrite app_nil_r. reflexivity.
  - rewrite IH, app_assoc. reflexivity.
Qed.

Lemma column_sections all : forall cols acc,
  fold_left (fun acc col => acc ++ column_section all col) cols acc =
  acc ++ flat_map (column_section all) cols.
Proof.
  induction cols as [|col rest IH]; intros acc; cbn [fold_left flat_map].
  - rewrite app_nil_r. reflexivity.
  - rewrite IH, app_assoc. reflexivity.
Qed.

Lemma getitem_first {A : Type} (x : A) l : getitem (x :: l) 0 = Ok x.
Proof.
  unfold getitem. cbn [List.length].
  replace ((0 <? 0)%Z) with false by reflexivity.
  replace (((0 <? 0) || (Z.of_nat (S (List.length l)) <=? 0))%Z) with false.
  - reflexivity.
  - symmetry. apply orb_false_iff. split; [reflexivity | apply Z.leb_gt; lia].
Qed.

Lemma getitem_last {A : Type} (x : A) l : getitem (x :: l) (-1) = Ok (last (x :: l) x).
Proof.
  unfold getitem. set (n := Z.of_nat (List.length (x :: l))).
  assert (Hn : (1 <= n)%Z) by (unfold n; cbn [List.length]; lia).
  replace ((-1 <? 0)%Z) with true by reflexivity.
  replace ((((-1 + n) <? 0) || (n <=? (-1 + n)))%Z) with false.
  - replace (Z.to_nat (-1 + n)) with (List.length l) by (unfold n; cbn [List.length]; lia).
    clear n Hn.
    assert (G : forall (l : list A) x d,
               nth_error (x :: l) (List.length l) = Some (last (x :: l) d)).
    { clear. induction l as [|y l IH]; intros x d; [reflexivity|].
      cbn [List.length nth_error]. rewrite (IH y d). reflexivity. }
    rewrite (G l x x). reflexivity.
  - symmetry. apply orb_false_iff. split; [apply Z.ltb_ge | apply Z.leb_gt]; lia.
Qed.

(** The pieces that follow the column sections: three lines, then the
    date range. *)
Definition totals (data : list User) (all : list SensorRecord) : list piece :=
  [Text (nl ++ nl ++ "ADDITIONAL STATISTICS" ++ nl);
   Text (str_times "-" 50 ++ nl);
   Text ("Total Users: " ++ format_thousands (Z.of_nat (List.length data)) ++ nl);
   Text ("Total Sensor Records: " ++ format_thousands (Z.of_nat (List.length all)) ++ nl)
  ]%string.

Definition range_line (d1 d2 : string) : piece :=
  Text ("Date Range: " ++ d1 ++ " to " ++ d2 ++ nl)%string.

(** The report for a dataset with at least one reading. *)
Lemma generate_statistics_some data first rest :
  flat_map sensor_data data = first :: rest ->
  generate_statistics data =
  Ok ((title ++ flat_map (column_section (first :: rest)) columns
       ++ totals data (first :: rest))
      ++ [range_line (date first) (date (last (first :: rest) first))]).
Proof.
  intros E. unfold generate_statistics. cbv zeta.
  destruct data as [|u us]; [discriminate E|].
  rewrite extend_all. cbn [app]. rewrite E.
  rewrite getitem_first, getitem_last. cbn [result_bind].
  rewrite column_sections. unfold totals, range_line.
  rewrite <- !app_assoc. reflexivity.
Qed.

End StatisticsFacts.

Section StatisticsClaims.

Import StatisticsDialog StatisticsFacts.

(** The summaries a report asks pandas for, in order, each with the
    values it is computed on. *)
Definition summaries (report : list piece) : list (summary * list Q) :=
  flat_map (fun p => match p with
                     | Fixed2 f column => [(f, column)]
                     | Text _ => []
                     end) report.

(** C4: with no user the report is the title followed by "No data
    available..."; with users but no reading at all it is the title
    followed by "No sensor data available."; in both cases the call
    returns and computes no summary.  With at least one reading it
    returns a report whose summaries are, for the outside temperature,
    the outside humidity, the room temperature and the room humidity in
    this order, the mean, the standard deviation, the minimum, the three
    quartiles and the maximum of that field over all the readings of all
    the users. *)
Theorem C4_no_data_report (data : list User) :
  (data = [] ->
     generate_statistics data =
     Ok (title ++ [Text "No data available. Please generate IoT data first."])) /\
  (data <> [] -> flat_map sensor_data data = [] ->
     generate_statistics data = Ok (title ++ [Text "No sensor data available."])) /\
  (flat_map sensor_data data <> [] ->
     exists report,
       generate_statistics data = Ok report /\
       summaries report
       = flat_map
           (fun field =>
              map (fun f => (f, map field (flat_map sensor_data data)))
                  [Mean; Std; Min; Quantile25; Median; Quantile75; Max])
           [outside_temperature; outside_humidity; room_temperature; room_humidity]) /\
  summaries (title ++ [Text "No data available. Please generate IoT data first."]) = [] /\
  summaries (title ++ [Text "No sensor data available."]) = [].
Proof.
  split; [|split; [|split; [|split; reflexivity]]].
  - intros ->. reflexivity.
  - intros Hd Ha. unfold generate_statistics. cbv zeta.
    destruct data as [|u us]; [contradiction|].
    rewrite extend_all. cbn [app]. rewrite Ha. reflexivity.
  - intros Ha. destruct (flat_map sensor_data data) as [|first rest] eqn:E; [contradiction|].
    eexists. split; [apply (generate_statistics_some data first rest E)|].
    unfold summaries. rewrite !flat_map_app. reflexivity.
Qed.

End StatisticsClaims.

(** ** The date range of the report *)

Module DateRangeFacts.

Import StatisticsDialog StatisticsFacts.

(** Python's [<=] on [str]; on dates written [YYYY-MM-DD] it is the order
    of the calendar. *)
Definition date_le (a b : string) : Prop := String.leb a b = true.

Lemma date_le_refl a : date_le a a.
Proof. unfold date_le. destruct (String.leb_total a a); assumption. Qed.

Lemma date_le_trans a b c : date_le a b -> date_le b c -> date_le a c.
Proof.
  unfold date_le, String.leb.
  change (String.compare a b) with (OrdersEx.String_as_OT.compare a b).
  change (String.compare b c) with (OrdersEx.String_as_OT.compare b c).
  change (String.compare a c) with (OrdersEx.String_as_OT.compare a c).
  destruct (OrdersEx.String_as_OT.compare_spec a b) as [E1 | L1 | G1]; try discriminate; intros _.
  - rewrite E1. trivial.
  - destruct (OrdersEx.String_as_OT.compare_spec b c) as [E2 | L2 | G2]; try discriminate; intros _.
    + rewrite <- E2. unfold OrdersEx.String_as_OT.lt in L1. rewrite L1. reflexivity.
    + pose proof (@StrictOrder_Transitive _ _ OrdersEx.String_as_OT.lt_strorder _ _ _ L1 L2) as L.
      unfold OrdersEx.String_as_OT.lt in L. rewrite L. reflexivity.
Qed.

(** [d] is the earliest (the latest) date among the readings. *)
Definition earliest_date (all : list SensorRecord) (d : string) : Prop :=
  In d (map date all) /\ forall r, In r all -> date_le d (date r).

Definition latest_date (all : list SensorRecord) (d : string) : Prop :=
  In d (map date all) /\ forall r, In r all -> date_le (date r) d.

(** The report ends with the line giving [d1] to [d2] as the date range. *)
Definition reports_range (report : list piece) (d1 d2 : string) : Prop :=
  exists body, report = body ++ [range_line d1 d2].

(** Readings in the order of their dates. *)
Definition chronological (readings : list SensorRecord) : Prop :=
  Sorted (fun a b => date_le (date a) (date b)) readings.

(** Every user with readings has them in the order of their dates, from
    date [d0] to date [d1]: what a run of the generator leaves, each user
    being given the same start date and number of records. *)
Definition same_span (data : list User) (d0 d1 : string) : Prop :=
  forall user, In user data ->
    sensor_data user = [] \/
    (chronological (sensor_data user) /\
     exists first rest,
       sensor_data user = first :: rest /\
       date first = d0 /\ date (last (first :: rest) first) = d1).

Lemma last_any_default {A : Type} (l : list A) : forall x d d',
  last (x :: l) d = last (x :: l) d'.
Proof.
  induction l as [|y l IH]; intros x d d'; [reflexivity|].
  change (last (x :: y :: l) d) with (last (y :: l) d).
  change (last (x :: y :: l) d') with (last (y :: l) d').
  apply IH.
Qed.

Lemma last_in {A : Type} (l : list A) : forall x d, In (last (x :: l) d) (x :: l).
Proof.
  induction l as [|y l IH]; intros x d; [left; reflexivity|].
  right. change (last (x :: y :: l) d) with (last (y :: l) d). apply IH.
Qed.

Lemma last_append {A : Type} (l1 l2 : list A) d :
  l2 <> [] -> last (l1 ++ l2) d = last l2 d.
Proof.
  intros Hne. induction l1 as [|x l1 IH]; [reflexivity|].
  cbn [app]. destruct (l1 ++ l2) as [|y l] eqn:E.
  - destruct l1; [cbn in E; contradiction | discriminate E].
  - change (last (x :: y :: l) d) with (last (y :: l) d). exact IH.
Qed.

Lemma chronological_bounds first rest r :
  chronological (first :: rest) -> In r (first :: rest) ->
  date_le (date first) (date r) /\
  date_le (date r) (date (last (first :: rest) first)).
Proof.
  intros S. apply Sorted_StronglySorted in S.
  2:{ intros a b c. apply date_le_trans. }
  revert first S r. induction rest as [|x rest IH]; intros first S r Hr.
  - destruct Hr as [<- | []]. split; apply date_le_refl.
  - apply StronglySorted_inv in S. destruct S as [S Hall].
    rewrite Forall_forall in Hall.
    change (last (first :: x :: rest) first) with (last (x :: rest) first).
    rewrite (last_any_default rest x first x).
    destruct Hr as [<- | Hr].
    + split; [apply date_le_refl|]. apply Hall. apply last_in.
    + destruct (IH x S r Hr) as [A B]. split; [|exact B].
      apply Hall. exact Hr.
Qed.

(** With every user spanning the same dates in order, the first reading
    of all carries the earliest date and the last the latest. *)
Lemma same_span_range data d0 d1 first rest :
  same_span data d0 d1 ->
  flat_map sensor_data data = first :: rest ->
  date first = d0 /\ date (last (first :: rest) first) = d1 /\
  earliest_date (first :: rest) d0 /\ latest_date (first :: rest) d1.
Proof.
  intros Hs E.
  assert (Hall : forall r, In r (first :: rest) -> date_le d0 (date r) /\ date_le (date r) d1).
  { intros r Hr. rewrite <- E in Hr. apply in_flat_map in Hr.
    destruct Hr as (user & Hu & Hr).
    destruct (Hs user Hu) as [Empty | (C & f & t & Eu & <- & <-)].
    - rewrite Empty in Hr. destruct Hr.
    - rewrite Eu in Hr, C. apply chronological_bounds; assumption. }
  assert (Hfirst : date first = d0).
  { revert E. clear Hall. induction data as [|user us IH]; [discriminate|].
    cbn [flat_map]. destruct (Hs user (or_introl eq_refl)) as [Empty | (_ & f & t & Eu & Ef & _)].
    - rewrite Empty. cbn [app]. apply IH. intros u Hu. apply Hs. right. exact Hu.
    - rewrite Eu. cbn [app]. intros [= <- _]. exact Ef. }
  assert (Hlast : date (last (first :: rest) first) = d1).
  { rewrite <- E. clear Hall Hfirst.
    assert (G : forall d, flat_map sensor_data data <> [] ->
                date (last (flat_map sensor_data data) d) = d1).
    { clear E. induction data as [|user us IH]; intros d Hne; [contradiction|].
      cbn [flat_map] in *.
      assert (Hs' : same_span us d0 d1) by (intros u Hu; apply Hs; right; exact Hu).
      destruct (flat_map sensor_data us) as [|x xs] eqn:Eus.
      - rewrite app_nil_r in *.
        destruct (Hs user (or_introl eq_refl)) as [Empty | (_ & f & t & Eu & _ & El)];
          [congruence|].
        rewrite Eu. rewrite (last_any_default t f d f). exact El.
      - rewrite last_append by discriminate. apply (IH Hs'). discriminate. }
    rewrite (G first); [reflexivity | rewrite E; discriminate]. }
  split; [exact Hfirst|]. split; [exact Hlast|]. split; split.
  - left. exact Hfirst.
  - intros r Hr. apply Hall. exact Hr.
  - rewrite <- Hlast. apply in_map. apply last_in.
  - intros r Hr. apply Hall. exact Hr.
Qed.

End DateRangeFacts.

Section DateRangeClaim.

Import StatisticsDialog StatisticsFacts DateRangeFacts.

(** Two readings stored latest first. *)
Definition unordered_data : list User :=
  [mk_User "Ada" "Byron" 36 "Female" "ada" "12 Mill Lane" "ada@example.org"
     [mk_SensorRecord "2015-01-02" "00:00:00" 80 60 75 55;
      mk_SensorRecord "2015-01-01" "00:00:00" 81 61 76 56]].

(** C8, as stated, fails: for the two readings above the report gives
    the range "2015-01-02 to 2015-01-01", the dates of the first and of
    the last reading in the order stored, while the earliest date among
    the readings is 2015-01-01, before the date reported as the start. *)
Lemma C8_range_is_first_to_last :
  (exists body,
     generate_statistics unordered_data =
     Ok (body ++ [Text ("Date Range: 2015-01-02 to 2015-01-01" ++ nl)%string])) /\
  In "2015-01-01"%string (map date (flat_map sensor_data unordered_data)) /\
  String.ltb "2015-01-01" "2015-01-02" = true.
Proof.
  split; [|split].
  - eexists. rewrite (generate_statistics_some unordered_data _ _ eq_refl). reflexivity.
  - right. left. reflexivity.
  - reflexivity.
Qed.

(** C8, amended.  For a dataset with at least one reading the report
    ends with the date range line, and the range it gives runs from the
    date of the first reading to the date of the last reading, in the
    order of the users and of their readings.  When every user with
    readings has them in the order of their dates, from the same first
    date to the same last date, as a run of the generator leaves them,
    this is the range from the earliest to the latest date. *)
Theorem C8_date_range (data : list User) first rest :
  flat_map sensor_data data = first :: rest ->
  exists report,
    generate_statistics data = Ok report /\
    reports_range report (date first) (date (last (first :: rest) first)) /\
    forall d0 d1, same_span data d0 d1 ->
      reports_range report d0 d1 /\
      earliest_date (first :: rest) d0 /\ latest_date (first :: rest) d1.
Proof.
  intros E. eexists. split; [apply (generate_statistics_some data first rest E)|].
  assert (R : reports_range
                ((title ++ flat_map (column_section (first :: rest)) columns
                  ++ totals data (first :: rest))
                 ++ [range_line (date first) (date (last (first :: rest) first))])
                (date first) (date (last (first :: rest) first))).
  { eexists. reflexivity. }
  split; [exact R|].
  intros d0 d1 Hs.
  destruct (same_span_range data d0 d1 first rest Hs E) as (<- & <- & He & Hl).
  split; [exact R|]. split; assumption.
Qed.

(** Two users filled one after the other by the generator, five readings
    each from the default start date. *)
Definition generated_pair : list User :=
  match IoTDataGenerator.generate_sensor_data_for_user "2015-01-01" 5 sample_world with
  | Ok (readings1, w1) =>
      match IoTDataGenerator.generate_sensor_data_for_user "2015-01-01" 5 w1 with
      | Ok (readings2, _) =>
          [mk_User "Ada" "Byron" 36 "Female" "ada" "12 Mill Lane" "ada@example.org" readings1;
           mk_User "Alan" "Ring" 41 "Male" "alan" "3 Park Road" "alan@example.org" readings2]
      | Raise _ => []
      end
  | Raise _ => []
  end.

Lemma generated_pair_same_span : same_span generated_pair "2015-01-01" "2015-01-02".
Proof.
  intros user Hu. right.
  assert (Hd : forall a b : string, String.leb a b = true -> date_le a b) by (intros; assumption).
  vm_compute in Hu. destruct Hu as [<- | [<- | []]].
  - split.
    + unfold chronological. cbn [sensor_data]. repeat constructor.
    + eexists. eexists. cbn [sensor_data]. split; [reflexivity|]. split; reflexivity.
  - split.
    + unfold chronological. cbn [sensor_data]. repeat constructor.
    + eexists. eexists. cbn [sensor_data]. split; [reflexivity|]. split; reflexivity.
Qed.

Lemma C8_witness :
  exists report,
    generate_statistics generated_pair = Ok report /\
    reports_range report "2015-01-01" "2015-01-02" /\
    earliest_date (flat_map sensor_data generated_pair) "2015-01-01" /\
    latest_date (flat_map sensor_data generated_pair) "2015-01-02".
Proof.
  destruct (flat_map sensor_data generated_pair) as [|first rest] eqn:E.
  - vm_compute in E. discriminate E.
  - destruct (C8_date_range generated_pair first rest E) as (report & Eg & _ & H).
    exists report. split; [exact Eg|].
    apply (H "2015-01-01"%string "2015-01-02"%string generated_pair_same_span).
Defined.

End DateRangeClaim.

(** ** One generation run at a time *)

Module GenerationFacts.

Import MainWindow.

(** The calls that end a run. *)
Definition ends_run (c : callback) : bool := negb (is_progress c).

(** Runs in progress: threads that have not returned, and threads that
    have returned and whose last call the main loop has not run yet. *)
Definition runs_in_progress (a : App) : nat :=
  workers a + List.length (filter ends_run (pending a)).

(** The guard counts the runs in progress. *)
Definition guard_counts_runs (a : App) : Prop :=
  runs_in_progress a = if generation_in_progress (window a) then 1%nat else 0%nat.

Lemma filter_snoc {A : Type} (f : A -> bool) l x :
  filter f (l ++ [x]) = filter f l ++ (if f x then [x] else []).
Proof. rewrite filter_app. reflexivity. Qed.

(** What [data_generation_complete] leaves in the fields of the session. *)
Lemma complete_fields w :
  generation_in_progress (data_generation_complete w) = false /\
  statistics_menu_enabled (data_generation_complete w) = true /\
  current_plot_frame (data_generation_complete w) = current_plot_frame w /\
  data (data_generation_complete w) = data w.
Proof. unfold data_generation_complete. destruct (data w); repeat split. Qed.

Lemma step_keeps_guard a e a' :
  guard_counts_runs a -> step a e = Some a' -> guard_counts_runs a'.
Proof.
  unfold guard_counts_runs, runs_in_progress. intros G H.
  destruct e as [answer | | users | c | error]; cbn [step] in H.
  - injection H as <-. unfold on_generate.
    destruct (generation_in_progress (window a)) eqn:F.
    + cbn [window workers pending show_box generation_in_progress]. rewrite F. exact G.
    + destruct answer; cbn [window workers pending generation_in_progress]; lia.
  - destruct (pending a) as [|c rest] eqn:P; [discriminate|]. injection H as <-.
    cbn [window workers pending]. cbn [filter] in G.
    destruct c; cbn [run_callback ends_run is_progress negb] in *;
      try rewrite (proj1 (complete_fields (window a)));
      cbn [set_progress data_generation_error generation_in_progress List.length] in *;
      try exact G;
      destruct (generation_in_progress (window a)); lia.
  - destruct (workers a) eqn:W; [discriminate|]. injection H as <-.
    cbn [window workers pending set_data generation_in_progress]. exact G.
  - destruct (workers a) eqn:W; [discriminate|].
    destruct (is_progress c) eqn:Pc; [|discriminate]. injection H as <-.
    cbn [window workers pending]. rewrite filter_snoc. unfold ends_run at 2. rewrite Pc.
    cbn [negb]. rewrite app_nil_r. exact G.
  - destruct (workers a) eqn:W; [discriminate|]. injection H as <-.
    cbn [window workers pending]. rewrite filter_snoc.
    destruct error; cbn [ends_run is_progress negb]; rewrite length_app; cbn [List.length]; lia.
Qed.

Lemma reachable_guard a : reachable a -> guard_counts_runs a.
Proof.
  induction 1 as [|a e a' _ IH H].
  - reflexivity.
  - exact (step_keeps_guard a e a' IH H).
Qed.

Lemma run_reachable events : forall a a',
  reachable a -> run a events = Some a' -> reachable a'.
Proof.
  induction events as [|e rest IH]; intros a a' R H; cbn [run] in H.
  - injection H as <-. exact R.
  - destruct (step a e) as [a1|] eqn:S; [|discriminate].
    apply (IH a1 a'); [|exact H]. exact (reachable_step a e a1 R S).
Qed.

(** Which steps clear the guard. *)
Lemma step_clears_guard a e a' :
  step a e = Some a' ->
  generation_in_progress (window a) = true ->
  (generation_in_progress (window a') = false <->
   e = Dispatch /\ exists c rest, pending a = c :: rest /\ ends_run c = true).
Proof.
  intros H F. destruct e as [answer | | users | c | error]; cbn [step] in H.
  - injection H as <-. unfold on_generate. rewrite F.
    cbn [window show_box generation_in_progress]. rewrite F.
    split; [discriminate | intros [E _]; discriminate E].
  - destruct (pending a) as [|c rest] eqn:P; [discriminate|]. injection H as <-.
    cbn [window]. split.
    + intros F'. split; [reflexivity|]. exists c, rest. split; [reflexivity|].
      destruct c; cbn [run_callback set_progress generation_in_progress] in F';
        try reflexivity; congruence.
    + intros (_ & c' & rest' & [= <- <-] & Ec).
      destruct c; cbn in Ec; try discriminate Ec;
        [apply (complete_fields (window a)) | reflexivity].
  - destruct (workers a); [discriminate|]. injection H as <-.
    cbn [window set_data generation_in_progress]. rewrite F.
    split; [discriminate | intros [E _]; discriminate E].
  - destruct (workers a); [discriminate|]. destruct (is_progress c); [|discriminate].
    injection H as <-. cbn [window]. rewrite F.
    split; [discriminate | intros [E _]; discriminate E].
  - destruct (workers a); [discriminate|]. injection H as <-. cbn [window]. rewrite F.
    split; [discriminate | intros [E _]; discriminate E].
Qed.

End GenerationFacts.

Section GenerationClaim.

Import MainWindow GenerationFacts.

(** C9: in every state the application can reach, at most one generation
    run is in progress, and the guard [generation_in_progress] is set
    exactly when one is.  A request that arrives while the guard is set
    only shows the warning: no thread is started and nothing else
    changes.  A request that arrives while it is clear and is confirmed
    sets the guard and starts the one thread; declined, it starts none.
    While the guard is set, the only steps that clear it are the main
    loop running [data_generation_complete] or [data_generation_error]. *)
Theorem C9_single_generation_run (a : App) :
  reachable a ->
  (runs_in_progress a <= 1)%nat /\
  (generation_in_progress (window a) = true <-> runs_in_progress a = 1%nat) /\
  (generation_in_progress (window a) = true ->
     forall answer,
       on_generate answer a =
       mk_App (show_box (window a) "Data generation is already in progress!" "Warning")
              (workers a) (pending a)) /\
  (generation_in_progress (window a) = false ->
     generation_in_progress (window (on_generate true a)) = true /\
     workers (on_generate true a) = 1%nat /\
     runs_in_progress (on_generate true a) = 1%nat /\
     generation_in_progress (window (on_generate false a)) = false /\
     workers (on_generate false a) = 0%nat) /\
  (forall e a',
     step a e = Some a' ->
     generation_in_progress (window a) = true ->
     (generation_in_progress (window a') = false <->
      e = Dispatch /\
      exists c rest, pending a = c :: rest /\
        (c = DataGenerationComplete \/ exists error_msg, c = DataGenerationError error_msg))).
Proof.
  intros R. pose proof (reachable_guard a R) as G. unfold guard_counts_runs in G.
  split; [|split; [|split; [|split]]].
  - destruct (generation_in_progress (window a)); lia.
  - destruct (generation_in_progress (window a)); split; try lia; try discriminate; auto.
  - intros F answer. unfold on_generate. rewrite F. reflexivity.
  - intros F. rewrite F in G. unfold runs_in_progress in *.
    unfold on_generate. rewrite F.
    cbn [window workers pending generation_in_progress]. repeat split; lia.
  - intros e a' S F. rewrite (step_clears_guard a e a' S F).
    split; intros (E & c & rest & P & Hc); (split; [exact E|]); exists c, rest;
      (split; [exact P|]).
    + destruct c; cbn in Hc; try discriminate Hc; [left; reflexivity | right; eexists; reflexivity].
    + destruct Hc as [-> | [msg ->]]; reflexivity.
Qed.

(** The state after a first confirmed request. *)
Lemma C9_witness :
  (runs_in_progress (on_generate true init) <= 1)%nat /\
  (generation_in_progress (window (on_generate true init)) = true <->
   runs_in_progress (on_generate true init) = 1%nat) /\
  (generation_in_progress (window (on_generate true init)) = true ->
     forall answer,
       on_generate answer (on_generate true init) =
       mk_App (show_box (window (on_generate true init))
                 "Data generation is already in progress!" "Warning")
              (workers (on_generate true init)) (pending (on_generate true init))).
Proof.
  assert (R : reachable (on_generate true init)).
  { apply (reachable_step init (MenuGenerate true)); [apply reachable_init | reflexivity]. }
  destruct (C9_single_generation_run (on_generate true init) R) as (A & B & C & _).
  split; [exact A|]. split; [exact B | exact C].
Defined.

End GenerationClaim.

(** ** A whole generation run *)

Module RunFacts.

Import Datetime TimestampFacts IoTDataGenerator GeneratorFacts MainWindow.
Import StatisticsDialog StatisticsFacts DateRangeFacts.
Local Open Scope Z_scope.

(** The start of the default run. *)
Definition default_start : datetime := mk_datetime 2015 1 1 0 0 0.

Lemma default_start_parsed : strptime default_start_date = Ok default_start.
Proof. reflexivity. Qed.

(** The dates of the readings of a default call, whatever the draws. *)
Definition default_dates : list string :=
  map (fun i =>
         match of_timestamp (timestamp default_start + 21600 * Z.of_nat i) with
         | Ok dt => strftime_date dt
         | Raise _ => EmptyString
         end)
      (seq 0 (Z.to_nat default_num_records)).

Lemma map_by_position {A B : Type} (f : A -> B) (g : nat -> B) (l : list A) : forall s,
  (forall i a, nth_error l i = Some a -> f a = g (s + i)%nat) ->
  map f l = map g (seq s (List.length l)).
Proof.
  induction l as [|a l IH]; intros s H; [reflexivity|].
  cbn [map List.length seq]. f_equal.
  - rewrite (H 0%nat a eq_refl). f_equal. lia.
  - apply IH. intros i b Hi. rewrite (H (S i) b Hi). f_equal. lia.
Qed.

(** A default call always returns: 1000 readings, well-formed, dated by
    [default_dates]. *)
Lemma default_call w :
  exists readings w',
    generate_sensor_data_for_user default_start_date default_num_records w
      = Ok (readings, w') /\
    Z.of_nat (List.length readings) = default_num_records /\
    Forall reading_built readings /\
    map date readings = default_dates.
Proof.
  unfold generate_sensor_data_for_user, bind. rewrite default_start_parsed. cbn [lift].
  assert (V : valid default_start).
  { unfold valid. cbn. repeat split; try reflexivity; lia. }
  destruct (sensor_loop_returns (Z.to_nat default_num_records) default_start [] w V)
    as (l & w' & E).
  { vm_compute. reflexivity. }
  exists l, w'. split; [exact E|].
  destruct (sensor_loop_spec _ _ _ _ _ _ V E) as (l' & -> & Len & Fa & Nth).
  cbn [app]. split; [unfold default_num_records in *; lia|]. split; [exact Fa|].
  unfold default_dates. rewrite <- Len.
  apply map_by_position. intros i r Hi. cbn [Nat.add].
  destruct (Nth i r Hi) as (dt & Et & Ed & _). rewrite Et. exact Ed.
Qed.

(** The dates are in order, from 2015-01-01 to 2015-09-07. *)
Fixpoint in_order (dates : list string) : bool :=
  match dates with
  | [] => true
  | a :: rest =>
      match rest with
      | [] => true
      | b :: _ => String.leb a b && in_order rest
      end
  end.

Lemma in_order_chronological readings :
  in_order (map date readings) = true -> chronological readings.
Proof.
  unfold chronological.
  induction readings as [|a rest IH]; intros H; [constructor|].
  destruct rest as [|b rest'].
  - constructor; constructor.
  - cbn [map in_order] in H. apply andb_true_iff in H. destruct H as [Hab Hr].
    constructor; [apply IH; exact Hr | constructor; exact Hab].
Qed.

Lemma default_dates_in_order : in_order default_dates = true.
Proof. vm_compute. reflexivity. Qed.

Lemma default_dates_ends :
  hd EmptyString default_dates = "2015-01-01"%string /\
  last default_dates EmptyString = "2015-09-07"%string.
Proof. split; vm_compute; reflexivity. Qed.

Lemma last_map {A B : Type} (f : A -> B) (l : list A) : forall a,
  last (map f (a :: l)) (f a) = f (last (a :: l) a).
Proof.
  induction l as [|b l IH]; intros a; [reflexivity|].
  change (last (map f (a :: b :: l)) (f a)) with (last (map f (b :: l)) (f a)).
  change (last (a :: b :: l) a) with (last (b :: l) a).
  rewrite (last_any_default l b a b).
  rewrite <- IH. cbn [map]. apply last_any_default.
Qed.

Lemma default_call_span readings :
  map date readings = default_dates ->
  chronological readings /\
  exists first rest,
    readings = first :: rest /\
    date first = "2015-01-01"%string /\
    date (last (first :: rest) first) = "2015-09-07"%string.
Proof.
  intros E. split.
  - apply in_order_chronological. rewrite E. exact default_dates_in_order.
  - destruct default_dates_ends as [H0 H1].
    destruct readings as [|first rest].
    + exfalso. rewrite <- E in H0. discriminate H0.
    + exists first, rest. split; [reflexivity|]. rewrite <- E in H0, H1. split.
      * exact H0.
      * rewrite <- (last_map date rest first). cbn [map] in *.
        rewrite (last_any_default (map date rest) (date first) (date first) EmptyString).
        exact H1.
Qed.

(** Filling the users never raises. *)
Lemma fill_users_spec users : forall w,
  exists data w',
    fill_users users w = Ok (data, w') /\
    List.length data = List.length users /\
    Forall (fun user =>
              Z.of_nat (List.length (sensor_data user)) = default_num_records /\
              Forall reading_built (sensor_data user) /\
              map date (sensor_data user) = default_dates) data.
Proof.
  induction users as [|user rest IH]; intros w.
  - exists [], w. repeat split. constructor.
  - cbn [fill_users]. unfold bind at 1.
    destruct (default_call w) as (readings & w1 & E & Len & Fa & Dates). rewrite E.
    unfold bind at 1. destruct (IH w1) as (data & w' & E' & Len' & Fa'). rewrite E'.
    unfold ret. eexists. eexists. split; [reflexivity|].
    cbn [List.length]. split; [congruence|].
    constructor; [|exact Fa']. destruct user. cbn [set_sensor_data sensor_data].
    repeat split; assumption.
Qed.

(** The thread's work always succeeds: 1000 users with 1000 readings each,
    all users spanning 2015-01-01 to 2015-09-07 in order. *)
Theorem generate_data_spec w :
  exists data w',
    generate_data w = Ok (data, w') /\
    List.length data = 1000%nat /\
    Forall (fun user =>
              Z.of_nat (List.length (sensor_data user)) = 1000 /\
              Forall reading_built (sensor_data user)) data /\
    same_span data "2015-01-01" "2015-09-07".
Proof.
  unfold generate_data, bind, generate_user_data.
  destruct (users_loop_spec (Z.to_nat 1000) [] w) as (users & w1 & E & Len & _).
  rewrite E. cbn [app].
  destruct (fill_users_spec users w1) as (data & w' & E' & Len' & Fa).
  rewrite E'. exists data, w'. split; [reflexivity|].
  split; [rewrite Len', Len; reflexivity|]. split.
  - eapply Forall_impl; [|exact Fa]. intros user (A & B & _). split; assumption.
  - intros user Hu. right. rewrite Forall_forall in Fa.
    destruct (Fa user Hu) as (_ & _ & Dates).
    apply default_call_span. exact Dates.
Qed.

(** After a run, the report gives the range from the earliest to the
    latest date of the dataset. *)
Theorem generation_run_date_range w data w' :
  generate_data w = Ok (data, w') ->
  exists report,
    generate_statistics data = Ok report /\
    reports_range report "2015-01-01" "2015-09-07" /\
    earliest_date (flat_map sensor_data data) "2015-01-01" /\
    latest_date (flat_map sensor_data data) "2015-09-07".
Proof.
  intros H. destruct (generate_data_spec w) as (data0 & w0 & E & Len & Fa & Span).
  rewrite E in H. injection H as <- <-.
  destruct (flat_map sensor_data data0) as [|first rest] eqn:Ef.
  - exfalso. destruct data0 as [|user us]; [discriminate Len|].
    inversion Fa as [|? ? [Hl _] _]; subst.
    cbn [flat_map] in Ef. apply app_eq_nil in Ef. destruct Ef as [Ef _].
    rewrite Ef in Hl. discriminate Hl.
  - destruct (same_span_range data0 _ _ first rest Span Ef) as (Hf & Hl & He & Hla).
    eexists. split; [apply (generate_statistics_some data0 first rest Ef)|].
    split; [|split; assumption].
    rewrite Hf, Hl. eexists. reflexivity.
Qed.

(** The export handlers after a run: the JSON document holds the million
    readings, the CSV file the header and the first 10000 rows. *)
Theorem export_after_run (float_str : Q -> string) w data w' pathname :
  generate_data w = Ok (data, w') ->
  on_save_json (Some data) (Some pathname) None = Saved pathname (json_document data) /\
  Z.of_nat (json_reading_count (json_document data)) = 1000 * 1000 /\
  on_save_csv float_str (Some data) (Some pathname) None
    = Saved pathname (csv_data float_str data) /\
  Z.of_nat (List.length (csv_data float_str data)) = 1 + 10000.
Proof.
  intros H. destruct (generate_data_spec w) as (data0 & w0 & E & Len & Fa & _).
  rewrite E in H. injection H as <- <-.
  assert (Total : Z.of_nat (List.length (flat_map sensor_data data0)) = 1000 * 1000).
  { assert (G : Z.of_nat (List.length (flat_map sensor_data data0))
                = 1000 * Z.of_nat (List.length data0)).
    { clear Len E. induction Fa as [|user us [Hl _] _ IH]; [reflexivity|].
      cbn [flat_map List.length]. rewrite length_app. lia. }
    rewrite G, Len. reflexivity. }
  destruct data0 as [|user us]; [discriminate Len|].
  split; [reflexivity|]. split.
  - unfold json_document. rewrite ExportFacts.json_data_same.
    rewrite ExportFacts.json_reading_count_spec. exact Total.
  - split; [reflexivity|].
    unfold csv_data, csv_export. cbv zeta. cbn [app].
    rewrite (ExportFacts.user_rows_spec float_str 10000 (user :: us) [headers] 0 eq_refl).
    cbv zeta. cbn [fst]. rewrite length_app, length_firstn, ExportFacts.all_rows_length.
    cbn [List.length]. lia.
Qed.

End RunFacts.

(* ================================================================== *)
(** * Further properties of the generator *)
(* ================================================================== *)

Module UserFacts.

Import Random IoTDataGenerator.
Local Open Scope Z_scope.

(** The text has no line break. *)
Definition one_line (s : string) : Prop :=
  ~ In "010"%char (list_ascii_of_string s).

(** What every user built by [new_user] satisfies. *)
Definition user_ok (u : User) : Prop :=
  18 <= age u <= 80 /\
  (gender u = "Male"%string \/ gender u = "Female"%string) /\
  one_line (address u) /\
  sensor_data u = [].

Lemma replace_newline_one_line s : one_line (replace_newline s).
Proof.
  unfold one_line. induction s as [|c s IH]; cbn [replace_newline]; [intros []|].
  destruct (Ascii.eqb c "010") eqn:E; cbn [list_ascii_of_string In].
  - intros [H | [H | H]]; [discriminate H | discriminate H | exact (IH H)].
  - intros [H | H]; [|exact (IH H)].
    subst c. discriminate E.
Qed.

(** A text without a line break is left as it is. *)
Lemma replace_newline_id s : one_line s -> replace_newline s = s.
Proof.
  unfold one_line. induction s as [|c s IH]; cbn [replace_newline]; [reflexivity|].
  cbn [list_ascii_of_string In]. intros H.
  destruct (Ascii.eqb c "010") eqn:E.
  - apply Ascii.eqb_eq in E. exfalso. apply H. left. exact E.
  - rewrite IH; [reflexivity|]. intros H'. apply H. right. exact H'.
Qed.

(** One pass of the loop: two draws and five texts are consumed. *)
Definition built_user (w : World) : User :=
  mk_User (fake_text w (fake_cursor w))
          (fake_text w (1 + fake_cursor w))
          (18 + entropy w (cursor w) mod 63)
          (nth (Z.to_nat (entropy w (1 + cursor w) mod 2)) ["Male"; "Female"] "Male")%string
          (fake_text w (2 + fake_cursor w))
          (replace_newline (fake_text w (3 + fake_cursor w)))
          (fake_text w (4 + fake_cursor w))
          [].

Lemma new_user_built w :
  new_user w = Ok (built_user w, mk_World (entropy w) (2 + cursor w) (fake_text w)
                                          (5 + fake_cursor w)).
Proof. reflexivity. Qed.

Lemma built_user_ok w : user_ok (built_user w).
Proof.
  unfold user_ok, built_user. cbn [age gender address sensor_data].
  split; [|split; [|split; [apply replace_newline_one_line | reflexivity]]].
  - pose proof (Z.mod_pos_bound (entropy w (cursor w)) 63 eq_refl). lia.
  - pose proof (Z.mod_pos_bound (entropy w (1 + cursor w)) 2 eq_refl) as B.
    assert (C : entropy w (1 + cursor w) mod 2 = 0 \/ entropy w (1 + cursor w) mod 2 = 1)
      by lia.
    destruct C as [-> | ->]; [left | right]; reflexivity.
Qed.

Lemma users_loop_ok n : forall users w,
  exists l w',
    users_loop n users w = Ok (users ++ l, w') /\
    List.length l = n /\ Forall user_ok l /\
    cursor w' = (2 * n + cursor w)%nat /\
    fake_cursor w' = (5 * n + fake_cursor w)%nat.
Proof.
  induction n as [|n IH]; intros users w.
  - exists [], w. rewrite app_nil_r. repeat split. constructor.
  - cbn [users_loop]. unfold bind at 1.
    rewrite new_user_built. pose proof (built_user_ok w) as Hu.
    set (u := built_user w) in *.
    destruct (IH (users ++ [u]) (mk_World (entropy w) (2 + cursor w) (fake_text w)
                                          (5 + fake_cursor w)))
      as (l & w' & El & Len & Fa & C1 & C2).
    exists (u :: l), w'. rewrite El, <- app_assoc. cbn [app List.length].
    cbn [cursor fake_cursor] in C1, C2.
    repeat split; [congruence | constructor; assumption | lia | lia].
Qed.

(** [generate_user_data] always returns, with as many users as asked for
    (none for a negative count): every age is between 18 and 80, every
    gender is Male or Female, no address has a line break, and no user
    has a reading yet. *)
Theorem generated_users_well_formed num_users w :
  exists users w',
    generate_user_data num_users w = Ok (users, w') /\
    Z.of_nat (List.length users) = Z.max 0 num_users /\
    Forall (fun u =>
              18 <= age u <= 80 /\
              (gender u = "Male"%string \/ gender u = "Female"%string) /\
              one_line (address u) /\
              sensor_data u = []) users.
Proof.
  unfold generate_user_data.
  destruct (users_loop_ok (Z.to_nat num_users) [] w) as (l & w' & E & Len & Fa & _).
  exists l, w'. split; [exact E|]. split; [lia | exact Fa].
Qed.

End UserFacts.

Module ScheduleFacts.

Import Datetime DatetimeFacts TimestampFacts IoTDataGenerator GeneratorFacts.
Local Open Scope Z_scope.

(** The date and the time of the reading at position [i] from [start]. *)
Definition stamp (start : datetime) (i : nat) : string * string :=
  match of_timestamp (timestamp start + 21600 * Z.of_nat i) with
  | Ok dt => (strftime_date dt, strftime_time dt)
  | Raise _ => (EmptyString, EmptyString)
  end.

Lemma map_stamps {A B : Type} (f : A -> B) (g : nat -> B) (l : list A) : forall s,
  (forall i a, nth_error l i = Some a -> f a = g (s + i)%nat) ->
  map f l = map g (seq s (List.length l)).
Proof.
  induction l as [|a l IH]; intros s H; [reflexivity|].
  cbn [map List.length seq]. f_equal.
  - rewrite (H 0%nat a eq_refl). f_equal. lia.
  - apply IH. intros i b Hi. rewrite (H (S i) b Hi). f_equal. lia.
Qed.

(** The dates and times of a returned list are those of the positions. *)
Lemma sensor_loop_stamps n start w l w' :
  valid start ->
  sensor_loop n start [] w = Ok (l, w') ->
  map (fun r => (date r, time r)) l = map (stamp start) (seq 0 n).
Proof.
  intros V E.
  destruct (sensor_loop_spec _ _ _ _ _ _ V E) as (l' & -> & Len & _ & Nth).
  cbn [app]. rewrite <- Len. apply map_stamps. intros i r Hi. cbn [Nat.add].
  destruct (Nth i r Hi) as (dt & Et & Ed & Etm).
  unfold stamp. rewrite Et, Ed, Etm. reflexivity.
Qed.

(** The draws decide neither whether a call returns nor the dates and
    times of its readings: two calls with the same arguments, from any
    two states of the generators, both return lists with the same dates
    and times at the same positions, or both raise the same exception. *)
Theorem schedule_independent_of_draws start_date num_records w1 w2 :
  match generate_sensor_data_for_user start_date num_records w1,
        generate_sensor_data_for_user start_date num_records w2 with
  | Ok (readings1, _), Ok (readings2, _) =>
      map (fun r => (date r, time r)) readings1 =
      map (fun r => (date r, time r)) readings2
  | Raise e1, Raise e2 => e1 = e2
  | _, _ => False
  end.
Proof.
  unfold generate_sensor_data_for_user, bind.
  destruct (strptime start_date) as [start|e] eqn:Es; cbn [lift]; [|reflexivity].
  destruct (strptime_valid _ _ Es) as [V _].
  set (n := Z.to_nat num_records).
  destruct (Z_lt_le_dec (timestamp start + 21600 * Z.of_nat n) end_of_time) as [In | Out].
  - destruct (sensor_loop_returns n start [] w1 V In) as (l1 & w1' & E1).
    destruct (sensor_loop_returns n start [] w2 V In) as (l2 & w2' & E2).
    rewrite E1, E2.
    rewrite (sensor_loop_stamps _ _ _ _ _ V E1), (sensor_loop_stamps _ _ _ _ _ V E2).
    reflexivity.
  - destruct n as [|n'] eqn:En.
    + reflexivity.
    + rewrite (sensor_loop_overflows (S n') start [] w1 V) by lia.
      rewrite (sensor_loop_overflows (S n') start [] w2 V) by lia.
      reflexivity.
Qed.

(** [date.fromordinal(n).strftime('%Y-%m-%d')] *)
Definition day_text (n : Z) : string :=
  let '(y, m, d) := _ord2ymd n in
  strftime_date (mk_datetime y m d 0 0 0).

(** The four times of day of the readings. *)
Definition times_of_day : list string :=
  ["00:00:00"; "06:00:00"; "12:00:00"; "18:00:00"]%string.

Lemma midnight_timestamp start :
  hour start = 0 -> minute start = 0 -> second start = 0 ->
  timestamp start = toordinal start * 86400.
Proof. intros Hh Hm Hs. unfold timestamp. rewrite Hh, Hm, Hs. lia. Qed.

(** Four readings a day: the reading at position [i] is stamped with the
    time of day number [i mod 4] (midnight, 6, 12 or 18 o'clock) and with
    the date of the day [i / 4] days after the start date. *)
Theorem four_readings_a_day start_date num_records w readings w' i r :
  generate_sensor_data_for_user start_date num_records w = Ok (readings, w') ->
  nth_error readings i = Some r ->
  exists start,
    strptime start_date = Ok start /\
    time r = nth (i mod 4) times_of_day EmptyString /\
    date r = day_text (toordinal start + Z.of_nat (i / 4)).
Proof.
  intros H Hi. unfold generate_sensor_data_for_user in H. inv_bind H.
  apply lift_ok in Hrun. destruct Hrun as [Es ->].
  destruct (strptime_valid _ _ Es) as (V & Hh & Hm & Hs).
  destruct (sensor_loop_spec _ _ _ _ _ _ V H) as (l' & -> & _ & _ & Nth).
  cbn [app] in Hi. destruct (Nth i r Hi) as (dt & Et & Ed & Etm).
  exists a. split; [exact Es|].
  rewrite (midnight_timestamp a Hh Hm Hs) in Et.
  pose proof (Nat.div_mod_eq i 4) as Di.
  pose proof (Nat.mod_upper_bound i 4 ltac:(discriminate)) as Bi.
  set (q := (i / 4)%nat) in *. set (k := (i mod 4)%nat) in *.
  assert (Eq : (toordinal a * 86400 + 21600 * Z.of_nat i) / 86400
               = toordinal a + Z.of_nat q).
  { symmetry. apply (Z.div_unique _ _ _ (21600 * Z.of_nat k)); lia. }
  assert (Er : (toordinal a * 86400 + 21600 * Z.of_nat i) mod 86400
               = 21600 * Z.of_nat k).
  { symmetry. apply (Z.mod_unique _ _ (toordinal a + Z.of_nat q)); lia. }
  unfold of_timestamp in Et. cbv zeta in Et. rewrite Eq, Er in Et.
  destruct ((0 <? toordinal a + Z.of_nat q) && (toordinal a + Z.of_nat q <=? _MAXORDINAL));
    [|discriminate Et].
  unfold day_text.
  destruct (_ord2ymd (toordinal a + Z.of_nat q)) as [[y m] d].
  injection Et as <-. rewrite Ed, Etm. split; [|reflexivity].
  destruct k as [|[|[|[|k]]]]; [reflexivity | reflexivity | reflexivity | reflexivity | lia].
Qed.

Lemma four_readings_a_day_witness :
  (exists start,
     strptime "0999-12-31" = Ok start /\
     time (nth 5 old_readings (mk_SensorRecord "" "" 0 0 0 0))
       = nth (5 mod 4) times_of_day EmptyString /\
     date (nth 5 old_readings (mk_SensorRecord "" "" 0 0 0 0))
       = day_text (toordinal start + Z.of_nat (5 / 4))) /\
  map (fun r => (date r, time r)) old_readings
  = [("999-12-31", "00:00:00"); ("999-12-31", "06:00:00"); ("999-12-31", "12:00:00");
     ("999-12-31", "18:00:00"); ("1000-01-01", "00:00:00");
     ("1000-01-01", "06:00:00")]%string.
Proof.
  split.
  - apply (four_readings_a_day "0999-12-31" 6 sample_world old_readings
             old_world_after 5).
    + vm_compute. reflexivity.
    + vm_compute. reflexivity.
  - vm_compute. reflexivity.
Defined.

End ScheduleFacts.

(* ================================================================== *)
(** * The generation thread and the main loop *)
(* ================================================================== *)

Module ThreadFacts.

Import IoTDataGenerator GeneratorFacts MainWindow RunFacts.

(** The calls an event of the thread posts, and the value it stores. *)
Definition posted (e : event) : list callback :=
  match e with
  | ThreadPost c => [c]
  | ThreadReturn None => [DataGenerationComplete]
  | ThreadReturn (Some msg) => [DataGenerationError msg]
  | _ => []
  end.

Definition posts (events : list event) : list callback := flat_map posted events.

Definition stored (e : event) : list (list User) :=
  match e with
  | ThreadStore users => [users]
  | _ => []
  end.

Definition stores (events : list event) : list (list User) := flat_map stored events.

(** An event of the thread before its last one. *)
Definition thread_step (e : event) : bool :=
  match e with
  | ThreadStore _ => true
  | ThreadPost c => is_progress c
  | _ => false
  end.

(** The positions at which the loop posts its progress. *)
Definition progress_positions (i n : nat) : list nat :=
  filter (fun j => (j mod 10 =? 0)%nat) (seq i n).

Lemma total_sensors_spec users :
  total_sensors users = Z.of_nat (List.length (flat_map sensor_data users)).
Proof.
  unfold total_sensors.
  assert (G : forall acc,
             fold_left (fun acc user => (acc + Z.of_nat (List.length (sensor_data user)))%Z)
                       users acc
             = (acc + Z.of_nat (List.length (flat_map sensor_data users)))%Z).
  { induction users as [|user rest IH]; intros acc; cbn [fold_left flat_map].
    - cbn. lia.
    - rewrite IH, length_app. lia. }
  rewrite G. lia.
Qed.

Lemma readings_total (n : Z) users :
  Forall (fun user => Z.of_nat (List.length (sensor_data user)) = n) users ->
  Z.of_nat (List.length (flat_map sensor_data users))
  = (n * Z.of_nat (List.length users))%Z.
Proof.
  induction 1 as [|user rest Hl _ IH]; [cbn; lia|].
  cbn [flat_map List.length]. rewrite length_app. lia.
Qed.

(** The events of a schedule that are not runs of a posted call. *)
Definition thread_part (events : list event) : list event :=
  filter (fun e => match e with Dispatch => false | _ => true end) events.

(** [self.data] after the events of a thread. *)
Definition last_stored (events : list event) (data : option (list User))
    : option (list User) :=
  fold_left (fun data e => match e with ThreadStore users => Some users | _ => data end)
            events data.

Lemma last_cons {A : Type} (x : A) l : forall d, last (x :: l) d = last l x.
Proof.
  revert x. induction l as [|y l IH]; intros x d; [reflexivity|].
  change (last (x :: y :: l) d) with (last (y :: l) d).
  rewrite (IH y d), (IH y x). reflexivity.
Qed.

Lemma last_stored_spec events : forall data,
  last_stored events data = last (map Some (stores events)) data.
Proof.
  unfold last_stored, stores.
  induction events as [|e events IH]; intros data; [reflexivity|].
  cbn [fold_left flat_map]. rewrite IH.
  destruct e; cbn [stored app map]; try reflexivity.
  rewrite last_cons. reflexivity.
Qed.

Lemma last_map_any {A B : Type} (f : A -> B) l : forall d,
  last (map f l) (f d) = f (last l d).
Proof.
  induction l as [|x l IH]; intros d; [reflexivity|].
  cbn [map]. rewrite !last_cons. apply IH.
Qed.

(** The last of the successive values of a list filled from the left. *)
Lemma last_filled (users data : list User) d :
  List.length data = List.length users ->
  last (users :: map (fun k => firstn k data ++ skipn k users)
                     (seq 1 (List.length users))) d = data.
Proof.
  intros Len. destruct (List.length users) as [|m] eqn:Lu.
  - destruct users; [|discriminate Lu]. destruct data; [reflexivity | discriminate Len].
  - rewrite seq_S, map_app. cbn [map]. rewrite app_comm_cons, last_last.
    rewrite firstn_all2 by lia. rewrite skipn_all2 by lia. apply app_nil_r.
Qed.

Section Steps.

Variable str_exn : exn -> string.

(** The loop over the users: the progress posted, the successive values of
    [self.data], and the end of the thread. *)
Lemma sensor_passes_spec total_users : forall users i filled w,
  exists data w',
    fill_users users w = Ok (data, w') /\
    List.length data = List.length users /\
    posts (sensor_passes str_exn total_users i filled users w)
    = map (fun j => UpdateProgress (progress j total_users))
          (progress_positions i (List.length users))
      ++ [DataGenerationComplete] /\
    stores (sensor_passes str_exn total_users i filled users w)
    = map (fun k => filled ++ firstn k data ++ skipn k users)
          (seq 1 (List.length users)) /\
    exists body,
      sensor_passes str_exn total_users i filled users w = body ++ [ThreadReturn None] /\
      forallb thread_step body = true.
Proof.
  induction users as [|user rest IH]; intros i filled w.
  - exists [], w. repeat split. exists []. split; reflexivity.
  - cbn [sensor_passes fill_users]. unfold bind at 1.
    destruct (default_call w) as (readings & w1 & E & _). rewrite E.
    destruct (IH (S i) (filled ++ [set_sensor_data user readings]) w1)
      as (data & w' & Ef & Len & Hp & Hs & body & Hb & Hbody).
    unfold bind at 1. rewrite Ef. unfold ret.
    exists (set_sensor_data user readings :: data), w'.
    split; [reflexivity|]. split; [cbn [List.length]; congruence|].
    set (own := if (i mod 10 =? 0)%nat
                then [ThreadPost (UpdateProgress (progress i total_users))] else []).
    split; [|split].
    + unfold posts in *. cbn [flat_map posted app]. rewrite flat_map_app, Hp.
      unfold progress_positions. cbn [List.length seq filter].
      unfold own. destruct (i mod 10 =? 0)%nat; reflexivity.
    + unfold stores in *. cbn [flat_map stored app]. rewrite flat_map_app, Hs.
      replace (flat_map stored own) with (@nil (list User))
        by (unfold own; destruct (i mod 10 =? 0)%nat; reflexivity).
      cbn [app List.length seq map firstn skipn]. f_equal.
      * rewrite <- app_assoc. reflexivity.
      * rewrite <- (seq_shift (List.length rest) 1), map_map. apply map_ext. intros k.
        cbn [firstn skipn]. rewrite <- app_assoc. reflexivity.
    + exists (ThreadStore ((filled ++ [set_sensor_data user readings]) ++ rest)
              :: own ++ body).
      split.
      * rewrite Hb. cbn [app]. rewrite app_assoc. reflexivity.
      * cbn [forallb thread_step]. rewrite forallb_app, Hbody, andb_true_r.
        unfold own. destruct (i mod 10 =? 0)%nat; reflexivity.
Qed.

Lemma progress_positions_1000 :
  progress_positions 0 1000 = map (fun k => 10 * k)%nat (seq 0 100).
Proof. vm_compute. reflexivity. Qed.

(** What the thread does, whatever the draws. *)
Lemma thread_spec w :
  exists users data w' body,
    generate_data w = Ok (data, w') /\
    List.length users = 1000%nat /\ List.length data = 1000%nat /\
    generate_data_thread str_exn w = body ++ [ThreadReturn None] /\
    forallb thread_step body = true /\
    posts (generate_data_thread str_exn w)
    = [SetProgressLabel "Generating 1000 user records...";
       SetProgressLabel "1000 user records created. Generating sensor data..."]
      ++ map (fun k => UpdateProgress (progress (10 * k) 1000)) (seq 0 100)
      ++ [DataGenerationComplete] /\
    stores (generate_data_thread str_exn w)
    = users :: map (fun k => firstn k data ++ skipn k users) (seq 1 1000) /\
    last_stored body None = Some data /\
    Forall (fun user => sensor_data user = []) users.
Proof.
  unfold generate_data_thread, generate_data, bind, generate_user_data.
  destruct (users_loop_spec (Z.to_nat 1000) [] w) as (users & w1 & E & Len & Fu).
  rewrite E. cbn [app].
  destruct (sensor_passes_spec (List.length users) users 0 [] w1)
    as (data & w' & Ef & Len' & Hp & Hs & body & Hb & Hbody).
  rewrite Ef. exists users, data, w'.
  exists (ThreadPost (SetProgressLabel "Generating 1000 user records...")
          :: ThreadStore users
          :: ThreadPost (SetProgressLabel
                           "1000 user records created. Generating sensor data...")
          :: body).
  split; [reflexivity|].
  change (Z.to_nat 1000) with 1000%nat in Len.
  split; [exact Len|]. split; [congruence|].
  split; [rewrite Hb; reflexivity|]. split; [exact Hbody|].
  split; [|split; [|split; [|exact Fu]]].
  - unfold posts in *. cbn [flat_map posted app]. rewrite Hp, Len.
    rewrite progress_positions_1000, map_map. reflexivity.
  - unfold stores in *. cbn [flat_map stored app]. rewrite Hs, Len. reflexivity.
  - rewrite last_stored_spec. unfold stores. cbn [flat_map stored app map].
    assert (Hs' : flat_map stored body
                  = map (fun k => firstn k data ++ skipn k users)
                        (seq 1 (List.length users))).
    { rewrite Hb in Hs. unfold stores in Hs. rewrite flat_map_app in Hs.
      cbn [flat_map stored app] in Hs. rewrite app_nil_r in Hs. exact Hs. }
    rewrite Hs', last_cons, (last_map_any Some _ users), <- (last_cons users _ users).
    rewrite (last_filled users data users Len'). reflexivity.
Qed.

(** *** The thread on its own *)

(** Every run of the thread takes the same steps, whatever the draws: it
    posts the two labels, the progress of the users 0, 10, ..., 990, and
    last [data_generation_complete], never [data_generation_error]; every
    value it gives [self.data] has 1000 users, the first without
    readings, the following ones with one more user filled each, and the
    last one is the finished dataset, with 1000 well-formed readings for
    every user. *)
Theorem generation_thread_steps w :
  exists users data w',
    generate_data w = Ok (data, w') /\
    posts (generate_data_thread str_exn w)
    = [SetProgressLabel "Generating 1000 user records...";
       SetProgressLabel "1000 user records created. Generating sensor data..."]
      ++ map (fun k => UpdateProgress (progress (10 * k) 1000)) (seq 0 100)
      ++ [DataGenerationComplete] /\
    last (generate_data_thread str_exn w) Dispatch = ThreadReturn None /\
    stores (generate_data_thread str_exn w)
    = users :: map (fun k => firstn k data ++ skipn k users) (seq 1 1000) /\
    Forall (fun value => List.length value = 1000%nat)
           (stores (generate_data_thread str_exn w)) /\
    last (stores (generate_data_thread str_exn w)) [] = data /\
    Forall (fun user => sensor_data user = []) users /\
    Forall (fun user =>
              Z.of_nat (List.length (sensor_data user)) = 1000%Z /\
              Forall reading_built (sensor_data user)) data.
Proof.
  destruct (thread_spec w)
    as (users & data & w' & body & E & Lu & Ld & Hb & _ & Hp & Hs & _ & Fu).
  exists users, data, w'. split; [exact E|]. split; [exact Hp|].
  split; [rewrite Hb; apply last_last|]. split; [exact Hs|].
  split; [|split; [|split]].
  - rewrite Hs. constructor; [exact Lu|].
    apply Forall_map. apply Forall_forall. intros k Hk. apply in_seq in Hk.
    rewrite length_app, length_firstn, length_skipn. lia.
  - rewrite Hs, <- Lu. apply last_filled. congruence.
  - exact Fu.
  - destruct (generate_data_spec w) as (data0 & w0 & E0 & _ & Fa & _).
    rewrite E0 in E. injection E as <- <-. exact Fa.
Qed.

(** *** The thread and the main loop *)

(** The window once [data_generation_complete] has run on the finished
    dataset of a run started from the first window. *)
Definition completed (data : list User) : Window :=
  mk_Window (Some data) false false
    "Data generation complete"
    "Data generation complete!"
    "Generated 1,000 user records with 1,000,000 total sensor records"
    true
    [("Successfully generated 1,000 user records with 1,000,000 sensor records!",
      "Success")]%string.

(** Two windows on which [data_generation_complete] gives the same. *)
Definition agree (w1 w2 : Window) : Prop :=
  data w1 = data w2 /\ current_plot_frame w1 = current_plot_frame w2 /\
  data_info w1 = data_info w2 /\ message_boxes w1 = message_boxes w2.

Lemma complete_agree w1 w2 :
  agree w1 w2 -> data_generation_complete w1 = data_generation_complete w2.
Proof.
  intros (Hd & Hp & Hi & Hb). unfold data_generation_complete.
  rewrite Hd, Hp, Hi, Hb. reflexivity.
Qed.

Lemma progress_agree c w : is_progress c = true -> agree (run_callback c w) w.
Proof. destruct c; intros H; try discriminate H; repeat split. Qed.

(** Once the thread has returned, the posted calls are run in order, the
    last of them [data_generation_complete]. *)
Lemma returned_schedule : forall events a queue a' w,
  pending a = queue ++ [DataGenerationComplete] ->
  forallb is_progress queue = true ->
  thread_part events = [] ->
  agree (window a) w ->
  run a events = Some a' -> pending a' = [] ->
  window a' = data_generation_complete w /\ workers a' = workers a.
Proof.
  induction events as [|e events IH]; intros a queue a' w Hq Hprog Ht Hag Hrun Hend.
  - cbn in Hrun. injection Hrun as <-. rewrite Hq in Hend.
    destruct queue; discriminate Hend.
  - destruct e; try discriminate Ht. cbn [thread_part filter] in Ht.
    cbn [run step] in Hrun. rewrite Hq in Hrun.
    destruct queue as [|c queue]; cbn [app] in Hrun.
    + destruct events as [|e events'].
      * cbn in Hrun. injection Hrun as <-. cbn [window workers run_callback].
        split; [apply complete_agree; exact Hag | reflexivity].
      * destruct e; try discriminate Ht. cbn in Hrun. discriminate Hrun.
    + cbn [forallb] in Hprog. apply andb_true_iff in Hprog. destruct Hprog as [Hc Hprog].
      destruct (IH (mk_App (run_callback c (window a)) (workers a)
                           (queue ++ [DataGenerationComplete]))
                   queue a' w eq_refl Hprog Ht) as [Hw Hk]; try assumption.
      * cbn [window]. destruct (progress_agree c (window a) Hc) as (A & B & C & D).
        destruct Hag as (A' & B' & C' & D'). repeat split; congruence.
      * split; [exact Hw | exact Hk].
Qed.

(** While the thread runs, the posted calls only change the progress
    label, whenever they are run. *)
Lemma running_schedule : forall events a body a' w,
  workers a = 1%nat ->
  forallb is_progress (pending a) = true ->
  forallb thread_step body = true ->
  thread_part events = body ++ [ThreadReturn None] ->
  agree (window a) w ->
  run a events = Some a' -> pending a' = [] ->
  window a'
  = data_generation_complete
      (mk_Window (last_stored body (data w)) (generation_in_progress w)
                 (current_plot_frame w) (status_text w) (progress_label w)
                 (data_info w) (statistics_menu_enabled w) (message_boxes w)) /\
  workers a' = 0%nat.
Proof.
  induction events as [|e events IH]; intros a body a' w Hw Hprog Hbody Ht Hag Hrun Hend.
  - destruct body; discriminate Ht.
  - assert (Step : forall a1 body1 w1,
               workers a1 = 1%nat -> forallb is_progress (pending a1) = true ->
               forallb thread_step body1 = true ->
               thread_part events = body1 ++ [ThreadReturn None] ->
               agree (window a1) w1 -> run a1 events = Some a' ->
               last_stored body1 (data w1) = last_stored body (data w) ->
               current_plot_frame w1 = current_plot_frame w ->
               data_info w1 = data_info w ->
               message_boxes w1 = message_boxes w ->
               window a'
               = data_generation_complete
                   (mk_Window (last_stored body (data w)) (generation_in_progress w)
                              (current_plot_frame w) (status_text w) (progress_label w)
                              (data_info w) (statistics_menu_enabled w)
                              (message_boxes w)) /\
               workers a' = 0%nat).
    { intros a1 body1 w1 H1 H2 H3 H4 H5 H6 H7 H8 H9 H10.
      destruct (IH a1 body1 a' w1 H1 H2 H3 H4 H5 H6 Hend) as [R1 R2].
      split; [|exact R2]. rewrite R1. apply complete_agree.
      repeat split; cbn [data current_plot_frame data_info message_boxes]; assumption. }
    destruct e.
    + (* MenuGenerate *)
      cbn [thread_part filter] in Ht.
      destruct body as [|b body]; cbn [app] in Ht; [discriminate Ht|].
      injection Ht as <- _. discriminate Hbody.
    + (* Dispatch *)
      cbn [thread_part filter] in Ht. cbn [run step] in Hrun.
      destruct (pending a) as [|c queue] eqn:Hq; [discriminate Hrun|].
      cbn [forallb] in Hprog. apply andb_true_iff in Hprog. destruct Hprog as [Hc Hprog].
      apply (Step (mk_App (run_callback c (window a)) (workers a) queue) body w);
        cbn [workers pending]; try assumption; try reflexivity.
      cbn [window]. destruct (progress_agree c (window a) Hc) as (A & B & C & D).
      destruct Hag as (A' & B' & C' & D'). repeat split; congruence.
    + (* ThreadStore *)
      cbn [thread_part filter] in Ht. fold (thread_part events) in Ht.
      destruct body as [|b body]; cbn [app] in Ht; [discriminate Ht|].
      injection Ht as <- Ht.
      cbn [run step] in Hrun. rewrite Hw in Hrun.
      cbn [forallb] in Hbody. apply andb_true_iff in Hbody. destruct Hbody as [_ Hbody].
      apply (Step (mk_App (set_data users (window a)) 1 (pending a)) body
                  (set_data users w));
        cbn [workers pending]; try assumption; try reflexivity.
      cbn [window]. destruct Hag as (A' & B' & C' & D'). repeat split; cbn; assumption.
    + (* ThreadPost *)
      cbn [thread_part filter] in Ht. fold (thread_part events) in Ht.
      destruct body as [|b body]; cbn [app] in Ht; [discriminate Ht|].
      injection Ht as <- Ht.
      cbn [forallb thread_step] in Hbody. apply andb_true_iff in Hbody.
      destruct Hbody as [Hc Hbody].
      cbn [run step] in Hrun. rewrite Hw, Hc in Hrun.
      apply (Step (mk_App (window a) 1 (pending a ++ [c])) body w);
        cbn [workers pending window]; try assumption; try reflexivity.
      rewrite forallb_app, Hprog. cbn [forallb]. rewrite Hc. reflexivity.
    + (* ThreadReturn *)
      cbn [thread_part filter] in Ht. fold (thread_part events) in Ht.
      destruct body as [|b body]; cbn [app] in Ht.
      * injection Ht as -> Ht.
        cbn [run step] in Hrun. rewrite Hw in Hrun.
        destruct (returned_schedule events
                    (mk_App (window a) 0 (pending a ++ [DataGenerationComplete]))
                    (pending a) a' w eq_refl Hprog Ht Hag Hrun Hend)
          as [R1 R2].
        cbn [workers] in R2. split; [|exact R2]. rewrite R1. apply complete_agree.
        repeat split.
      * injection Ht as <- _. discriminate Hbody.
Qed.

(** The events of a thread run in one go, then the posted calls. *)
Lemma run_thread_events : forall body a,
  workers a = 1%nat ->
  forallb thread_step body = true ->
  run a body
  = Some (mk_App (mk_Window (last_stored body (data (window a)))
                            (generation_in_progress (window a))
                            (current_plot_frame (window a)) (status_text (window a))
                            (progress_label (window a)) (data_info (window a))
                            (statistics_menu_enabled (window a))
                            (message_boxes (window a)))
                 1 (pending a ++ posts body)).
Proof.
  induction body as [|e body IH]; intros a Hw Hbody.
  - cbn. unfold posts. cbn. rewrite app_nil_r. destruct a as [[] ? ?]. cbn in *.
    subst. reflexivity.
  - cbn [forallb] in Hbody. apply andb_true_iff in Hbody. destruct Hbody as [He Hbody].
    destruct e; try discriminate He; cbn [run step]; rewrite Hw.
    + rewrite IH by (try assumption; reflexivity).
      cbn [window workers pending data set_data generation_in_progress current_plot_frame
           status_text progress_label data_info statistics_menu_enabled message_boxes
           last_stored fold_left].
      unfold posts. cbn [flat_map posted app]. reflexivity.
    + cbn [thread_step] in He. rewrite He.
      rewrite IH by (try assumption; reflexivity).
      cbn [window workers pending last_stored fold_left].
      unfold posts. cbn [flat_map posted app]. rewrite <- app_assoc. reflexivity.
Qed.

Lemma run_app events1 : forall a events2,
  run a (events1 ++ events2)
  = match run a events1 with
    | Some a1 => run a1 events2
    | None => None
    end.
Proof.
  induction events1 as [|e events1 IH]; intros a events2; [reflexivity|].
  cbn [app run]. destruct (step a e); [apply IH | reflexivity].
Qed.

Lemma run_dispatches : forall queue a,
  pending a = queue ->
  exists a', run a (repeat Dispatch (List.length queue)) = Some a' /\ pending a' = [].
Proof.
  induction queue as [|c queue IH]; intros a Hq.
  - exists a. split; [reflexivity | exact Hq].
  - cbn [List.length repeat run step]. rewrite Hq. apply IH. reflexivity.
Qed.

Lemma thread_part_thread body n :
  forallb thread_step body = true ->
  thread_part ((body ++ [ThreadReturn None]) ++ repeat Dispatch n)
  = body ++ [ThreadReturn None].
Proof.
  intros Hbody. unfold thread_part. rewrite filter_app.
  replace (filter _ (repeat Dispatch n)) with (@nil event).
  - rewrite app_nil_r, filter_app. cbn [filter]. f_equal.
    induction body as [|e body IH]; [reflexivity|].
    cbn [forallb] in Hbody. apply andb_true_iff in Hbody. destruct Hbody as [He Hbody].
    cbn [filter]. destruct e; try discriminate He; rewrite (IH Hbody); reflexivity.
  - induction n as [|n IHn]; [reflexivity | exact IHn].
Qed.

(** The schedule in which the main loop runs the posted calls once the
    thread has returned. *)
Lemma thread_then_main_loop w :
  exists a,
    run (on_generate true init)
        (generate_data_thread str_exn w ++ repeat Dispatch 103) = Some a /\
    pending a = [] /\
    thread_part (generate_data_thread str_exn w ++ repeat Dispatch 103)
    = generate_data_thread str_exn w.
Proof.
  destruct (thread_spec w) as (users & data & w' & body & E & Lu & Ld & Hb & Hbody & Hp & _ & _).
  rewrite Hb. rewrite (thread_part_thread body 103 Hbody).
  rewrite run_app, run_app.
  rewrite (run_thread_events body (on_generate true init) eq_refl Hbody).
  cbn [run step workers pending].
  match goal with
  | |- exists a, run ?a0 _ = Some a /\ _ =>
      destruct (run_dispatches (pending a0) a0 eq_refl) as (a' & Hr & He)
  end.
  cbn [pending] in Hr.
  assert (L : List.length ((pending (on_generate true init) ++ posts body)
                           ++ [DataGenerationComplete]) = 103%nat).
  { assert (Hp' : posts (body ++ [ThreadReturn None])
                  = posts body ++ [DataGenerationComplete])
      by (unfold posts; rewrite flat_map_app; reflexivity).
    rewrite <- Hb in Hp'. rewrite Hp in Hp'. cbn [pending on_generate init window
      generation_in_progress app]. rewrite <- Hp'.
    cbn [app List.length]. rewrite length_app, length_map, length_seq. reflexivity. }
  rewrite L in Hr. exists a'. split; [exact Hr|]. split; [exact He | reflexivity].
Qed.

(** However the steps of the thread and the runs of the posted calls are
    interleaved: once a run started from the first window is over, that
    is, the thread has taken all its steps and no posted call is left, the
    window holds the finished dataset, the guard is cleared, the
    Statistics menu is enabled again, and the counts shown are 1,000 users
    and 1,000,000 sensor records. *)
Theorem generation_run_any_schedule w events a :
  thread_part events = generate_data_thread str_exn w ->
  run (on_generate true init) events = Some a ->
  pending a = [] ->
  exists data w',
    generate_data w = Ok (data, w') /\
    a = mk_App (completed data) 0 [].
Proof.
  intros Ht Hrun Hend.
  destruct (thread_spec w)
    as (users & dataset & w' & body & E & Lu & Ld & Hb & Hbody & _ & _ & Hlast & _).
  exists dataset, w'. split; [exact E|].
  rewrite Hb in Ht.
  destruct (running_schedule events (on_generate true init) body a
              (window (on_generate true init)) eq_refl eq_refl Hbody Ht
              (conj eq_refl (conj eq_refl (conj eq_refl eq_refl))) Hrun Hend) as [Hw Hk].
  destruct a as [wa ka pa]. cbn [window workers pending] in *. subst ka pa.
  f_equal. rewrite Hw. cbn [on_generate init window generation_in_progress data
    current_plot_frame status_text progress_label data_info statistics_menu_enabled
    message_boxes]. rewrite Hlast.
  unfold data_generation_complete, completed.
  cbn [data current_plot_frame message_boxes].
  destruct (generate_data_spec w) as (data0 & w0 & E0 & Len0 & Fa0 & _).
  rewrite E0 in E. injection E as <- _.
  rewrite total_sensors_spec.
  rewrite (readings_total 1000 data0)
    by (eapply Forall_impl; [|exact Fa0]; intros user [H _]; exact H).
  rewrite Len0. reflexivity.
Qed.

End Steps.

Lemma generation_run_any_schedule_witness :
  exists dataset w',
    generate_data sample_world = Ok (dataset, w') /\
    run (on_generate true init)
        (generate_data_thread (fun _ => EmptyString) sample_world
         ++ repeat Dispatch 103)
    = Some (mk_App (completed dataset) 0 []).
Proof.
  destruct (thread_then_main_loop (fun _ => EmptyString) sample_world)
    as (a & Hrun & Hend & Ht).
  destruct (generation_run_any_schedule (fun _ => EmptyString) sample_world _ a
              Ht Hrun Hend) as (dataset & w' & E & Ea).
  exists dataset, w'. split; [exact E|]. rewrite Hrun, Ea. reflexivity.
Defined.

End ThreadFacts.

(* ================================================================== *)
(** * The preview grid *)
(* ================================================================== *)

Module PreviewFacts.

Import MainWindow RunFacts.

Section Rows.

Variable float_str : Q -> string.

(** The row of the preview for a user: none for a user without readings,
    else the seven fields of the user and the six of the first reading. *)
Definition preview_row (user : User) : list (list string) :=
  match sensor_data user with
  | [] => []
  | sensor :: _ =>
      [[firstname user; lastname user; Datetime.str_int (age user); gender user;
        username user; address_cell (address user); email user;
        date sensor; time sensor;
        float_str (outside_temperature sensor); float_str (outside_humidity sensor);
        float_str (room_temperature sensor); float_str (room_humidity sensor)]]
  end.

Lemma set_nth_last {A : Type} (x y : A) (pre : list A) :
  set_nth (List.length pre) x (pre ++ [y]) = pre ++ [x].
Proof.
  induction pre as [|z pre IH]; [reflexivity|].
  cbn [List.length app set_nth]. rewrite IH. reflexivity.
Qed.

Lemma nth_error_last {A : Type} (y : A) (pre : list A) :
  nth_error (pre ++ [y]) (List.length pre) = Some y.
Proof.
  rewrite nth_error_app2 by apply Nat.le_refl. rewrite Nat.sub_diag. reflexivity.
Qed.

(** Writing a cell of the last row. *)
Lemma SetCellValue_last pre cells col value s :
  SetCellValue (List.length pre) col value (mk_Grid (pre ++ [cells]) s)
  = mk_Grid (pre ++ [set_nth col value cells]) s.
Proof.
  unfold SetCellValue. cbn [rows shown]. rewrite nth_error_last, set_nth_last.
  reflexivity.
Qed.

(** One pass, when the counter is the number of rows. *)
Lemma preview_pass_spec user g :
  preview_pass float_str user (g, List.length (rows g))
  = (mk_Grid (rows g ++ preview_row user) (shown g),
     List.length (rows g ++ preview_row user)).
Proof.
  unfold preview_pass, preview_row. destruct g as [pre s]. cbn [rows shown].
  destruct (sensor_data user) as [|sensor others].
  - rewrite app_nil_r. reflexivity.
  - unfold AppendRows. cbn [rows shown].
    rewrite !SetCellValue_last. cbn [repeat set_nth].
    rewrite length_app, Nat.add_comm. reflexivity.
Qed.

Lemma preview_loop_spec users : forall g,
  fold_left (fun state user => preview_pass float_str user state) users
            (g, List.length (rows g))
  = (mk_Grid (rows g ++ flat_map preview_row users) (shown g),
     List.length (rows g ++ flat_map preview_row users)).
Proof.
  induction users as [|user users IH]; intros g; cbn [fold_left flat_map].
  - rewrite app_nil_r. destruct g. reflexivity.
  - rewrite preview_pass_spec.
    pose proof (IH (mk_Grid (rows g ++ preview_row user) (shown g))) as H.
    cbn [rows shown] in H. rewrite H, <- app_assoc. reflexivity.
Qed.

Lemma firstn_min {A : Type} (n : nat) (l : list A) :
  firstn (Nat.min n (List.length l)) l = firstn n l.
Proof.
  destruct (Nat.le_ge_cases n (List.length l)) as [H | H].
  - rewrite Nat.min_l by exact H. reflexivity.
  - rewrite Nat.min_r by exact H. rewrite firstn_all, firstn_all2 by exact H.
    reflexivity.
Qed.

(** The rows of the grid once [show_data_preview] has run on a dataset
    that is not empty. *)
Lemma show_data_preview_rows u us g :
  show_data_preview float_str (Some (u :: us)) g
  = mk_Grid (flat_map preview_row (firstn 10 (u :: us))) true.
Proof.
  unfold show_data_preview. cbv zeta. rewrite firstn_min.
  set (cleared := if (0 <? List.length (rows g))%nat
                  then DeleteRows 0 (List.length (rows g)) g else g).
  assert (Hc : rows cleared = []).
  { unfold cleared. destruct (0 <? List.length (rows g))%nat eqn:E.
    - unfold DeleteRows. cbn [rows firstn Nat.add app]. apply skipn_all.
    - apply Nat.ltb_ge in E. destruct (rows g); [reflexivity|].
      cbn [List.length] in E. inversion E. }
  pose proof (preview_loop_spec (firstn 10 (u :: us)) cleared) as H.
  rewrite Hc in H. cbn [List.length app] in H. rewrite H. reflexivity.
Qed.

(** A slice has at most the characters asked for. *)
Lemma len_take (s : string) : forall n, (Unicode.len (Unicode.take n s) <= n)%nat.
Proof.
  induction s as [|c s IH]; intros n; [apply Nat.le_0_l|].
  cbn [Unicode.take]. destruct (Unicode.is_continuation c) eqn:E.
  - cbn [Unicode.len]. rewrite E. apply IH.
  - destruct n as [|n]; [apply Nat.le_refl|].
    cbn [Unicode.len]. rewrite E. apply le_n_S. apply IH.
Qed.

Lemma len_append (s t : string) :
  Unicode.len (s ++ t) = (Unicode.len s + Unicode.len t)%nat.
Proof.
  induction s as [|c s IH]; [reflexivity|]. cbn [append Unicode.len].
  rewrite IH. destruct (Unicode.is_continuation c); reflexivity.
Qed.

(** The address cell has at most 53 characters, and an address of at most
    50 characters is shown as it is. *)
Lemma address_cell_spec address :
  (Unicode.len (address_cell address) <= 53)%nat /\
  ((Unicode.len address <= 50)%nat -> address_cell address = address).
Proof.
  unfold address_cell. destruct (50 <? Unicode.len address)%nat eqn:E.
  - apply Nat.ltb_lt in E. split.
    + rewrite len_append.
      pose proof (len_take address 50) as L.
      change (Unicode.len "...") with 3%nat.
      apply (Nat.le_trans _ (50 + 3)); [|apply Nat.le_refl].
      apply Nat.add_le_mono_r. exact L.
    + intros H. exfalso. apply (Nat.lt_irrefl 50).
      apply (Nat.lt_le_trans _ _ _ E H).
  - apply Nat.ltb_ge in E. split; [|reflexivity].
    apply (Nat.le_trans _ 50 _ E). repeat constructor.
Qed.

Lemma preview_row_cells user :
  Forall (fun cells =>
            List.length cells = 13%nat /\
            (Unicode.len (nth 5 cells EmptyString) <= 53)%nat)
         (preview_row user).
Proof.
  unfold preview_row. destruct (sensor_data user); constructor; [|constructor].
  split; [reflexivity|]. cbn [nth]. apply address_cell_spec.
Qed.

Lemma preview_rows_length users :
  (List.length (flat_map preview_row users) <= List.length users)%nat.
Proof.
  induction users as [|user users IH]; [apply Nat.le_refl|].
  cbn [flat_map List.length]. rewrite length_app.
  assert (H : (List.length (preview_row user) <= 1)%nat).
  { unfold preview_row. destruct (sensor_data user); cbn; auto with arith. }
  change (S (List.length users)) with (1 + List.length users)%nat.
  apply Nat.add_le_mono; assumption.
Qed.

(** The preview of a dataset that is not empty: whatever the grid held
    before, it is shown and holds one row for each of the first ten users
    that has a reading, in their order, with the fields of the user and
    those of the first reading of the user; a user without readings gets
    no row and leaves no gap.  So there are at most ten rows, of thirteen
    cells each, and the address cell has at most 53 characters. *)
Theorem preview_shows_first_readings u us g :
  shown (show_data_preview float_str (Some (u :: us)) g) = true /\
  rows (show_data_preview float_str (Some (u :: us)) g)
  = flat_map preview_row (firstn 10 (u :: us)) /\
  (List.length (rows (show_data_preview float_str (Some (u :: us)) g)) <= 10)%nat /\
  Forall (fun cells =>
            List.length cells = 13%nat /\
            (Unicode.len (nth 5 cells EmptyString) <= 53)%nat)
         (rows (show_data_preview float_str (Some (u :: us)) g)).
Proof.
  rewrite show_data_preview_rows. cbn [rows shown].
  split; [reflexivity|]. split; [reflexivity|]. split.
  - apply (Nat.le_trans _ _ _ (preview_rows_length _)). apply firstn_le_length.
  - apply Forall_flat_map. apply Forall_forall. intros user _.
    apply preview_row_cells.
Qed.

Lemma firstn_rows_full (n : nat) users :
  (n <= List.length users)%nat ->
  Forall (fun user => sensor_data user <> []) users ->
  List.length (flat_map preview_row (firstn n users)) = n.
Proof.
  revert users. induction n as [|n IH]; intros users Hn Fa; [reflexivity|].
  destruct users as [|user users]; [inversion Hn|].
  inversion Fa as [|? ? Hu Fa']; subst.
  cbn [firstn flat_map]. rewrite length_app.
  rewrite (IH users); [|apply le_S_n; exact Hn | exact Fa'].
  unfold preview_row. destruct (sensor_data user); [contradiction|reflexivity].
Qed.

(** After a generation run the preview has exactly ten rows, those of the
    first ten users, each with a reading of the first day. *)
Theorem preview_after_run w g :
  exists dataset w',
    generate_data w = Ok (dataset, w') /\
    List.length (rows (show_data_preview float_str (Some dataset) g)) = 10%nat /\
    Forall (fun cells => nth 7 cells EmptyString = "2015-01-01"%string)
           (rows (show_data_preview float_str (Some dataset) g)).
Proof.
  destruct (generate_data_spec w) as (dataset & w' & E & Len & Fa & Span).
  exists dataset, w'. split; [exact E|].
  destruct dataset as [|u us]; [discriminate Len|].
  rewrite show_data_preview_rows. cbn [rows].
  assert (Full : Forall (fun user => sensor_data user <> []) (u :: us)).
  { eapply Forall_impl; [|exact Fa]. intros user [Hl _] Hn.
    rewrite Hn in Hl. discriminate Hl. }
  split.
  - apply firstn_rows_full; [|exact Full]. rewrite Len.
    repeat apply le_n_S. apply Nat.le_0_l.
  - apply Forall_flat_map. apply Forall_forall. intros user Hu.
    assert (Hu' : In user (u :: us)).
    { rewrite <- (firstn_skipn 10 (u :: us)). apply in_or_app. left. exact Hu. }
    clear Hu. rename Hu' into Hu.
    destruct (Span user Hu) as [Hn | (_ & first & rest & Hs & Hd & _)].
    + rewrite Forall_forall in Full. destruct (Full user Hu Hn).
    + unfold preview_row. rewrite Hs. constructor; [|constructor]. exact Hd.
Qed.

End Rows.

End PreviewFacts.

(* ================================================================== *)
(** * The Statistics menu and the plot window *)
(* ================================================================== *)

Module SessionFacts.

Import MainWindow GenerationFacts.

(** What holds between two events of the application. *)
Definition session_ok (a : App) : Prop :=
  guard_counts_runs a /\
  statistics_menu_enabled (window a) = negb (generation_in_progress (window a)) /\
  (current_plot_frame (window a) = true ->
   generation_in_progress (window a) = false /\
   exists u us, data (window a) = Some (u :: us)).

Lemma show_box_session a message caption :
  session_ok a -> session_ok (with_window a (show_box (window a) message caption)).
Proof. intros H. exact H. Qed.

Lemma idle_no_worker a :
  guard_counts_runs a -> generation_in_progress (window a) = false -> workers a = 0%nat.
Proof.
  unfold guard_counts_runs, runs_in_progress. intros G F. rewrite F in G.
  destruct (workers a); [reflexivity | discriminate G].
Qed.

Lemma step_session a e a' :
  session_ok a -> step a e = Some a' -> session_ok a'.
Proof.
  intros (G & M & P) H.
  split; [exact (step_keeps_guard a e a' G H)|].
  destruct e as [answer | | users | c | error]; cbn [step] in H.
  - injection H as <-. unfold on_generate.
    destruct (generation_in_progress (window a)) eqn:F.
    + cbn [window show_box statistics_menu_enabled generation_in_progress
           current_plot_frame data]. rewrite F. split; [exact M | exact P].
    + destruct answer;
        cbn [window statistics_menu_enabled generation_in_progress current_plot_frame];
        (split; [try reflexivity; exact M | discriminate]).
  - destruct (pending a) as [|c rest] eqn:Q; [discriminate|]. injection H as <-.
    cbn [window].
    destruct c; cbn [run_callback].
    + cbn [set_progress statistics_menu_enabled generation_in_progress
           current_plot_frame data]. split; [exact M | exact P].
    + cbn [set_progress statistics_menu_enabled generation_in_progress
           current_plot_frame data]. split; [exact M | exact P].
    + destruct (complete_fields (window a)) as (-> & -> & -> & ->).
      split; [reflexivity|]. intros Hp. destruct (P Hp) as [_ D].
      split; [reflexivity | exact D].
    + cbn [data_generation_error statistics_menu_enabled generation_in_progress
           current_plot_frame data].
      split; [reflexivity|]. intros Hp. destruct (P Hp) as [_ D].
      split; [reflexivity | exact D].
  - destruct (workers a) eqn:W; [discriminate|]. injection H as <-.
    cbn [window set_data statistics_menu_enabled generation_in_progress
         current_plot_frame data].
    split; [exact M|]. intros Hp. destruct (P Hp) as [F _].
    rewrite (idle_no_worker a G F) in W. discriminate W.
  - destruct (workers a); [discriminate|]. destruct (is_progress c); [|discriminate].
    injection H as <-. cbn [window]. split; [exact M | exact P].
  - destruct (workers a); [discriminate|]. injection H as <-. cbn [window].
    split; [exact M | exact P].
Qed.

Lemma with_window_guard a w :
  generation_in_progress w = generation_in_progress (window a) ->
  guard_counts_runs a -> guard_counts_runs (with_window a w).
Proof.
  unfold guard_counts_runs, runs_in_progress, with_window. cbn [window workers pending].
  intros ->. exact (fun G => G).
Qed.

(** An item that opens a plot window. *)
Lemma plot_item_session a (item : Window -> Window * option PlotFrame.Frame) title kind :
  (forall w,
     item w = match data w with
              | None | Some [] =>
                  (show_box w "No data available. Please generate data first." "Error",
                   None)
              | Some (u :: us) =>
                  (set_plot_frame true w, Some (PlotFrame.init title (u :: us) kind))
              end) ->
  session_ok a -> statistics_menu_enabled (window a) = true ->
  session_ok (with_window a (fst (item (window a)))).
Proof.
  intros Hitem (G & M & P) En. rewrite Hitem.
  assert (F : generation_in_progress (window a) = false).
  { rewrite En in M. destruct (generation_in_progress (window a)); [discriminate M|].
    reflexivity. }
  destruct (data (window a)) as [[|u us]|] eqn:D; cbn [fst].
  - split; [exact G|]. split; [exact M|].
    cbn [with_window window show_box current_plot_frame generation_in_progress data].
    rewrite D. exact P.
  - split; [apply with_window_guard; [reflexivity | exact G]|].
    cbn [with_window window set_plot_frame statistics_menu_enabled
         generation_in_progress current_plot_frame data].
    split; [exact M|]. intros _. split; [exact F|]. exists u, us. exact D.
  - split; [exact G|]. split; [exact M|].
    cbn [with_window window show_box current_plot_frame generation_in_progress data].
    rewrite D. exact P.
Qed.

Lemma menu_step_session a e a' :
  session_ok a -> menu_step a e = Some a' -> session_ok a'.
Proof.
  intros S H. destruct e as [e | | | | |]; cbn [menu_step] in H.
  - exact (step_session a e a' S H).
  - destruct (statistics_menu_enabled (window a)) eqn:En; [|discriminate H].
    injection H as <-. unfold on_descriptive.
    destruct S as (G & M & P).
    destruct (data (window a)) as [[|u us]|] eqn:D; cbn [fst].
    + split; [exact G|]. split; [exact M|].
      cbn [with_window window show_box current_plot_frame generation_in_progress data].
      rewrite D. exact P.
    + split; [apply with_window_guard; [reflexivity | exact G]|].
      cbn [with_window window]. split; [exact M | rewrite D; exact P].
    + split; [exact G|]. split; [exact M|].
      cbn [with_window window show_box current_plot_frame generation_in_progress data].
      rewrite D. exact P.
  - destruct (statistics_menu_enabled (window a)) eqn:En; [|discriminate H].
    injection H as <-.
    apply (plot_item_session a on_plot_a "Plot A - Outside Temperature Density" "A");
      [reflexivity | exact S | exact En].
  - destruct (statistics_menu_enabled (window a)) eqn:En; [|discriminate H].
    injection H as <-.
    apply (plot_item_session a on_plot_b "Plot B - Temperature Comparison" "B");
      [reflexivity | exact S | exact En].
  - destruct (statistics_menu_enabled (window a)) eqn:En; [|discriminate H].
    injection H as <-.
    apply (plot_item_session a on_plot_c "Plot C - All Measurements Density" "C");
      [reflexivity | exact S | exact En].
  - destruct (current_plot_frame (window a)) eqn:Pf; [|discriminate H].
    injection H as <-. destruct S as (G & M & P).
    split; [apply with_window_guard; [reflexivity | exact G]|].
    cbn [with_window window set_plot_frame statistics_menu_enabled
         generation_in_progress current_plot_frame].
    split; [exact M | discriminate].
Qed.

Lemma menu_reachable_session a : menu_reachable a -> session_ok a.
Proof.
  induction 1 as [|a e a' _ IH H].
  - split; [reflexivity|]. split; [reflexivity | discriminate].
  - exact (menu_step_session a e a' IH H).
Qed.

(** In every state the application can reach, the Statistics menu is
    enabled exactly when no generation run is in progress; and while a
    plot window is open, no run is in progress, no generation thread is
    alive, and the dataset holds at least one user: a plot window never
    reads a dataset that a thread is filling. *)
Theorem no_plot_during_generation (a : App) :
  menu_reachable a ->
  statistics_menu_enabled (window a) = negb (generation_in_progress (window a)) /\
  (current_plot_frame (window a) = true ->
   generation_in_progress (window a) = false /\
   workers a = 0%nat /\
   exists u us, data (window a) = Some (u :: us)).
Proof.
  intros R. destruct (menu_reachable_session a R) as (G & M & P).
  split; [exact M|]. intros Hp. destruct (P Hp) as [F D].
  split; [exact F|]. split; [exact (idle_no_worker a G F) | exact D].
Qed.

(** A user with one reading, and the session in which a thread stores a
    dataset with this user and returns, and Plot A is opened. *)
Definition sample_user : User :=
  mk_User "Ada" "Lovelace" 36 "Female" "ada" "12 Mill Lane" "ada@example.org"
          [mk_SensorRecord "2015-01-01" "00:00:00" 80 60 75 55].

Definition sample_session : list menu_event :=
  [Generation (MenuGenerate true); Generation (ThreadStore [sample_user]);
   Generation (ThreadReturn None); Generation Dispatch; MenuPlotA].

Fixpoint menu_run (a : App) (events : list menu_event) : option App :=
  match events with
  | [] => Some a
  | e :: rest =>
      match menu_step a e with
      | Some a' => menu_run a' rest
      | None => None
      end
  end.

Lemma menu_run_reachable events : forall a a',
  menu_reachable a -> menu_run a events = Some a' -> menu_reachable a'.
Proof.
  induction events as [|e rest IH]; intros a a' R H; cbn [menu_run] in H.
  - injection H as <-. exact R.
  - destruct (menu_step a e) as [a1|] eqn:S; [|discriminate].
    apply (IH a1 a'); [|exact H]. exact (menu_reachable_step a e a1 R S).
Qed.

Definition sample_plotting : App :=
  mk_App (mk_Window (Some [sample_user]) false true
            "Data generation complete" "Data generation complete!"
            "Generated 1 user records with 1 total sensor records" true
            [("Successfully generated 1 user records with 1 sensor records!",
              "Success")]%string)
         0 [].

Lemma no_plot_during_generation_witness :
  menu_run init sample_session = Some sample_plotting /\
  statistics_menu_enabled (window sample_plotting)
  = negb (generation_in_progress (window sample_plotting)) /\
  current_plot_frame (window sample_plotting) = true /\
  workers sample_plotting = 0%nat.
Proof.
  assert (E : menu_run init sample_session = Some sample_plotting)
    by (vm_compute; reflexivity).
  destruct (no_plot_during_generation sample_plotting
              (menu_run_reachable sample_session init sample_plotting
                 menu_reachable_init E)) as [M P].
  destruct (P eq_refl) as (_ & W & _).
  split; [exact E|]. split; [exact M|]. split; [reflexivity | exact W].
Defined.

End SessionFacts.

(* ================================================================== *)
(** * The plot window *)
(* ================================================================== *)

Module PlotFrameFacts.

Import Float64 Float64Facts PlotFrame.
Local Open Scope Q_scope.

(** [s.lower()] on a text of ASCII characters, for the examples. *)
Definition ascii_lower_char (c : ascii) : ascii :=
  let n := nat_of_ascii c in
  if (65 <=? n)%nat && (n <=? 90)%nat then ascii_of_nat (n + 32) else c.

Fixpoint ascii_lower (s : string) : string :=
  match s with
  | EmptyString => EmptyString
  | String c rest => String (ascii_lower_char c) (ascii_lower rest)
  end.

(** A user with one reading. *)
Definition sample_user : User :=
  mk_User "Ada" "Lovelace" 36 "Female" "ada" "12 Mill Lane" "ada@example.org"
          [mk_SensorRecord "2015-01-01" "00:00:00" 80 60 75 55].

(** ** Zoom *)

Section Handlers.

(** [s.lower()] *)
Variable lower : string -> string.

(** What can happen to a plot window once it is created: the two delayed
    calls that draw it, the buttons of its toolbar, and a key.  A handler
    that raises leaves the frame as it was: [on_autofit] assigns nothing
    before its last division. *)
Inductive frame_event : Type :=
| StartPlot
| Draw (library_error : option string)
| ZoomIn (canvas_size client_size : Z * Z)
| ZoomOut (canvas_size client_size : Z * Z)
| ResetZoom (canvas_size client_size : Z * Z)
| AutoFit (client_size : Z * Z)
| SavePlot (dialog : option string) (save_error : string -> string -> option string)
| KeyDown (wx : KeyCodes) (keycode : Z) (canvas_size client_size : Z * Z).

Definition frame_step (f : Frame) (e : frame_event) : Frame :=
  match e with
  | StartPlot => start_plot_generation f
  | Draw library_error => fst (fst (generate_plot_direct library_error f))
  | ZoomIn canvas_size client_size => on_zoom_in canvas_size client_size f
  | ZoomOut canvas_size client_size => on_zoom_out canvas_size client_size f
  | ResetZoom canvas_size client_size => on_reset_zoom canvas_size client_size f
  | AutoFit client_size =>
      match on_autofit client_size f with
      | Done f' => f'
      | ZeroDivisionError => f
      end
  | SavePlot dialog save_error => fst (on_save_plot lower dialog save_error f)
  | KeyDown wx keycode canvas_size client_size =>
      match on_key_down wx keycode canvas_size client_size f with
      | Done (f', _) => f'
      | ZeroDivisionError => f
      end
  end.

(** The zoom buttons. *)
Definition is_zoom (e : frame_event) : bool :=
  match e with
  | ZoomIn _ _ | ZoomOut _ _ | ResetZoom _ _ => true
  | _ => false
  end.

(** The level [k] quarters, as the binary64 arithmetic of the handlers
    leaves it. *)
Definition level (k : Z) : Q := Qred (k # 4).

(** The level after [on_zoom_in] and after [on_zoom_out]. *)
Definition zoomed_in (z : Q) : Q :=
  if gt (fadd z (1 # 4)) 5 then 5 else fadd z (1 # 4).

Definition zoomed_out (z : Q) : Q :=
  if gt (1 # 4) (fsub z (1 # 4)) then 1 # 4 else fsub z (1 # 4).

(** [int(zoom_level * 100)] *)
Definition zoom_percent (z : Q) : Z := int (fmul z (float_of_int 100)).

Definition Q_eqb (x y : Q) : bool :=
  (Qnum x =? Qnum y)%Z && (Qden x =? Qden y)%positive.

Definition steps_ok (k : Z) : bool :=
  Q_eqb (zoomed_in (level k)) (level (Z.min (k + 1) 20))
  && Q_eqb (zoomed_out (level k)) (level (Z.max (k - 1) 1))
  && (zoom_percent (level k) =? 25 * k)%Z.

Definition is_level (z : Q) : Prop := exists k, (1 <= k <= 20)%Z /\ z = level k.

Lemma Q_eqb_eq x y : Q_eqb x y = true -> x = y.
Proof.
  unfold Q_eqb. intros H. apply andb_true_iff in H. destruct H as [Hn Hd].
  apply Z.eqb_eq in Hn. apply Pos.eqb_eq in Hd.
  destruct x, y. cbn in *. subst. reflexivity.
Qed.

Lemma steps_ok_all : forallb steps_ok (map Z.of_nat (seq 1 20)) = true.
Proof. vm_compute. reflexivity. Qed.

Lemma steps_ok_level k : (1 <= k <= 20)%Z -> steps_ok k = true.
Proof.
  intros H. pose proof steps_ok_all as A. rewrite forallb_forall in A. apply A.
  apply in_map_iff. exists (Z.to_nat k). split; [lia|]. apply in_seq. lia.
Qed.

Lemma level_steps k :
  (1 <= k <= 20)%Z ->
  zoomed_in (level k) = level (Z.min (k + 1) 20) /\
  zoomed_out (level k) = level (Z.max (k - 1) 1) /\
  zoom_percent (level k) = (25 * k)%Z.
Proof.
  intros H. pose proof (steps_ok_level k H) as S. unfold steps_ok in S.
  apply andb_true_iff in S. destruct S as [S Hp].
  apply andb_true_iff in S. destruct S as [Hi Ho].
  split; [exact (Q_eqb_eq _ _ Hi)|]. split; [exact (Q_eqb_eq _ _ Ho)|].
  apply Z.eqb_eq. exact Hp.
Qed.

Lemma level_one : is_level 1.
Proof. exists 4%Z. split; [lia | reflexivity]. Qed.

Lemma zoomed_in_level z : is_level z -> is_level (zoomed_in z).
Proof.
  intros (k & H & ->). destruct (level_steps k H) as (E & _). rewrite E.
  exists (Z.min (k + 1) 20). split; [lia | reflexivity].
Qed.

Lemma zoomed_out_level z : is_level z -> is_level (zoomed_out z).
Proof.
  intros (k & H & ->). destruct (level_steps k H) as (_ & E & _). rewrite E.
  exists (Z.max (k - 1) 1). split; [lia | reflexivity].
Qed.

(** [update_zoom] leaves the level as it is, and writes the label when the
    plot is ready. *)
Lemma update_zoom_level canvas_size client_size f :
  zoom_level (update_zoom canvas_size client_size f) = zoom_level f.
Proof.
  unfold update_zoom. destruct (plot_ready f); [|reflexivity].
  destruct client_size as [scroll_width scroll_height].
  destruct ((scroll_width <? fst canvas_size)%Z || (scroll_height <? snd canvas_size)%Z);
    reflexivity.
Qed.

Lemma update_zoom_label canvas_size client_size f :
  plot_ready f = true ->
  zoom_label (update_zoom canvas_size client_size f)
  = (Datetime.str_int (zoom_percent (zoom_level f)) ++ "%")%string.
Proof.
  intros R. unfold update_zoom. rewrite R.
  destruct client_size as [scroll_width scroll_height].
  destruct ((scroll_width <? fst canvas_size)%Z || (scroll_height <? snd canvas_size)%Z);
    reflexivity.
Qed.

Lemma on_zoom_in_level canvas_size client_size f :
  zoom_level (on_zoom_in canvas_size client_size f) = zoomed_in (zoom_level f).
Proof. unfold on_zoom_in. cbv zeta. rewrite update_zoom_level. reflexivity. Qed.

Lemma on_zoom_out_level canvas_size client_size f :
  zoom_level (on_zoom_out canvas_size client_size f) = zoomed_out (zoom_level f).
Proof. unfold on_zoom_out. cbv zeta. rewrite update_zoom_level. reflexivity. Qed.

Lemma on_reset_zoom_level canvas_size client_size f :
  zoom_level (on_reset_zoom canvas_size client_size f) = 1.
Proof. unfold on_reset_zoom. rewrite update_zoom_level. reflexivity. Qed.

Lemma on_autofit_level client_size f f' :
  on_autofit client_size f = Done f' -> zoom_level f' = zoom_level f \/ zoom_level f' = 1.
Proof.
  unfold on_autofit. destruct (plot_ready f).
  - destruct client_size as [width height]. cbv zeta.
    destruct (truediv (inject_Z width) (inject_Z 100)); [|discriminate].
    destruct (truediv (inject_Z height) (inject_Z 100)); [|discriminate].
    destruct (truediv (fst (original_figsize f)) (snd (original_figsize f)));
      [|discriminate].
    destruct (truediv _ _); [|discriminate].
    destruct (gt _ _).
    + intros [= <-]. right. reflexivity.
    + destruct (truediv _ _); [|discriminate]. intros [= <-]. right. reflexivity.
  - intros [= <-]. left. reflexivity.
Qed.

Lemma generate_plot_direct_level library_error f :
  zoom_level (fst (fst (generate_plot_direct library_error f))) = zoom_level f.
Proof.
  unfold generate_plot_direct. cbv zeta.
  destruct (extract _ _ _ _ _) as [[[|reading readings] shown]|]; try reflexivity.
  destruct library_error; [reflexivity|].
  destruct (String.eqb (plot_type f) "A"); [reflexivity|].
  destruct (String.eqb (plot_type f) "B"); [reflexivity|].
  destruct (String.eqb (plot_type f) "C"); reflexivity.
Qed.

Lemma on_save_plot_level dialog save_error f :
  zoom_level (fst (on_save_plot lower dialog save_error f)) = zoom_level f.
Proof.
  unfold on_save_plot. destruct (negb (plot_ready f)); [reflexivity|].
  destruct dialog as [pathname|]; [|reflexivity]. cbv zeta.
  destruct (save_error _ _); reflexivity.
Qed.

Lemma frame_step_level f e : is_level (zoom_level f) -> is_level (zoom_level (frame_step f e)).
Proof.
  intros L.
  assert (In_ : forall c s, is_level (zoom_level (on_zoom_in c s f)))
    by (intros c s; rewrite on_zoom_in_level; apply zoomed_in_level; exact L).
  assert (Out_ : forall c s, is_level (zoom_level (on_zoom_out c s f)))
    by (intros c s; rewrite on_zoom_out_level; apply zoomed_out_level; exact L).
  assert (Reset_ : forall c s, is_level (zoom_level (on_reset_zoom c s f)))
    by (intros c s; rewrite on_reset_zoom_level; apply level_one).
  assert (Fit_ : forall s, is_level (zoom_level match on_autofit s f with
                                                | Done f' => f'
                                                | ZeroDivisionError => f
                                                end)).
  { intros s. destruct (on_autofit s f) as [f'|] eqn:E; [|exact L].
    destruct (on_autofit_level s f f' E) as [-> | ->]; [exact L | apply level_one]. }
  destruct e; cbn [frame_step].
  - exact L.
  - rewrite generate_plot_direct_level. exact L.
  - apply In_.
  - apply Out_.
  - apply Reset_.
  - apply Fit_.
  - rewrite on_save_plot_level. exact L.
  - unfold on_key_down.
    repeat match goal with
           | |- context [if ?b then _ else _] => destruct b
           end; try exact L; try apply In_; try apply Out_; try apply Reset_.
    specialize (Fit_ client_size). destruct (on_autofit client_size f); exact Fit_.
Qed.

Lemma frame_run_level events : forall f,
  is_level (zoom_level f) -> is_level (zoom_level (fold_left frame_step events f)).
Proof.
  induction events as [|e events IH]; intros f L; [exact L|].
  cbn [fold_left]. apply IH. apply frame_step_level. exact L.
Qed.

Lemma level_value k : level k == k # 4.
Proof. apply Qred_correct. Qed.

(** Whatever is done to a plot window, in whatever order, its zoom level
    is a whole number of quarters between 25% and 500%, without any
    rounding error of the binary64 additions. *)
Theorem zoom_level_in_quarter_steps title data plot_type events :
  exists k,
    (1 <= k <= 20)%Z /\
    zoom_level (fold_left frame_step events (init title data plot_type)) == k # 4.
Proof.
  destruct (frame_run_level events (init title data plot_type) level_one)
    as (k & H & E).
  exists k. split; [exact H|]. rewrite E. apply level_value.
Qed.

(** Once the plot is drawn, a zoom button shows the new level exactly: the
    label reads 25, 50, ..., 500 followed by the percent sign, the number
    being a hundred times the zoom level, and the figure is resized from
    the original size by that level. *)
Theorem zoom_label_shows_level title data plot_type events e :
  plot_ready (fold_left frame_step events (init title data plot_type)) = true ->
  is_zoom e = true ->
  exists k,
    (1 <= k <= 20)%Z /\
    zoom_level (frame_step (fold_left frame_step events (init title data plot_type)) e)
    == k # 4 /\
    zoom_label (frame_step (fold_left frame_step events (init title data plot_type)) e)
    = (Datetime.str_int (25 * k) ++ "%")%string.
Proof.
  set (f := fold_left frame_step events (init title data plot_type)).
  intros R Z.
  pose proof (frame_run_level events (init title data plot_type) level_one) as L.
  fold f in L.
  assert (G : forall z c s,
             is_level z ->
             exists k, (1 <= k <= 20)%Z /\
               zoom_level (update_zoom c s (set_zoom_level z f)) == k # 4 /\
               zoom_label (update_zoom c s (set_zoom_level z f))
               = (Datetime.str_int (25 * k) ++ "%")%string).
  { intros z c s (k & H & ->). exists k. split; [exact H|].
    rewrite update_zoom_level, update_zoom_label by exact R.
    cbn [set_zoom_level zoom_level]. split; [apply level_value|].
    destruct (level_steps k H) as (_ & _ & ->). reflexivity. }
  destruct e; try discriminate Z; cbn [frame_step].
  - apply (G (zoomed_in (zoom_level f))). apply zoomed_in_level. exact L.
  - apply (G (zoomed_out (zoom_level f))). apply zoomed_out_level. exact L.
  - apply (G 1). apply level_one.
Qed.

End Handlers.

Lemma zoom_label_shows_level_witness :
  exists k,
    (1 <= k <= 20)%Z /\
    zoom_level (frame_step ascii_lower
                  (fold_left (frame_step ascii_lower) [StartPlot; Draw None]
                     (init "Plot A - Outside Temperature Density" [sample_user] "A"))
                  (ZoomIn (1500, 1125)%Z (980, 640)%Z))
    == k # 4 /\
    zoom_label (frame_step ascii_lower
                  (fold_left (frame_step ascii_lower) [StartPlot; Draw None]
                     (init "Plot A - Outside Temperature Density" [sample_user] "A"))
                  (ZoomIn (1500, 1125)%Z (980, 640)%Z))
    = (Datetime.str_int (25 * k) ++ "%")%string.
Proof.
  apply (zoom_label_shows_level ascii_lower "Plot A - Outside Temperature Density"
           [sample_user] "A" [StartPlot; Draw None] (ZoomIn (1500, 1125)%Z (980, 640)%Z)).
  - vm_compute. reflexivity.
  - reflexivity.
Defined.

(** ** Auto-fit *)

Lemma truediv_hundred x : truediv x (inject_Z 100) = Done (RN (x / inject_Z 100)).
Proof. reflexivity. Qed.

Lemma nothing_high : fmul (RN (inject_Z 0 / inject_Z 100)) (RN (9 # 10)) == 0.
Proof. vm_compute. reflexivity. Qed.

(** Auto-fit divides by the height it is given: on a drawn plot,
    [on_autofit] raises [ZeroDivisionError], and changes nothing, when the
    client area of the scrolled window has height 0, and also when the
    height of the original figure size is 0, whatever the window. *)
Theorem autofit_divides_by_height client_size f :
  plot_ready f = true ->
  snd client_size = 0%Z \/ snd (original_figsize f) == 0 ->
  on_autofit client_size f = ZeroDivisionError.
Proof.
  intros R H. unfold on_autofit. rewrite R.
  destruct client_size as [width height]. cbv zeta. rewrite !truediv_hundred.
  unfold truediv at 1.
  destruct (Qeq_bool (snd (original_figsize f)) 0) eqn:E; [reflexivity|].
  destruct H as [H | H].
  - cbn [snd] in H. subst height. unfold truediv at 1.
    rewrite (proj2 (Qeq_bool_iff _ _) nothing_high). reflexivity.
  - apply Qeq_bool_iff in H. rewrite H in E. discriminate E.
Qed.

Lemma autofit_divides_by_height_witness :
  on_autofit (980, 0)%Z
    (fold_left (frame_step ascii_lower) [StartPlot; Draw None]
       (init "Plot A - Outside Temperature Density" [sample_user] "A"))
  = ZeroDivisionError.
Proof.
  apply autofit_divides_by_height.
  - vm_compute. reflexivity.
  - left. reflexivity.
Defined.

(** ** Saving *)

Local Open Scope string_scope.

Lemma split_dot_plain s : has_dot s = false -> split_dot s = [s].
Proof.
  induction s as [|c s IH]; [reflexivity|]. cbn [has_dot split_dot].
  destruct (Ascii.eqb c "."); [discriminate|]. cbn [orb]. intros H.
  rewrite (IH H). reflexivity.
Qed.

Lemma split_dot_last stem ext :
  has_dot ext = false ->
  exists first others, split_dot (stem ++ "." ++ ext) = first :: (others ++ [ext])%list.
Proof.
  intros H. change ("." ++ ext) with (String "." ext).
  induction stem as [|c stem (first & others & IH)].
  - exists EmptyString, []. cbn [append split_dot].
    change (Ascii.eqb "." ".") with true. cbv iota.
    rewrite (split_dot_plain ext H). reflexivity.
  - cbn [append split_dot]. rewrite IH. destruct (Ascii.eqb c ".").
    + exists EmptyString, (first :: others). reflexivity.
    + exists (String c first), others. reflexivity.
Qed.

Lemma has_dot_append stem rest : has_dot (stem ++ "." ++ rest) = true.
Proof.
  change ("." ++ rest) with (String "." rest).
  induction stem as [|c stem IH]; [reflexivity|].
  cbn [append has_dot]. rewrite IH. apply orb_true_r.
Qed.

(** The format handed to [savefig] is the text after the last dot of the
    whole path, put in lower case by [str.lower], wherever that dot is:
    in the file name or in the name of a folder.  A path without any dot
    is saved as png. *)
Theorem save_format_is_text_after_last_dot (lower : string -> string) stem ext :
  has_dot ext = false ->
  file_format lower (stem ++ "." ++ ext) = lower ext /\
  file_format lower ext = "png".
Proof.
  intros H. unfold file_format. rewrite has_dot_append, H. split; [|reflexivity].
  destruct (split_dot_last stem ext H) as (first & others & ->).
  rewrite app_comm_cons, last_last. reflexivity.
Qed.

Lemma save_format_is_text_after_last_dot_witness :
  file_format ascii_lower "/home/ada/plots.2015/Figure" = "2015/figure" /\
  file_format ascii_lower "2015/Figure" = "png".
Proof.
  apply (save_format_is_text_after_last_dot ascii_lower "/home/ada/plots" "2015/Figure").
  reflexivity.
Defined.

Local Close Scope string_scope.

(** ** Drawing *)

(** The loop of [generate_plot_direct] on a dataset: it never divides by
    zero, and gathers the readings of all the users, in order. *)
Lemma extract_spec total_users users : forall i all_sensor_data shown,
  total_users <> 0%Z ->
  exists shown',
    extract total_users i users all_sensor_data shown
    = Done (all_sensor_data ++ flat_map sensor_data users, shown').
Proof.
  induction users as [|user users IH]; intros i all_sensor_data shown N.
  - exists shown. cbn [extract flat_map]. rewrite app_nil_r. reflexivity.
  - cbn [extract flat_map]. cbv zeta.
    assert (T : forall x, truediv x (inject_Z total_users)
                          = Done (RN (x / inject_Z total_users))).
    { intros x. unfold truediv.
      destruct (Qeq_bool (inject_Z total_users) 0) eqn:E; [|reflexivity].
      apply Qeq_bool_iff in E. exfalso. apply N.
      unfold Qeq in E. cbn in E. lia. }
    rewrite T. rewrite app_assoc.
    destruct (i mod 100 =? 0)%Z; apply IH; exact N.
Qed.

(** The figure of a plot type; any other type leaves the cleared figure. *)
Definition drawn (plot_type : string) (df : list SensorRecord) : plot :=
  if String.eqb plot_type "A" then plot_a df
  else if String.eqb plot_type "B" then plot_b df
  else if String.eqb plot_type "C" then plot_c df
  else Histograms [] None.

(** [generate_plot_direct] never fails on its own division, whatever the
    dataset.  Without any reading it only says so and the plot stays as
    it was; when pandas or matplotlib raises, the frame and the status bar
    of the main window show the first hundred characters of the error and
    the plot is not marked ready; else the figure is drawn from the
    readings of all the users, in the order of the users, the plot is
    ready and the zoom level is kept. *)
Theorem plot_is_drawn_from_all_readings library_error f :
  let '(f', _, parent_status) := generate_plot_direct library_error f in
  match flat_map sensor_data (data f), library_error with
  | [], _ =>
      f' = set_status_text "No data available" f /\ parent_status = None
  | _ :: _, Some e =>
      plot_ready f' = plot_ready f /\
      status_text f' = ("Error: " ++ truncated e)%string /\
      parent_status = Some ("Plot error: " ++ truncated e)%string
  | df, None =>
      plot_ready f' = true /\
      drawing f' = Some (drawn (plot_type f) df) /\
      status_text f'
      = "Plot complete! Use +/- to zoom (25% steps), scrollbars to navigate."%string /\
      zoom_level f' = zoom_level f /\
      parent_status = None
  end.
Proof.
  unfold generate_plot_direct. cbv zeta.
  destruct (data f) as [|user users] eqn:D.
  - cbn [extract flat_map]. split; reflexivity.
  - destruct (extract_spec (Z.of_nat (List.length (user :: users))) (user :: users) 0 []
                ["Extracting sensor data (0%)..."%string])
      as (shown' & E); [cbn [List.length]; lia|].
    rewrite E. cbn [app].
    destruct (flat_map sensor_data (user :: users)) as [|reading readings].
    + split; reflexivity.
    + destruct library_error as [e|].
      * repeat split.
      * unfold drawn.
        destruct (String.eqb (plot_type f) "A"); [repeat split|].
        destruct (String.eqb (plot_type f) "B"); [repeat split|].
        destruct (String.eqb (plot_type f) "C"); repeat split.
Qed.

(** ** Plot B *)

Lemma series_sub_spec : forall outside room,
  List.length outside = List.length room ->
  Forall2 (fun x y => y <= x) outside room ->
  List.length (series_sub outside room) = List.length outside /\
  Forall (fun d => 0 <= d) (series_sub outside room).
Proof.
  induction outside as [|x outside IH]; intros [|y room] Len F; try discriminate Len.
  - split; [reflexivity | constructor].
  - inversion F as [|? ? ? ? Hxy F']; subst.
    destruct (IH room) as [L P]; [cbn in Len; congruence | exact F'|].
    cbn [series_sub List.length]. split; [rewrite L; reflexivity|].
    constructor; [|exact P]. unfold fsub. apply RN_nonneg. lra.
Qed.

Lemma Forall2_columns (df : list SensorRecord) :
  Forall (fun r => room_temperature r <= outside_temperature r) df ->
  Forall2 (fun x y => y <= x) (map outside_temperature df) (map room_temperature df).
Proof. induction 1; cbn [map]; constructor; assumption. Qed.

(** Plot B draws the first 500 readings, or all of them when there are
    fewer: its two lines and the differences it averages have that many
    points, taken in the order of the readings; and for readings whose
    room temperature is at most the outside temperature, as the generator
    makes them, no difference is negative. *)
Theorem plot_b_shows_first_readings df :
  Forall (fun r => room_temperature r <= outside_temperature r) df ->
  exists x outside room diff,
    plot_b df
    = Lines [mk_Line x outside "Outside Temperature" "red";
             mk_Line x room "Room Temperature" "blue"]
        "Sample Index" "Temperature (°F)"
        ("Outside vs Room Temperature" ++ nl ++ "(First "
         ++ format_thousands (Z.of_nat (Nat.min 500 (List.length df))) ++ " of "
         ++ format_thousands (Z.of_nat (List.length df)) ++ " samples)")
        [Text "Average difference: "; Fixed 2 StatisticsDialog.Mean diff;
         Text ("°F" ++ nl);
         Text "Max difference: "; Fixed 2 StatisticsDialog.Max diff; Text "°F"] /\
    x = map Z.of_nat (seq 0 (Nat.min 500 (List.length df))) /\
    outside = map outside_temperature (firstn 500 df) /\
    room = map room_temperature (firstn 500 df) /\
    List.length diff = Nat.min 500 (List.length df) /\
    Forall (fun d => 0 <= d) diff.
Proof.
  intros F. unfold plot_b. cbv zeta. unfold iloc.
  set (n := Nat.min 500 (List.length df)).
  assert (En : firstn n df = firstn 500 df).
  { unfold n. destruct (Nat.le_ge_cases 500 (List.length df)) as [H | H].
    - rewrite Nat.min_l by exact H. reflexivity.
    - rewrite Nat.min_r by exact H. rewrite firstn_all, firstn_all2 by exact H.
      reflexivity. }
  rewrite <- !firstn_map.
  eexists. eexists. eexists. eexists. split; [reflexivity|].
  split; [reflexivity|].
  rewrite !firstn_map, En. split; [reflexivity|]. split; [reflexivity|].
  assert (F' : Forall (fun r => room_temperature r <= outside_temperature r)
                      (firstn 500 df)).
  { rewrite <- (firstn_skipn 500 df) in F. apply Forall_app in F. apply F. }
  destruct (series_sub_spec (map outside_temperature (firstn 500 df))
              (map room_temperature (firstn 500 df))) as [L P].
  - rewrite !length_map. reflexivity.
  - apply Forall2_columns. exact F'.
  - split; [|exact P]. rewrite L, length_map, <- En, length_firstn.
    unfold n. lia.
Qed.

Lemma plot_b_shows_first_readings_witness :
  exists x outside room diff,
    plot_b (sensor_data sample_user)
    = Lines [mk_Line x outside "Outside Temperature" "red";
             mk_Line x room "Room Temperature" "blue"]
        "Sample Index" "Temperature (°F)"
        ("Outside vs Room Temperature" ++ nl ++ "(First "
         ++ format_thousands
              (Z.of_nat (Nat.min 500 (List.length (sensor_data sample_user))))
         ++ " of "
         ++ format_thousands (Z.of_nat (List.length (sensor_data sample_user)))
         ++ " samples)")
        [Text "Average difference: "; Fixed 2 StatisticsDialog.Mean diff;
         Text ("°F" ++ nl);
         Text "Max difference: "; Fixed 2 StatisticsDialog.Max diff; Text "°F"] /\
    x = map Z.of_nat (seq 0 (Nat.min 500 (List.length (sensor_data sample_user)))) /\
    outside = map outside_temperature (firstn 500 (sensor_data sample_user)) /\
    room = map room_temperature (firstn 500 (sensor_data sample_user)) /\
    List.length diff = Nat.min 500 (List.length (sensor_data sample_user)) /\
    Forall (fun d => 0 <= d) diff.
Proof.
  apply (plot_b_shows_first_readings (sensor_data sample_user)).
  constructor; [|constructor]. vm_compute. discriminate.
Defined.

End PlotFrameFacts.

(* ================================================================== *)
(** * Examples of a whole run *)
(* ================================================================== *)

Module RunExamples.

Import StatisticsDialog MainWindow DateRangeFacts RunFacts.

(** The report after the run from the sample state of the generators. *)
Lemma generation_run_date_range_witness :
  exists dataset w' report,
    generate_data sample_world = Ok (dataset, w') /\
    generate_statistics dataset = Ok report /\
    reports_range report "2015-01-01" "2015-09-07".
Proof.
  destruct (generate_data_spec sample_world) as (dataset & w' & E & _).
  destruct (generation_run_date_range sample_world dataset w' E)
    as (report & Hs & Hr & _).
  exists dataset, w', report. split; [exact E|]. split; [exact Hs | exact Hr].
Defined.

(** The two exports after the same run. *)
Lemma export_after_run_witness :
  exists dataset w',
    generate_data sample_world = Ok (dataset, w') /\
    Z.of_nat (json_reading_count (json_document dataset)) = (1000 * 1000)%Z /\
    Z.of_nat (List.length (csv_data (fun _ => EmptyString) dataset)) = (1 + 10000)%Z.
Proof.
  destruct (generate_data_spec sample_world) as (dataset & w' & E & _).
  destruct (export_after_run (fun _ => EmptyString) sample_world dataset w'
              "iot.json" E) as (_ & Hj & _ & Hc).
  exists dataset, w'. split; [exact E|]. split; [exact Hj | exact Hc].
Defined.

End RunExamples.
